(** * Tcg2AcpiFfa: in-place patching of the TPM2 SSDT

    A shallow embedding of [SecurityPkg/Tcg/Tcg2AcpiFfa/Tcg2AcpiFfa.c]:
    the three patchers [UpdatePPVersion], [UpdatePossibleResource] and
    [UpdateHID] that rewrite bytes of an already assembled AML table, and
    [PublishAcpiTable], which runs them and installs the table.

    Pointers into the table are offsets relative to [Table]; memory is flat,
    as on the UEFI platform the driver runs on, so an access beyond the
    declared table length reads or writes whatever follows the table. *)

From Stdlib Require Import ZArith List Bool Lia String Ascii.
Import ListNotations.
Local Open Scope Z_scope.

(** ** Machine integers and constants *)

(** The casts [(UINT8)] and [(UINT32)]: truncation to 8 and 32 bits. *)
Definition UINT8 (z : Z) : Z := z mod 256.
Definition UINT32 (z : Z) : Z := z mod 2 ^ 32.

Definition BIT6 : Z := 0x40.
Definition BIT7 : Z := 0x80.

(** The bytes of a C string literal, without the terminating NUL. *)
Definition bytes_of (s : string) : list Z :=
  map (fun c => Z.of_N (N_of_ascii c)) (list_ascii_of_string s).

Definition PHYSICAL_PRESENCE_VERSION_TAG : list Z := Eval cbv in bytes_of "$PV".
Definition PHYSICAL_PRESENCE_VERSION_SIZE : Z := 4.

Definition TPM_HID_TAG : list Z := Eval cbv in bytes_of "NNNN0000".
Definition TPM_HID_PNP_SIZE : Z := 8.
Definition TPM_HID_ACPI_SIZE : Z := 9.

Definition TPM_PRS_RESL : list Z := Eval cbv in bytes_of "RESL".
Definition TPM_PRS_RESS : list Z := Eval cbv in bytes_of "RESS".
Definition TPM_PRS_RES_NAME_SIZE : Z := 4.
Definition TPM_POS_RES_TEMPLATE_MIN_SIZE : Z := 1 + 1 + 2 + 12 + 5 + 2.
Definition MAX_PRS_INT_BUF_SIZE : Z := 15 * 4.

(** Constants of the headers the driver includes (AcpiAml.h, Acpi10.h,
    UefiBaseType.h); the headers are not part of the driver's source, the
    values are the ones the ACPI and UEFI specifications fix. *)
Definition AML_BYTE_PREFIX : Z := 0x0A.
Definition AML_WORD_PREFIX : Z := 0x0B.
Definition AML_DWORD_PREFIX : Z := 0x0C.
Definition AML_NOOP_OP : Z := 0xA3.
Definition ACPI_END_TAG_DESCRIPTOR : Z := 0x79.

(** [sizeof (EFI_ACPI_DESCRIPTION_HEADER)]: the scans start at [Table + 1],
    the first byte after the header. *)
Definition sizeof_EFI_ACPI_DESCRIPTION_HEADER : Z := 36.

Inductive EFI_STATUS : Set :=
| EFI_SUCCESS
| EFI_INVALID_PARAMETER
| EFI_UNSUPPORTED
| EFI_BUFFER_TOO_SMALL
| EFI_DEVICE_ERROR
| EFI_NOT_FOUND.

Definition EFI_ERROR (Status : EFI_STATUS) : bool :=
  match Status with EFI_SUCCESS => false | _ => true end.

(** ** Memory

    The library functions the driver calls ([CopyMem], [SetMem] and
    [CompareMem] of BaseMemoryLib, [AsciiStrCmp] and [AsciiStrCpyS] of
    BaseLib, [AsciiSPrint] of PrintLib) belong to MdePkg, outside this
    repository; each is modelled by the contract its header documents. *)

(** Flat byte memory addressed relative to [Table]. *)
Definition mem : Type := Z -> Z.

Definition byte_mem (m : mem) : Prop := forall a, 0 <= m a < 256.

(** A one-byte store through the pointer [p]. *)
Definition poke (m : mem) (p v : Z) : mem :=
  fun a => if a =? p then v else m a.

(** The memory whose first bytes are [l]; zero elsewhere. *)
Definition mem_of_bytes (l : list Z) : mem :=
  fun a => if a <? 0 then 0 else nth (Z.to_nat a) l 0.

Definition bytes_of_mem (m : mem) (first : Z) (n : nat) : list Z :=
  map (fun i => m (first + Z.of_nat i)) (seq 0 n).

(** BaseMemoryLib [CopyMem], the source being a separate buffer whose
    byte [i] is [Source i]. *)
Definition CopyMem (m : mem) (Destination : Z) (Source : Z -> Z) (Length : Z) : mem :=
  fun a => if (Destination <=? a) && (a <? Destination + Length)
           then Source (a - Destination) else m a.

(** BaseMemoryLib [SetMem]. *)
Definition SetMem (m : mem) (Buffer Length Value : Z) : mem :=
  fun a => if (Buffer <=? a) && (a <? Buffer + Length) then Value else m a.

Fixpoint compare_bytes (m : mem) (Destination : Z) (Source : list Z) : Z :=
  match Source with
  | [] => 0
  | c :: Source' =>
      if m Destination =? c then compare_bytes m (Destination + 1) Source'
      else m Destination - c
  end.

(** BaseMemoryLib [CompareMem]: 0 when the [Length] bytes are equal, else
    the difference of the first pair of bytes that differ. *)
Definition CompareMem (m : mem) (Destination : Z) (Source : list Z) (Length : Z) : Z :=
  compare_bytes m Destination (firstn (Z.to_nat Length) Source).

(** BaseLib [AsciiStrCmp] of the string at [First] with a literal whose
    characters are [Second]: walk both while the characters are equal and
    not NUL, return the difference of the characters where the walk stops. *)
Fixpoint AsciiStrCmp (m : mem) (First : Z) (Second : list Z) : Z :=
  match Second with
  | [] => m First - 0
  | c :: Second' =>
      if (negb (m First =? 0)) && (m First =? c)
      then AsciiStrCmp m (First + 1) Second'
      else m First - c
  end.

(** [Table->Length], the little-endian UINT32 at offset 4 of the header. *)
Definition Table_Length (Table : mem) : Z :=
  Table 4 + Table 5 * 2 ^ 8 + Table 6 * 2 ^ 16 + Table 7 * 2 ^ 24.

(** ** The scanning loops

    [for (DataPtr = first; DataPtr < limit; DataPtr += 1)] whose body leaves
    the loop at the first position where [hit] holds: the position of the
    first hit, or [None] when the loop runs to its end. *)
Fixpoint scan (hit : Z -> bool) (DataPtr : Z) (n : nat) : option Z :=
  match n with
  | O => None
  | S n' => if hit DataPtr then Some DataPtr else scan hit (DataPtr + 1) n'
  end.

Definition for_DataPtr (hit : Z -> bool) (first limit : Z) : option Z :=
  scan hit first (Z.to_nat (limit - first)).

(** ** UpdatePossibleResource *)

(** The loop bound of both loops of [UpdatePossibleResource]. *)
Definition ScanLimit (Table : mem) : Z :=
  Table_Length Table - (TPM_PRS_RES_NAME_SIZE + TPM_POS_RES_TEMPLATE_MIN_SIZE).

Definition FindName (Table : mem) (Name : list Z) : option Z :=
  for_DataPtr
    (fun DataPtr => CompareMem Table DataPtr Name TPM_PRS_RES_NAME_SIZE =? 0)
    sizeof_EFI_ACPI_DESCRIPTION_HEADER (ScanLimit Table).

(** "Jump over BufferSize": the bytes the BufferSize integer takes, by its
    prefix byte. *)
Definition BufferSizeLen (prefix : Z) : option Z :=
  if prefix =? AML_BYTE_PREFIX then Some 2
  else if prefix =? AML_WORD_PREFIX then Some 3
  else if prefix =? AML_DWORD_PREFIX then Some 5
  else None.

(** The PkgLength codec of the function, one definition per step.

    Line 217: a PkgLeadByte whose bits 7-6 are zero is the package length. *)
Definition DecodeShortPkgLength (Table0 : mem) (DataPtr : Z) : Z :=
  Table0 DataPtr.

(** Line 259: "1.1 Patch PkgLength". *)
Definition EncodeShortPkgLength (Table0 : mem) (DataPtr NewPkgLength : Z) : mem :=
  poke Table0 DataPtr (UINT8 NewPkgLength).

(** Line 298: the number of ByteData that follow the PkgLeadByte. *)
Definition ByteDataCount (PkgLeadByte : Z) : Z :=
  Z.shiftr (Z.land PkgLeadByte (Z.lor BIT7 BIT6)) 6.

(** Line 293: the package length read from a PkgLeadByte and the first
    ByteData. *)
Definition DecodeLongPkgLength (Table0 : mem) (DataPtr : Z) : Z :=
  UINT32 (Z.shiftl (Table0 (DataPtr + 1)) 4 + Z.land (Table0 DataPtr) 0x0F).

(** Lines 331-332: "2.1 Patch PkgLength. Only patch PkgLeadByte and first
    ByteData". *)
Definition EncodeLongPkgLength (Table0 : mem) (DataPtr NewPkgLength : Z) : mem :=
  let Table1 :=
    poke Table0 DataPtr
      (UINT8 (Z.lor (UINT8 (Z.land (Table0 DataPtr) 0xF0))
                    (Z.land NewPkgLength 0x0F))) in
  poke Table1 (DataPtr + 1) (UINT8 (Z.shiftr (Z.land NewPkgLength 0xFF0) 4)).

(** The local variables and the memory the function works on. *)
Record Locals : Type := mkLocals {
  Table : mem;
  IsShortFormPkgLength : bool;
  DataPtr : Z;
  DataEndPtr : option Z;          (* [None] is [NULL] *)
  NewPkgLength : Z;
  OriginalPkgLength : Z
}.

(** Either the function has returned, or control goes on to the next part. *)
Inductive flow : Type :=
| Return (Status : EFI_STATUS) (Table : mem) (IsShortFormPkgLength : bool)
| Next (s : Locals).

(** The byte [i] of the caller's interrupt buffer. *)
Definition IrqByte (IrqBuffer : list Z) (i : Z) : Z :=
  nth (Z.to_nat i) IrqBuffer 0.

(** Part 1 (lines 206-274): the RESS template, PkgLength <= 63. *)
Definition PatchRESS (IrqBuffserSize : Z) (Table0 : mem) (Flag0 : bool) : flow :=
  match FindName Table0 TPM_PRS_RESS with
  | None =>
      Next (mkLocals Table0 Flag0
              (Z.max sizeof_EFI_ACPI_DESCRIPTION_HEADER (ScanLimit Table0))
              None 0 0)
  | Some DataPtr =>
      let DataPtr := DataPtr + (TPM_PRS_RES_NAME_SIZE + 1) in
      if Z.land (Table0 DataPtr) (Z.lor BIT7 BIT6) =? 0 then
        let OriginalPkgLength := DecodeShortPkgLength Table0 DataPtr in
        let DataEndPtr := DataPtr + OriginalPkgLength in
        let NewPkgLength := UINT32 (0 + 1) in
        match BufferSizeLen (Table0 (DataPtr + 1)) with
        | Some n =>
            let NewPkgLength := UINT32 (NewPkgLength + n) in
            let NewPkgLength := UINT32 (NewPkgLength + (19 + IrqBuffserSize)) in
            if NewPkgLength >? 63 then
              Next (mkLocals Table0 Flag0 DataPtr (Some DataEndPtr)
                      NewPkgLength OriginalPkgLength)
            else if NewPkgLength >? OriginalPkgLength then
              Return EFI_INVALID_PARAMETER Table0 Flag0
            else
              let Table1 := EncodeShortPkgLength Table0 DataPtr NewPkgLength in
              let Table2 := poke Table1 (DataPtr + 2) (UINT8 (IrqBuffserSize + 19)) in
              Next (mkLocals Table2 true DataPtr (Some DataEndPtr)
                      NewPkgLength OriginalPkgLength)
        | None => Return EFI_UNSUPPORTED Table0 Flag0
        end
      else Return EFI_UNSUPPORTED Table0 Flag0
  end.

(** Part 2 (lines 279-347): the RESL template, entered when part 1 left
    [NewPkgLength > 63]. *)
Definition PatchRESL (IrqBuffserSize : Z) (s : Locals) : flow :=
  if NewPkgLength s >? 63 then
    let Table0 := Table s in
    let Flag0 := IsShortFormPkgLength s in
    match FindName Table0 TPM_PRS_RESL with
    | None =>
        Next (mkLocals Table0 Flag0
                (Z.max sizeof_EFI_ACPI_DESCRIPTION_HEADER (ScanLimit Table0))
                (DataEndPtr s) 0 0)
    | Some DataPtr =>
        let DataPtr := DataPtr + (TPM_PRS_RES_NAME_SIZE + 1) in
        if negb (Z.land (Table0 DataPtr) (Z.lor BIT7 BIT6) =? 0) then
          let OriginalPkgLength := DecodeLongPkgLength Table0 DataPtr in
          let DataEndPtr := DataPtr + OriginalPkgLength in
          let NewPkgLength := UINT32 (0 + (1 + ByteDataCount (Table0 DataPtr))) in
          match BufferSizeLen (Table0 (DataPtr + NewPkgLength)) with
          | Some n =>
              let NewPkgLength := UINT32 (NewPkgLength + n) in
              let NewPkgLength := UINT32 (NewPkgLength + (19 + IrqBuffserSize)) in
              if NewPkgLength >? OriginalPkgLength then
                Return EFI_INVALID_PARAMETER Table0 Flag0
              else
                let Table2 := EncodeLongPkgLength Table0 DataPtr NewPkgLength in
                let Table3 :=
                  poke Table2 (DataPtr + 2 + ByteDataCount (Table2 DataPtr))
                    (UINT8 (IrqBuffserSize + 19)) in
                Next (mkLocals Table3 false DataPtr (Some DataEndPtr)
                        NewPkgLength OriginalPkgLength)
          | None => Return EFI_UNSUPPORTED Table0 Flag0
          end
        else Return EFI_UNSUPPORTED Table0 Flag0
    end
  else Next s.

(** Parts 3 to 5 (lines 349-386): the not-found test, the Interrupt
    descriptor, the End Tag and the NoOp filling. *)
Definition PatchInterrupt (IrqBuffer : list Z) (IrqBuffserSize : Z) (s : Locals)
  : EFI_STATUS * mem * bool :=
  if DataPtr s >=? ScanLimit (Table s) then
    (EFI_NOT_FOUND, Table s, IsShortFormPkgLength s)
  else
    let DataPtr := DataPtr s + UINT32 (NewPkgLength s - UINT32 (5 + IrqBuffserSize + 2)) in
    let Table1 := poke (Table s) (DataPtr + 1) (UINT8 (2 + IrqBuffserSize)) in
    let Table2 := poke Table1 (DataPtr + 4) (UINT8 (IrqBuffserSize / 4)) in
    let Table3 := CopyMem Table2 (DataPtr + 5) (IrqByte IrqBuffer) IrqBuffserSize in
    let DataPtr := DataPtr + UINT32 (5 + IrqBuffserSize) in
    let Table4 := poke Table3 DataPtr ACPI_END_TAG_DESCRIPTOR in
    let Table5 := poke Table4 (DataPtr + 1) 0 in
    let DataPtr := DataPtr + 2 in
    let Table6 :=
      match DataEndPtr s with
      | Some DataEndPtr =>
          if DataPtr <? DataEndPtr
          then SetMem Table5 DataPtr (DataEndPtr - DataPtr) AML_NOOP_OP
          else Table5
      | None => Table5
      end in
    (EFI_SUCCESS, Table6, IsShortFormPkgLength s).

(** The function: status, memory afterwards, and [*IsShortFormPkgLength]
    afterwards ([Flag0] is what the caller's variable held before). *)
Definition UpdatePossibleResource
  (Table0 : mem) (IrqBuffer : list Z) (IrqBuffserSize : Z) (Flag0 : bool)
  : EFI_STATUS * mem * bool :=
  match PatchRESS IrqBuffserSize Table0 Flag0 with
  | Return Status T F => (Status, T, F)
  | Next s1 =>
      match PatchRESL IrqBuffserSize s1 with
      | Return Status T F => (Status, T, F)
      | Next s2 => PatchInterrupt IrqBuffer IrqBuffserSize s2
      end
  end.

(** ** UpdatePPVersion *)

(** [for (DataPtr = first; DataPtr <= last; DataPtr += 1)]. *)
Definition for_DataPtr_le (hit : Z -> bool) (first last : Z) : option Z :=
  for_DataPtr hit first (last + 1).

(** The bytes of a buffer given as a list, as a [CopyMem] source. *)
Definition ListByte (l : list Z) (i : Z) : Z := nth (Z.to_nat i) l 0.

(** BaseLib [AsciiStrCpyS] into the table: [Source] holds the characters of
    the source string without its NUL.  The copy is refused when the
    destination of [DestMax] bytes cannot take the string and its NUL. *)
Definition AsciiStrCpyS (m : mem) (Destination DestMax : Z) (Source : list Z)
  : EFI_STATUS * mem :=
  let SourceLen := Z.of_nat (List.length Source) in
  if DestMax =? 0 then (EFI_INVALID_PARAMETER, m)
  else if DestMax <=? SourceLen then (EFI_BUFFER_TOO_SMALL, m)
  else (EFI_SUCCESS,
        poke (CopyMem m Destination (ListByte Source) SourceLen)
             (Destination + SourceLen) 0).

Definition UpdatePPVersion (Table : mem) (PPVer : list Z) : EFI_STATUS * mem :=
  match for_DataPtr_le
          (fun DataPtr => AsciiStrCmp Table DataPtr PHYSICAL_PRESENCE_VERSION_TAG =? 0)
          sizeof_EFI_ACPI_DESCRIPTION_HEADER
          (Table_Length Table - PHYSICAL_PRESENCE_VERSION_SIZE) with
  | Some DataPtr => AsciiStrCpyS Table DataPtr PHYSICAL_PRESENCE_VERSION_SIZE PPVer
  | None => (EFI_NOT_FOUND, Table)
  end.

(** ** UpdateHID *)

(** The decimal digits of [v], least significant first, as ASCII. *)
Fixpoint dec_digits_rev (fuel : nat) (v : Z) : list Z :=
  match fuel with
  | O => []
  | S fuel' =>
      (0x30 + v mod 10) :: (if v / 10 =? 0 then [] else dec_digits_rev fuel' (v / 10))
  end.

(** PrintLib's ["%02d"] of a non-negative [int]: decimal, padded with zeros
    to two characters. *)
Definition fmt_02d (v : Z) : list Z :=
  let d := rev (dec_digits_rev 10 v) in
  repeat 0x30 (2 - List.length d) ++ d.

(** PrintLib [AsciiSPrint (Buffer, BufferSize, "%02d%02d", a, b)] into the
    local array [Hid] at offset [off]: at most [BufferSize - 1] characters
    and a NUL. *)
Definition AsciiSPrint_02d02d (Hid : mem) (off BufferSize a b : Z) : mem :=
  let out := firstn (Z.to_nat (BufferSize - 1)) (fmt_02d a ++ fmt_02d b) ++ [0] in
  CopyMem Hid off (ListByte out) (Z.of_nat (List.length out)).

(** The bytes of a UINT32 in memory (little-endian). *)
Definition UINT32_bytes (v : Z) (i : Z) : Z := Z.shiftr v (8 * i) mod 256.

(** [MfrResult] and [FwResult] are what [Tpm2GetCapabilityManufactureID] and
    [Tpm2GetCapabilityFirmwareVersion] (Tpm2CommandLib) return: the status
    and the values stored through their pointer arguments. *)
Definition UpdateHID
  (Table : mem) (MfrResult : EFI_STATUS * Z) (FwResult : EFI_STATUS * Z * Z)
  : EFI_STATUS * mem :=
  let Hid : mem := fun _ => 0 in
  let '(Status, ManufacturerID) := MfrResult in
  if negb (EFI_ERROR Status) then
    let '(Hid, PnpHID) :=
      if (Z.shiftr ManufacturerID 24 =? 0x00) || (Z.shiftr ManufacturerID 24 =? 0x20)
      then (CopyMem Hid 0 (UINT32_bytes ManufacturerID) 3, true)
      else (CopyMem Hid 0 (UINT32_bytes ManufacturerID) 4, false) in
    let '(Status, FirmwareVersion1, FirmwareVersion2) := FwResult in
    if negb (EFI_ERROR Status) then
      let Hid :=
        if PnpHID
        then AsciiSPrint_02d02d Hid 3 (TPM_HID_PNP_SIZE - 3)
               (Z.shiftr (Z.land FirmwareVersion1 0xFFFF0000) 16)
               (Z.land FirmwareVersion1 0x0000FFFF)
        else AsciiSPrint_02d02d Hid 4 (TPM_HID_ACPI_SIZE - 4)
               (Z.shiftr (Z.land FirmwareVersion1 0xFFFF0000) 16)
               (Z.land FirmwareVersion1 0x0000FFFF) in
      match for_DataPtr_le
              (fun DataPtr => AsciiStrCmp Table DataPtr TPM_HID_TAG =? 0)
              sizeof_EFI_ACPI_DESCRIPTION_HEADER
              (Table_Length Table - TPM_HID_PNP_SIZE) with
      | Some DataPtr =>
          if PnpHID
          then (Status,
                poke (CopyMem Table DataPtr Hid TPM_HID_PNP_SIZE)
                     (DataPtr + TPM_HID_PNP_SIZE) AML_NOOP_OP)
          else (Status, CopyMem Table DataPtr Hid TPM_HID_ACPI_SIZE)
      | None => (EFI_NOT_FOUND, Table)
      end
    else (Status, Table)
  else (Status, Table).

(** ** What the statements speak of *)

(** The bytes of [m] at [p] are [pat]. *)
Definition occurs_at (m : mem) (p : Z) (pat : list Z) : Prop :=
  bytes_of_mem m p (List.length pat) = pat.

(** [pat] occurs nowhere at the positions [first <= p < limit]. *)
Definition absent (m : mem) (pat : list Z) (first limit : Z) : Prop :=
  forall p, first <= p < limit -> ~ occurs_at m p pat.

(** [T'] holds the same table as [T]: the same declared length and the same
    bytes in front of the boundary it declares; what lies at the boundary
    and beyond may differ. *)
Definition same_table (T T' : mem) : Prop :=
  Table_Length T' = Table_Length T /\
  forall a, 0 <= a < Table_Length T -> T' a = T a.

Definition is_byte (b : Z) : bool := (0 <=? b) && (b <? 256).

(** The parts of a result. *)
Definition StatusOf (r : EFI_STATUS * mem * bool) : EFI_STATUS := fst (fst r).
Definition MemoryAfter (r : EFI_STATUS * mem * bool) : mem := snd (fst r).
Definition FlagAfter (r : EFI_STATUS * mem * bool) : bool := snd r.

(** The package length the function computes for a patched template whose
    PkgLength and BufferSize encodings take [enc] bytes: the encodings, the
    Memory32Fixed descriptor (12), the Interrupt descriptor header (5), the
    interrupt list ([L]) and the End Tag (2), as a UINT32. *)
Definition NewLength (enc L : Z) : Z := UINT32 (enc + 19 + L).

(** The first "RESS" of the scanned region is at [p], its PkgLeadByte is in
    short form and its BufferSize integer takes [n] bytes. *)
Definition ShortTemplate (T : mem) (p n : Z) : Prop :=
  FindName T TPM_PRS_RESS = Some p /\
  Z.land (T (p + 5)) 0xC0 = 0 /\
  BufferSizeLen (T (p + 6)) = Some n.

(** The first "RESL" of the scanned region is at [q], its PkgLeadByte
    announces [c] (1 to 3) ByteData and its BufferSize integer takes [n]
    bytes. *)
Definition LongTemplate (T : mem) (q c n : Z) : Prop :=
  FindName T TPM_PRS_RESL = Some q /\
  Z.land (T (q + 5)) 0xC0 <> 0 /\
  c = Z.shiftr (Z.land (T (q + 5)) 0xC0) 6 /\
  BufferSizeLen (T (q + 5 + 1 + c)) = Some n.

(** The RESS template is there and the package length computed for it
    exceeds 63: part 1 leaves the work to part 2. *)
Definition WantsLong (T : mem) (L : Z) : Prop :=
  exists p n, ShortTemplate T p n /\ 63 < NewLength (1 + n) L.

(** [Selects T L short hdr enc New Orig]: for an interrupt list of [L] bytes
    the function works on the template whose PkgLength starts at [hdr]
    ([short] tells which of the two); [enc] bytes of PkgLength and BufferSize
    precede its resource descriptors, [New] is the package length computed
    for the patched template and [Orig] the one decoded from the table. *)
Inductive Selects (T : mem) (L : Z) : bool -> Z -> Z -> Z -> Z -> Prop :=
| Selects_RESS p n :
    ShortTemplate T p n ->
    NewLength (1 + n) L <= 63 ->
    Selects T L true (p + 5) (1 + n) (NewLength (1 + n) L) (T (p + 5))
| Selects_RESL q c n :
    WantsLong T L ->
    LongTemplate T q c n ->
    Selects T L false (q + 5) (1 + c + n) (NewLength (1 + c + n) L)
            (T (q + 6) * 16 + T (q + 5) mod 16).

(** The PkgLeadByte behind a located name and BufferOp is not of the form
    expected for that name, or the byte behind the PkgLength is none of the
    three integer prefixes. *)
Inductive UnsupportedEncoding (T : mem) (L : Z) : Prop :=
| RESS_not_short_form p :
    FindName T TPM_PRS_RESS = Some p ->
    Z.land (T (p + 5)) 0xC0 <> 0 ->
    UnsupportedEncoding T L
| RESS_unknown_prefix p :
    FindName T TPM_PRS_RESS = Some p ->
    T (p + 6) <> AML_BYTE_PREFIX ->
    T (p + 6) <> AML_WORD_PREFIX ->
    T (p + 6) <> AML_DWORD_PREFIX ->
    UnsupportedEncoding T L
| RESL_not_long_form q :
    WantsLong T L ->
    FindName T TPM_PRS_RESL = Some q ->
    Z.land (T (q + 5)) 0xC0 = 0 ->
    UnsupportedEncoding T L
| RESL_unknown_prefix q c :
    WantsLong T L ->
    FindName T TPM_PRS_RESL = Some q ->
    c = Z.shiftr (Z.land (T (q + 5)) 0xC0) 6 ->
    T (q + 5 + 1 + c) <> AML_BYTE_PREFIX ->
    T (q + 5 + 1 + c) <> AML_WORD_PREFIX ->
    T (q + 5 + 1 + c) <> AML_DWORD_PREFIX ->
    UnsupportedEncoding T L.

(** The value of [count] ByteData starting at [first], the first one the
    least significant. *)
Fixpoint ByteData_value (T : mem) (first : Z) (count : nat) : Z :=
  match count with
  | O => 0
  | S count' => T first + 256 * ByteData_value T (first + 1) count'
  end.

(** The long form by the words of the specification: bits 7-6 of the header
    byte count the extra bytes that follow, and the value is the low
    nibble of the header byte combined with all of them, little-endian,
    shifted by 4 bits (the PkgLength of the AML grammar). *)
Definition PkgLength_by_the_words (T : mem) (hdr : Z) : Z :=
  Z.land (T hdr) 0x0F
  + Z.shiftl (ByteData_value T (hdr + 1) (Z.to_nat (Z.shiftr (T hdr) 6))) 4.

(** ** The memory after each part, in closed form *)

(** The memory after the PkgLength and BufferSize of the template at [hdr]
    are patched (1.1 and 1.2, or 2.1 and 2.2). *)
Definition ShortHeader (T : mem) (hdr New L : Z) : mem :=
  poke (EncodeShortPkgLength T hdr New) (hdr + 2) (UINT8 (L + 19)).

Definition LongHeader (T : mem) (hdr New L : Z) : mem :=
  let T2 := EncodeLongPkgLength T hdr New in
  poke T2 (hdr + 2 + ByteDataCount (T2 hdr)) (UINT8 (L + 19)).

Definition Header (short : bool) : mem -> Z -> Z -> Z -> mem :=
  if short then ShortHeader else LongHeader.

(** The memory after the Interrupt descriptor at [hdr + enc + 12] is
    rewritten, the End Tag put behind the list and the rest of the package,
    up to [hdr + Orig], filled with NoOp. *)
Definition Patched (Thdr : mem) (IrqBuffer : list Z) (L hdr enc Orig : Z) : mem :=
  let d := hdr + (enc + 12) in
  let T1 := poke Thdr (d + 1) (UINT8 (2 + L)) in
  let T2 := poke T1 (d + 4) (UINT8 (L / 4)) in
  let T3 := CopyMem T2 (d + 5) (IrqByte IrqBuffer) L in
  let t := d + UINT32 (5 + L) in
  let T5 := poke (poke T3 t ACPI_END_TAG_DESCRIPTOR) (t + 1) 0 in
  if t + 2 <? hdr + Orig
  then SetMem T5 (t + 2) (hdr + Orig - (t + 2)) AML_NOOP_OP
  else T5.

(** ** Example tables *)

(** A table: the 36-byte header, whose Length field declares the header
    and [body], then [body], then [after] (memory behind the table). *)
Definition mk_table (body after : list Z) : mem :=
  let len := 36 + Z.of_nat (List.length body) in
  mem_of_bytes
    ([0x53; 0x53; 0x44; 0x54;
      len mod 256; (len / 256) mod 256; 0; 0]
     ++ repeat 0 28 ++ body ++ after).

Definition Memory32Fixed : list Z :=
  [0x86; 0x09; 0x00; 0x01; 0x00; 0x00; 0xD4; 0xFE; 0x00; 0x50; 0x00; 0x00].

(** An Extended Interrupt descriptor listing the interrupts 1 to [n]. *)
Definition InterruptDescriptor (n : nat) : list Z :=
  [0x89; 2 + 4 * Z.of_nat n; 0x00; 0x15; Z.of_nat n]
  ++ flat_map (fun i => [Z.of_nat i; 0; 0; 0]) (seq 1 n).

(** [Name (RESS, ResourceTemplate () {...})] with [n] interrupts, as the ASL
    compiler emits it when the package length is at most 63. *)
Definition RESS_template (n : nat) : list Z :=
  TPM_PRS_RESS
  ++ [0x11; 22 + 4 * Z.of_nat n; AML_BYTE_PREFIX; 19 + 4 * Z.of_nat n]
  ++ Memory32Fixed ++ InterruptDescriptor n ++ [ACPI_END_TAG_DESCRIPTOR; 0].

(** The same under the name RESL with a two-byte PkgLength. *)
Definition RESL_template (n : nat) : list Z :=
  TPM_PRS_RESL
  ++ [0x11; 0x40 + (23 + 4 * Z.of_nat n) mod 16; (23 + 4 * Z.of_nat n) / 16;
      AML_BYTE_PREFIX; 19 + 4 * Z.of_nat n]
  ++ Memory32Fixed ++ InterruptDescriptor n ++ [ACPI_END_TAG_DESCRIPTOR; 0].

(** A table with a RESS template for 10 and a RESL template for 15
    interrupts, the sizes of the templates of Tpm.asl. *)
Definition TpmTable : mem :=
  mk_table ([0x08] ++ RESS_template 10 ++ [0x08] ++ RESL_template 15
            ++ repeat 0x00 8) [].

(** A table whose RESS template has room for one interrupt only. *)
Definition TightTable : mem :=
  mk_table ([0x08] ++ RESS_template 1 ++ [0x08] ++ RESL_template 2
            ++ repeat 0x00 8) [].

(** A table with the RESL template alone. *)
Definition NoRESSTable : mem :=
  mk_table ([0x08] ++ RESL_template 15 ++ repeat 0x00 8) [].

(** The byte image of the interrupt numbers [first .. first + n - 1]. *)
Definition irq_list (first n : nat) : list Z :=
  flat_map (fun i => [Z.of_nat i; 0; 0; 0]) (seq first n).

(** [TpmTable] with the PkgLeadByte of RESL turned into a short form. *)
Definition ShortRESLTable : mem := poke TpmTable 110 0x3F.

(** A table whose RESL buffer is declared with 4154 bytes, most of them
    zero: a package of 4160 bytes, with a PkgLength of three bytes
    (0x80 0x04 0x01) and a BufferSize with a WordPrefix. *)
Definition WideTable : mem :=
  mk_table
    ([0x08] ++ RESS_template 10 ++ [0x08]
     ++ TPM_PRS_RESL ++ [0x11; 0x80; 0x04; 0x01; AML_WORD_PREFIX; 0x3A; 0x10]
     ++ Memory32Fixed ++ InterruptDescriptor 15 ++ [ACPI_END_TAG_DESCRIPTOR; 0]
     ++ repeat 0x00 4075) [].

(** A table with a RESS template and none of the other markers, and the
    same table with all the markers right behind its boundary. *)
Definition RESSOnlyTable : mem :=
  mk_table ([0x08] ++ RESS_template 10 ++ repeat 0x00 30) [].

Definition RESSOnlyTable' : mem :=
  mk_table ([0x08] ++ RESS_template 10 ++ repeat 0x00 30)
    (PHYSICAL_PRESENCE_VERSION_TAG ++ [0] ++ TPM_HID_TAG ++ [0]
     ++ RESL_template 15).

(** ** PublishAcpiTable *)

(** What [PublishAcpiTable] takes from the platform: the table that
    [GetSectionFromFv] hands out and its size, the PCDs it reads, what the
    two TPM capability queries return (see [UpdateHID]), and the
    [InstallAcpiTable] service of the ACPI table protocol, which is given
    the table and its size and returns a status.  [GetSectionFromFv] and
    [LocateProtocol] are taken to succeed, and the [ASSERT_EFI_ERROR] and
    [DEBUG] macros to do nothing, as in a release build. *)
Record Platform : Type := mkPlatform {
  SectionTable : mem;
  SectionSize : Z;
  PcdSkipTcgSmmAcpiMeasurements : bool;
  PcdTcgPhysicalPresenceInterfaceVer : list Z;
  ManufactureID : EFI_STATUS * Z;
  FirmwareVersion : EFI_STATUS * Z * Z;
  PcdTpm2CurrentIrqNum : Z;
  PcdTpm2PossibleIrqNumBuf : list Z;
  InstallAcpiTable : mem -> Z -> EFI_STATUS
}.

(** What a call of [PublishAcpiTable] does: the status it returns, the
    data it gave to [TpmMeasureAndLogData], the table it gave to
    [InstallAcpiTable] (if it came to that), and the table memory at its
    end. *)
Record Published : Type := mkPublished {
  PublishStatus : EFI_STATUS;
  Measured : option (mem * Z);
  Installed : option (mem * Z);
  TableAfter : mem
}.

Definition PublishAcpiTable (P : Platform) : Published :=
  let IsShortFormPkgLength := false in
  let Table := SectionTable P in
  let TableSize := SectionSize P in
  let Measured :=
    if negb (PcdSkipTcgSmmAcpiMeasurements P) then Some (Table, TableSize)
    else None in
  let '(Status, Table) :=
    UpdatePPVersion Table (PcdTcgPhysicalPresenceInterfaceVer P) in
  let '(Status, Table) :=
    UpdateHID Table (ManufactureID P) (FirmwareVersion P) in
  if EFI_ERROR Status then mkPublished Status Measured None Table
  else
    let Table :=
      if negb (PcdTpm2CurrentIrqNum P =? 0) then
        let PossibleIrqNumBuf := PcdTpm2PossibleIrqNumBuf P in
        let PossibleIrqNumBufSize :=
          UINT32 (Z.of_nat (List.length (PcdTpm2PossibleIrqNumBuf P))) in
        if (PossibleIrqNumBufSize <=? MAX_PRS_INT_BUF_SIZE)
           && (PossibleIrqNumBufSize mod 4 =? 0)
        then
          MemoryAfter
            (UpdatePossibleResource Table PossibleIrqNumBuf
               PossibleIrqNumBufSize IsShortFormPkgLength)
        else Table
      else Table in
    let Status := InstallAcpiTable P Table TableSize in
    mkPublished Status Measured (Some (Table, TableSize)) Table.

(** ** More of what the statements speak of *)

(** [p] is the first position from [first] on, and below [limit], where
    [pat] occurs. *)
Definition first_occurrence (m : mem) (pat : list Z) (first limit p : Z) : Prop :=
  first <= p < limit /\ occurs_at m p pat /\ absent m pat first p.

(** The name of a template lies so close to the end of the scanned region
    that the pointer behind name and BufferOp is not below the bound any
    more. *)
Definition AtTheEnd (T : mem) (hdr : Z) : Prop := ScanLimit T <= hdr.

Definition is_digit (c : Z) : bool := (0x30 <=? c) && (c <=? 0x39).

(** The package length as the function reads it at a PkgLeadByte: by the
    form the byte announces. *)
Definition PkgLengthAt (T : mem) (hdr : Z) : Z :=
  if ByteDataCount (T hdr) =? 0
  then DecodeShortPkgLength T hdr
  else DecodeLongPkgLength T hdr.

(** A table that ends one byte behind a RESS template for one interrupt:
    the name is the first of the last five positions the scan visits. *)
Definition EndTable : mem :=
  mk_table ([0x08] ++ RESS_template 1 ++ [0x00]) [].

(** Tables with the tag "$PV", with the tag "NNNN0000", and with the tag
    "NNNN0000" as the last bytes, its NUL being the byte behind the table. *)
Definition VersionTable : mem :=
  mk_table ([0x0D] ++ PHYSICAL_PRESENCE_VERSION_TAG ++ [0; 0x08]) [].

Definition HidTable : mem :=
  mk_table ([0x0D] ++ TPM_HID_TAG ++ [0; 0x08; 0x08]) [].

Definition HidEndTable : mem :=
  mk_table (repeat 0x08 20 ++ TPM_HID_TAG) [0x00].

(** A table with the three markers, and a platform that publishes it with
    two interrupts. *)
Definition SsdtTable : mem :=
  mk_table ([0x0D] ++ PHYSICAL_PRESENCE_VERSION_TAG ++ [0; 0x0D]
            ++ TPM_HID_TAG ++ [0; 0x08]
            ++ RESS_template 10 ++ [0x08] ++ RESL_template 15
            ++ repeat 0x00 8) [].

Definition ExamplePlatform : Platform :=
  mkPlatform SsdtTable 216 false (bytes_of "1.3")
    (EFI_SUCCESS, 0x004C544E) (EFI_SUCCESS, 0x00070055, 0)
    12 (irq_list 12 2) (fun _ _ => EFI_SUCCESS).

(** ** The patched template

    [TemplatePatched T T' IrqBuffer L hdr enc Orig]: in [T'] the template
    of [T] whose PkgLength starts at [hdr] holds the list.  Nothing in front
    of the PkgLength differs from [T]; the End Tag stands [UINT32 (5 + L)]
    bytes behind the start of the Interrupt descriptor, which is
    [enc + 12] bytes behind [hdr]; NoOp fills the rest of the original
    package, which ends at [hdr + Orig].  For a list of at most 60 bytes
    (the most [PublishAcpiTable] passes) the descriptor has the length byte
    [2 + L] and the count [L / 4], the list follows its header, the End Tag
    ends the new package, and nothing from the end of the original package
    on differs from [T]. *)
Definition TemplatePatched
  (T T' : mem) (IrqBuffer : list Z) (L hdr enc Orig : Z) : Prop :=
  let d := hdr + enc + 12 in
  let t := d + UINT32 (5 + L) in
  (forall a, a < hdr -> T' a = T a) /\
  T' t = ACPI_END_TAG_DESCRIPTOR /\ T' (t + 1) = 0 /\
  (forall a, t + 2 <= a < hdr + Orig -> T' a = AML_NOOP_OP) /\
  (0 <= L <= MAX_PRS_INT_BUF_SIZE ->
   T' (d + 1) = 2 + L /\ T' (d + 4) = L / 4 /\
   (forall i, 0 <= i < L -> T' (d + 5 + i) = IrqByte IrqBuffer i) /\
   t + 2 = hdr + NewLength enc L /\
   (forall a, hdr + Orig <= a -> T' a = T a)).

(** A table of 70 bytes whose RESS template, for one interrupt, declares a
    package of 63 bytes: the package would end at offset 105. *)
Definition OverlongTable : mem :=
  mk_table ([0x08] ++ TPM_PRS_RESS ++ [0x11; 63; AML_BYTE_PREFIX; 23]
            ++ Memory32Fixed ++ InterruptDescriptor 1
            ++ [ACPI_END_TAG_DESCRIPTOR; 0] ++ [0x00; 0x00]) [].

(** [WideTable] with the first ByteData of the RESL PkgLength raised, so
    that the function decodes 256 bytes: room for eleven interrupts. *)
Definition RoomyWideTable : mem := poke WideTable 111 16.

(** * Lemmas *)

(** ** The scanning loops find the first hit *)

Section Scan.
Variable hit : Z -> bool.

Lemma scan_None (n : nat) :
  forall p, scan hit p n = None <->
            (forall i, (i < n)%nat -> hit (p + Z.of_nat i) = false).
Proof.
  induction n as [|n IH]; intro p; simpl.
  - split; [intros _ i Hi; lia | reflexivity].
  - destruct (hit p) eqn:Hp.
    + split; [discriminate|].
      intro H. specialize (H 0%nat ltac:(lia)).
      rewrite Z.add_0_r in H. congruence.
    + rewrite IH. split; intros H i Hi.
      * destruct i as [|i]; [now rewrite Z.add_0_r|].
        specialize (H i ltac:(lia)).
        now replace (p + Z.of_nat (S i)) with (p + 1 + Z.of_nat i) by lia.
      * specialize (H (S i) ltac:(lia)).
        now replace (p + 1 + Z.of_nat i) with (p + Z.of_nat (S i)) by lia.
Qed.

Lemma scan_Some (n : nat) :
  forall p q, scan hit p n = Some q ->
              p <= q < p + Z.of_nat n /\ hit q = true /\
              (forall r, p <= r < q -> hit r = false).
Proof.
  induction n as [|n IH]; intros p q; simpl; [discriminate|].
  destruct (hit p) eqn:Hp.
  - intros [= <-]. split; [lia|]. split; [exact Hp|]. intros r Hr; lia.
  - intro H. apply IH in H as (Hq & Hh & Hf).
    split; [lia|]. split; [exact Hh|].
    intros r Hr. destruct (Z.eq_dec r p) as [->|]; [exact Hp|].
    apply Hf; lia.
Qed.

Lemma for_DataPtr_None (first limit : Z) :
  for_DataPtr hit first limit = None <->
  (forall p, first <= p < limit -> hit p = false).
Proof.
  unfold for_DataPtr. rewrite scan_None. split; intros H.
  - intros p Hp. specialize (H (Z.to_nat (p - first)) ltac:(lia)).
    now replace (first + Z.of_nat (Z.to_nat (p - first))) with p in H by lia.
  - intros i Hi. apply H. lia.
Qed.

Lemma for_DataPtr_Some (first limit q : Z) :
  for_DataPtr hit first limit = Some q ->
  first <= q < limit /\ hit q = true /\
  (forall r, first <= r < q -> hit r = false).
Proof.
  unfold for_DataPtr. intro H. apply scan_Some in H as (Hq & Hh & Hf).
  split; [lia|]. split; assumption.
Qed.
End Scan.

Lemma bytes_of_mem_S (m : mem) (p : Z) (n : nat) :
  bytes_of_mem m p (S n) = m p :: bytes_of_mem m (p + 1) n.
Proof.
  unfold bytes_of_mem. simpl. rewrite Z.add_0_r. f_equal.
  rewrite <- seq_shift, map_map. apply map_ext.
  intro i. f_equal. lia.
Qed.

Lemma compare_bytes_0 (m : mem) (pat : list Z) :
  forall p, compare_bytes m p pat = 0 <-> occurs_at m p pat.
Proof.
  unfold occurs_at.
  induction pat as [|c pat IH]; intro p; simpl List.length.
  - simpl. split; reflexivity.
  - rewrite bytes_of_mem_S. simpl.
    destruct (Z.eqb_spec (m p) c) as [->|Hne].
    + rewrite IH. split; [intros ->; reflexivity | now intros [= ->]].
    + split; [lia | intros [= H _]; contradiction].
  Qed.

(** [AsciiStrCmp] is 0 exactly on the characters of the literal followed by
    a NUL. *)
Lemma AsciiStrCmp_0 (m : mem) (tag : list Z) :
  Forall (fun c => c <> 0) tag ->
  forall p, AsciiStrCmp m p tag = 0 <-> occurs_at m p (tag ++ [0]).
Proof.
  unfold occurs_at.
  induction 1 as [|c tag Hc Htag IH]; intro p; simpl List.length.
  - simpl. unfold bytes_of_mem. simpl. rewrite Z.add_0_r.
    split; [intro H; f_equal; lia | intros [= ->]; reflexivity].
  - rewrite bytes_of_mem_S. simpl.
    destruct (Z.eqb_spec (m p) 0) as [H0|H0]; simpl.
    + split; [lia | intros [= H _]; lia].
    + destruct (Z.eqb_spec (m p) c) as [->|Hne].
      * rewrite IH. split; [intros ->; reflexivity | now intros [= ->]].
      * split; [lia | intros [= H _]; contradiction].
Qed.

Lemma FindName_None (T : mem) (Name : list Z) :
  List.length Name = 4%nat ->
  FindName T Name = None <->
  absent T Name sizeof_EFI_ACPI_DESCRIPTION_HEADER (ScanLimit T).
Proof.
  intro Hlen. unfold FindName, absent. rewrite for_DataPtr_None.
  assert (Hfirst : firstn (Z.to_nat TPM_PRS_RES_NAME_SIZE) Name = Name).
  { apply firstn_all2. rewrite Hlen. vm_compute. lia. }
  split; intros H p Hp; specialize (H p Hp).
  - intro Hocc. apply compare_bytes_0 in Hocc.
    unfold CompareMem in H. rewrite Hfirst, Hocc in H. discriminate.
  - unfold CompareMem. rewrite Hfirst.
    destruct (Z.eqb_spec (compare_bytes T p Name) 0) as [H0|]; [|reflexivity].
    apply compare_bytes_0 in H0. contradiction.
Qed.

Lemma FindName_Some (T : mem) (Name : list Z) (p : Z) :
  List.length Name = 4%nat ->
  FindName T Name = Some p ->
  sizeof_EFI_ACPI_DESCRIPTION_HEADER <= p < ScanLimit T /\
  occurs_at T p Name /\
  absent T Name sizeof_EFI_ACPI_DESCRIPTION_HEADER p.
Proof.
  intros Hlen H. unfold FindName in H.
  assert (Hfirst : firstn (Z.to_nat TPM_PRS_RES_NAME_SIZE) Name = Name).
  { apply firstn_all2. rewrite Hlen. vm_compute. lia. }
  apply for_DataPtr_Some in H as (Hp & Hh & Hf).
  unfold CompareMem in *. rewrite Hfirst in *.
  split; [exact Hp|]. split.
  - apply compare_bytes_0. lia.
  - intros r Hr Hocc. apply compare_bytes_0 in Hocc.
    specialize (Hf r Hr). rewrite Hocc in Hf. discriminate.
Qed.

(** ** Bytes and their bits *)

Lemma range_check (P : Z -> bool) (n : nat) :
  forallb P (map Z.of_nat (seq 0 n)) = true ->
  forall z, 0 <= z < Z.of_nat n -> P z = true.
Proof.
  intros H z Hz. rewrite forallb_forall in H. apply H.
  apply in_map_iff. exists (Z.to_nat z). split; [lia|].
  apply in_seq. lia.
Qed.

Lemma lead_long (b : Z) :
  0 <= b < 256 -> Z.land b (Z.lor BIT7 BIT6) <> 0 ->
  1 <= ByteDataCount b <= 3.
Proof.
  intros Hb H.
  pose proof (range_check
    (fun b => (Z.land b (Z.lor BIT7 BIT6) =? 0)
              || ((1 <=? ByteDataCount b) && (ByteDataCount b <=? 3))) 256
    ltac:(vm_compute; reflexivity) b Hb) as Hc.
  cbv beta in Hc. destruct (Z.eqb_spec (Z.land b (Z.lor BIT7 BIT6)) 0); [contradiction|].
  simpl in Hc. lia.
Qed.

Lemma low_nibble (v : Z) : Z.land v 0x0F = v mod 16.
Proof. exact (Z.land_ones v 4 ltac:(lia)). Qed.

Lemma middle_byte (v : Z) : Z.shiftr (Z.land v 0xFF0) 4 = (v / 16) mod 256.
Proof.
  change 0xFF0 with (Z.shiftl (Z.ones 8) 4).
  rewrite Z.shiftr_land, Z.shiftr_shiftl_l, Z.sub_diag, Z.shiftl_0_r by lia.
  rewrite Z.land_ones, Z.shiftr_div_pow2 by lia. reflexivity.
Qed.

Lemma encode_lead (b v : Z) :
  0 <= b < 256 ->
  UINT8 (Z.lor (UINT8 (Z.land b 0xF0)) (Z.land v 0x0F)) = 16 * (b / 16) + v mod 16.
Proof.
  intro Hb. rewrite low_nibble.
  assert (Hn : 0 <= v mod 16 < 16) by (apply Z.mod_pos_bound; lia).
  generalize dependent (v mod 16). intros n Hn.
  pose proof (range_check
    (fun b => forallb
       (fun n => UINT8 (Z.lor (UINT8 (Z.land b 0xF0)) n) =? 16 * (b / 16) + n)
       (map Z.of_nat (seq 0 16))) 256
    ltac:(vm_compute; reflexivity) b Hb) as Hc.
  cbv beta in Hc.
  pose proof (range_check _ 16 Hc n Hn) as Hc'. cbv beta in Hc'. lia.
Qed.

Lemma ByteDataCount_encode_lead (b n : Z) :
  0 <= b < 256 -> 0 <= n < 16 ->
  ByteDataCount (16 * (b / 16) + n) = ByteDataCount b.
Proof.
  intros Hb Hn.
  pose proof (range_check
    (fun b => forallb
       (fun n => ByteDataCount (16 * (b / 16) + n) =? ByteDataCount b)
       (map Z.of_nat (seq 0 16))) 256
    ltac:(vm_compute; reflexivity) b Hb) as Hc.
  cbv beta in Hc.
  pose proof (range_check _ 16 Hc n Hn) as Hc'. cbv beta in Hc'. lia.
Qed.

Lemma UINT32_small (z : Z) : 0 <= z < 2 ^ 32 -> UINT32 z = z.
Proof. intro H. unfold UINT32. apply Z.mod_small. exact H. Qed.

Lemma UINT8_small (z : Z) : 0 <= z < 256 -> UINT8 z = z.
Proof. intro H. unfold UINT8. apply Z.mod_small. exact H. Qed.

Lemma UINT32_range (z : Z) : 0 <= UINT32 z < 2 ^ 32.
Proof. unfold UINT32. apply Z.mod_pos_bound. lia. Qed.

(** The three [+=] on [NewPkgLength] amount to one sum modulo 2^32. *)
Lemma NewPkgLength_sum (k n L : Z) :
  UINT32 (UINT32 (UINT32 (0 + k) + n) + (19 + L)) = UINT32 (k + n + 19 + L).
Proof.
  unfold UINT32. rewrite Z.add_0_l.
  rewrite (Zplus_mod_idemp_l k n), (Zplus_mod_idemp_l (k + n) (19 + L)).
  f_equal. lia.
Qed.

(** [DataPtr += NewPkgLength - (5 + IrqBuffserSize + 2)] moves over the
    size encodings and the 12 bytes of the Memory32Fixed descriptor. *)
Lemma descriptor_offset (enc L : Z) :
  0 <= enc <= 64 ->
  UINT32 (UINT32 (enc + 19 + L) - UINT32 (5 + L + 2)) = enc + 12.
Proof.
  intro H. unfold UINT32.
  rewrite <- Zminus_mod.
  replace (enc + 19 + L - (5 + L + 2)) with (enc + 12) by lia.
  apply Z.mod_small. lia.
Qed.

Lemma DecodeLongPkgLength_bytes (T : mem) (q : Z) :
  byte_mem T ->
  DecodeLongPkgLength T q = T (q + 1) * 16 + T q mod 16 /\
  0 <= DecodeLongPkgLength T q < 4096.
Proof.
  intro HT. unfold DecodeLongPkgLength.
  rewrite low_nibble, Z.shiftl_mul_pow2 by lia.
  pose proof (HT (q + 1)). pose proof (HT q).
  assert (0 <= T q mod 16 < 16) by (apply Z.mod_pos_bound; lia).
  rewrite UINT32_small by lia. change (2 ^ 4) with 16. lia.
Qed.

Lemma byte_mem_of_bytes (l : list Z) :
  forallb is_byte l = true -> byte_mem (mem_of_bytes l).
Proof.
  intros H a. unfold mem_of_bytes.
  destruct (a <? 0); [lia|].
  destruct (nth_in_or_default (Z.to_nat a) l 0) as [Hin | Hd]; [|rewrite Hd; lia].
  rewrite forallb_forall in H. apply H in Hin.
  unfold is_byte in Hin. lia.
Qed.

(** ** How the parts run *)

Lemma BufferSizeLen_range (b n : Z) :
  BufferSizeLen b = Some n -> 2 <= n <= 5.
Proof.
  unfold BufferSizeLen.
  repeat match goal with |- context [if ?c then _ else _] => destruct c end;
    intros [= <-]; lia.
Qed.

Lemma BufferSizeLen_None (b : Z) :
  BufferSizeLen b = None <->
  b <> AML_BYTE_PREFIX /\ b <> AML_WORD_PREFIX /\ b <> AML_DWORD_PREFIX.
Proof.
  unfold BufferSizeLen.
  destruct (Z.eqb_spec b AML_BYTE_PREFIX); [split; [discriminate | tauto]|].
  destruct (Z.eqb_spec b AML_WORD_PREFIX); [split; [discriminate | tauto]|].
  destruct (Z.eqb_spec b AML_DWORD_PREFIX); [split; [discriminate | tauto]|].
  tauto.
Qed.

Section Parts.
Variables (T : mem) (L : Z) (F : bool).

Lemma PatchRESS_absent :
  FindName T TPM_PRS_RESS = None ->
  PatchRESS L T F =
  Next (mkLocals T F (Z.max sizeof_EFI_ACPI_DESCRIPTION_HEADER (ScanLimit T))
          None 0 0).
Proof. intro H. unfold PatchRESS. rewrite H. reflexivity. Qed.

Lemma PatchRESS_not_short (p : Z) :
  FindName T TPM_PRS_RESS = Some p ->
  Z.land (T (p + 5)) 0xC0 <> 0 ->
  PatchRESS L T F = Return EFI_UNSUPPORTED T F.
Proof.
  intros H Hl. unfold PatchRESS. rewrite H.
  change (p + (TPM_PRS_RES_NAME_SIZE + 1)) with (p + 5).
  change (Z.lor BIT7 BIT6) with 0xC0.
  destruct (Z.eqb_spec (Z.land (T (p + 5)) 0xC0) 0); [contradiction|].
  reflexivity.
Qed.

Lemma PatchRESS_bad_prefix (p : Z) :
  FindName T TPM_PRS_RESS = Some p ->
  BufferSizeLen (T (p + 6)) = None ->
  PatchRESS L T F = Return EFI_UNSUPPORTED T F.
Proof.
  intros H Hb. unfold PatchRESS. rewrite H.
  change (p + (TPM_PRS_RES_NAME_SIZE + 1)) with (p + 5).
  replace (p + 5 + 1) with (p + 6) by lia. rewrite Hb.
  destruct (_ =? 0); reflexivity.
Qed.

Lemma PatchRESS_template (p n : Z) :
  ShortTemplate T p n ->
  PatchRESS L T F =
  if NewLength (1 + n) L >? 63 then
    Next (mkLocals T F (p + 5) (Some (p + 5 + T (p + 5)))
            (NewLength (1 + n) L) (T (p + 5)))
  else if NewLength (1 + n) L >? T (p + 5) then
    Return EFI_INVALID_PARAMETER T F
  else
    Next (mkLocals (ShortHeader T (p + 5) (NewLength (1 + n) L) L) true
            (p + 5) (Some (p + 5 + T (p + 5)))
            (NewLength (1 + n) L) (T (p + 5))).
Proof.
  intros (Hf & Hl & Hb). unfold PatchRESS. rewrite Hf.
  change (p + (TPM_PRS_RES_NAME_SIZE + 1)) with (p + 5).
  change (Z.lor BIT7 BIT6) with 0xC0.
  replace (p + 5 + 1) with (p + 6) by lia.
  rewrite Hl, Hb. simpl (0 =? 0). cbv iota.
  rewrite NewPkgLength_sum. reflexivity.
Qed.
End Parts.

Lemma ByteDataCount_range (b : Z) : 0 <= ByteDataCount b <= 3.
Proof.
  unfold ByteDataCount.
  change (Z.lor BIT7 BIT6) with (Z.shiftl (Z.ones 2) 6).
  rewrite Z.shiftr_land, Z.shiftr_shiftl_l, Z.sub_diag, Z.shiftl_0_r by lia.
  rewrite Z.land_ones by lia.
  pose proof (Z.mod_pos_bound (Z.shiftr b 6) (2 ^ 2) ltac:(lia)).
  change (2 ^ 2) with 4 in *. lia.
Qed.

Lemma skip_PkgLength (b : Z) :
  UINT32 (0 + (1 + ByteDataCount b)) = 1 + ByteDataCount b.
Proof.
  pose proof (ByteDataCount_range b).
  rewrite Z.add_0_l. apply UINT32_small. lia.
Qed.

Section Part2.
Variables (s : Locals) (L : Z).
Hypothesis Hlong : 63 < NewPkgLength s.

Lemma PatchRESL_absent :
  FindName (Table s) TPM_PRS_RESL = None ->
  PatchRESL L s =
  Next (mkLocals (Table s) (IsShortFormPkgLength s)
          (Z.max sizeof_EFI_ACPI_DESCRIPTION_HEADER (ScanLimit (Table s)))
          (DataEndPtr s) 0 0).
Proof.
  intro H. unfold PatchRESL.
  destruct (Z.gtb_spec (NewPkgLength s) 63); [|lia].
  rewrite H. reflexivity.
Qed.

Lemma PatchRESL_not_long (q : Z) :
  FindName (Table s) TPM_PRS_RESL = Some q ->
  Z.land (Table s (q + 5)) 0xC0 = 0 ->
  PatchRESL L s = Return EFI_UNSUPPORTED (Table s) (IsShortFormPkgLength s).
Proof.
  intros H Hl. unfold PatchRESL.
  destruct (Z.gtb_spec (NewPkgLength s) 63); [|lia].
  rewrite H. change (q + (TPM_PRS_RES_NAME_SIZE + 1)) with (q + 5).
  change (Z.lor BIT7 BIT6) with 0xC0. rewrite Hl. reflexivity.
Qed.

Lemma PatchRESL_bad_prefix (q : Z) :
  FindName (Table s) TPM_PRS_RESL = Some q ->
  BufferSizeLen
    (Table s (q + 5 + 1 + Z.shiftr (Z.land (Table s (q + 5)) 0xC0) 6)) = None ->
  PatchRESL L s = Return EFI_UNSUPPORTED (Table s) (IsShortFormPkgLength s).
Proof.
  intros H Hb. unfold PatchRESL.
  destruct (Z.gtb_spec (NewPkgLength s) 63); [|lia].
  rewrite H. change (q + (TPM_PRS_RES_NAME_SIZE + 1)) with (q + 5).
  rewrite skip_PkgLength.
  replace (q + 5 + (1 + ByteDataCount (Table s (q + 5))))
    with (q + 5 + 1 + ByteDataCount (Table s (q + 5))) by lia.
  unfold ByteDataCount at 1. change (Z.lor BIT7 BIT6) with 0xC0.
  rewrite Hb. destruct (negb _); reflexivity.
Qed.

Lemma PatchRESL_template (q c n : Z) :
  byte_mem (Table s) ->
  LongTemplate (Table s) q c n ->
  PatchRESL L s =
  if NewLength (1 + c + n) L >? Table s (q + 6) * 16 + Table s (q + 5) mod 16
  then Return EFI_INVALID_PARAMETER (Table s) (IsShortFormPkgLength s)
  else
    Next (mkLocals (LongHeader (Table s) (q + 5) (NewLength (1 + c + n) L) L)
            false (q + 5)
            (Some (q + 5 + (Table s (q + 6) * 16 + Table s (q + 5) mod 16)))
            (NewLength (1 + c + n) L)
            (Table s (q + 6) * 16 + Table s (q + 5) mod 16)).
Proof.
  intros HT (Hf & Hl & Hc & Hb). unfold PatchRESL.
  destruct (Z.gtb_spec (NewPkgLength s) 63); [|lia].
  rewrite Hf. change (q + (TPM_PRS_RES_NAME_SIZE + 1)) with (q + 5).
  rewrite skip_PkgLength.
  assert (Hc' : ByteDataCount (Table s (q + 5)) = c) by (symmetry; exact Hc).
  rewrite Hc'.
  replace (q + 5 + (1 + c)) with (q + 5 + 1 + c) by lia.
  rewrite Hb.
  change (Z.lor BIT7 BIT6) with 0xC0.
  destruct (Z.eqb_spec (Z.land (Table s (q + 5)) 0xC0) 0); [contradiction|].
  cbv [negb].
  replace (UINT32 (UINT32 (1 + c + n) + (19 + L)))
    with (NewLength (1 + c + n) L).
  2:{ unfold NewLength, UINT32.
      rewrite (Zplus_mod_idemp_l (1 + c + n) (19 + L)). f_equal. lia. }
  destruct (DecodeLongPkgLength_bytes (Table s) (q + 5) HT) as [-> _].
  replace (q + 5 + 1) with (q + 6) by lia.
  reflexivity.
Qed.
End Part2.

(** ** How the function runs, case by case *)

Section Cases.
Variables (T : mem) (IrqBuffer : list Z) (L : Z) (F : bool).

Lemma RESS_absent_not_found :
  FindName T TPM_PRS_RESS = None ->
  UpdatePossibleResource T IrqBuffer L F = (EFI_NOT_FOUND, T, F).
Proof.
  intro H. unfold UpdatePossibleResource.
  rewrite (PatchRESS_absent T L F H).
  unfold PatchRESL, PatchInterrupt. simpl.
  destruct (Z.geb_spec
              (Z.max sizeof_EFI_ACPI_DESCRIPTION_HEADER (ScanLimit T))
              (ScanLimit T)); [reflexivity | lia].
Qed.

Lemma RESS_unsupported (p : Z) :
  FindName T TPM_PRS_RESS = Some p ->
  Z.land (T (p + 5)) 0xC0 <> 0 \/ BufferSizeLen (T (p + 6)) = None ->
  UpdatePossibleResource T IrqBuffer L F = (EFI_UNSUPPORTED, T, F).
Proof.
  intros H [Hl | Hb]; unfold UpdatePossibleResource.
  - rewrite (PatchRESS_not_short T L F p H Hl). reflexivity.
  - rewrite (PatchRESS_bad_prefix T L F p H Hb). reflexivity.
Qed.

(** The RESS template takes the list: parts 3 to 5 run on it, unless the
    new length exceeds the original one. *)
Lemma short_case (p n : Z) :
  ShortTemplate T p n ->
  NewLength (1 + n) L <= 63 ->
  UpdatePossibleResource T IrqBuffer L F =
  if NewLength (1 + n) L >? T (p + 5) then (EFI_INVALID_PARAMETER, T, F)
  else PatchInterrupt IrqBuffer L
         (mkLocals (ShortHeader T (p + 5) (NewLength (1 + n) L) L) true
            (p + 5) (Some (p + 5 + T (p + 5)))
            (NewLength (1 + n) L) (T (p + 5))).
Proof.
  intros HS Hle. unfold UpdatePossibleResource.
  rewrite (PatchRESS_template T L F p n HS).
  destruct (Z.gtb_spec (NewLength (1 + n) L) 63); [lia|].
  destruct (NewLength (1 + n) L >? T (p + 5)); [reflexivity|].
  unfold PatchRESL. cbn [NewPkgLength].
  destruct (Z.gtb_spec (NewLength (1 + n) L) 63); [lia|].
  reflexivity.
Qed.

(** What part 1 hands over when the RESS template is too small a form. *)
Lemma long_handover :
  WantsLong T L ->
  exists s1, PatchRESS L T F = Next s1 /\ Table s1 = T /\
             IsShortFormPkgLength s1 = F /\ 63 < NewPkgLength s1.
Proof.
  intros (p & n & HS & Hgt).
  rewrite (PatchRESS_template T L F p n HS).
  destruct (Z.gtb_spec (NewLength (1 + n) L) 63); [|lia].
  eexists. split; [reflexivity|]. cbn. auto.
Qed.

Lemma RESL_absent_not_found :
  WantsLong T L ->
  FindName T TPM_PRS_RESL = None ->
  UpdatePossibleResource T IrqBuffer L F = (EFI_NOT_FOUND, T, F).
Proof.
  intros HW H. destruct (long_handover HW) as (s1 & Hs1 & HT & HF & Hgt).
  unfold UpdatePossibleResource. rewrite Hs1.
  rewrite <- HT in H. rewrite (PatchRESL_absent s1 L Hgt H).
  unfold PatchInterrupt. cbn [DataPtr Table IsShortFormPkgLength].
  rewrite HT, HF.
  destruct (Z.geb_spec
              (Z.max sizeof_EFI_ACPI_DESCRIPTION_HEADER (ScanLimit T))
              (ScanLimit T)); [reflexivity | lia].
Qed.

Lemma RESL_unsupported (q : Z) :
  WantsLong T L ->
  FindName T TPM_PRS_RESL = Some q ->
  Z.land (T (q + 5)) 0xC0 = 0 \/
  BufferSizeLen (T (q + 5 + 1 + Z.shiftr (Z.land (T (q + 5)) 0xC0) 6)) = None ->
  UpdatePossibleResource T IrqBuffer L F = (EFI_UNSUPPORTED, T, F).
Proof.
  intros HW H Hbad. destruct (long_handover HW) as (s1 & Hs1 & HT & HF & Hgt).
  unfold UpdatePossibleResource. rewrite Hs1.
  rewrite <- HT in H, Hbad. destruct Hbad as [Hl | Hb].
  - rewrite (PatchRESL_not_long s1 L Hgt q H Hl). now rewrite HT, HF.
  - rewrite (PatchRESL_bad_prefix s1 L Hgt q H Hb). now rewrite HT, HF.
Qed.

(** The RESL template takes the list. *)
Lemma long_case (q c n : Z) :
  byte_mem T ->
  WantsLong T L ->
  LongTemplate T q c n ->
  UpdatePossibleResource T IrqBuffer L F =
  if NewLength (1 + c + n) L >? T (q + 6) * 16 + T (q + 5) mod 16
  then (EFI_INVALID_PARAMETER, T, F)
  else PatchInterrupt IrqBuffer L
         (mkLocals (LongHeader T (q + 5) (NewLength (1 + c + n) L) L) false
            (q + 5) (Some (q + 5 + (T (q + 6) * 16 + T (q + 5) mod 16)))
            (NewLength (1 + c + n) L)
            (T (q + 6) * 16 + T (q + 5) mod 16)).
Proof.
  intros HB HW HLT. destruct (long_handover HW) as (s1 & Hs1 & HT & HF & Hgt).
  unfold UpdatePossibleResource. rewrite Hs1.
  rewrite <- HT in HB, HLT.
  rewrite (PatchRESL_template s1 L Hgt q c n HB HLT).
  rewrite HT, HF.
  destruct (_ >? _); reflexivity.
Qed.
End Cases.

(** ** Parts 3 to 5 in closed form *)

Lemma PatchInterrupt_run (Thdr : mem) (IrqBuffer : list Z)
      (short : bool) (L hdr enc Orig : Z) :
  0 <= enc <= 64 ->
  PatchInterrupt IrqBuffer L
    (mkLocals Thdr short hdr (Some (hdr + Orig)) (NewLength enc L) Orig) =
  if hdr >=? ScanLimit Thdr then (EFI_NOT_FOUND, Thdr, short)
  else (EFI_SUCCESS, Patched Thdr IrqBuffer L hdr enc Orig, short).
Proof.
  intro Henc. unfold PatchInterrupt, Patched.
  cbn [DataPtr Table IsShortFormPkgLength DataEndPtr NewPkgLength].
  unfold NewLength. rewrite (descriptor_offset enc L Henc).
  reflexivity.
Qed.

Ltac mem_cases :=
  unfold SetMem, CopyMem, poke;
  repeat match goal with
    | |- context [Z.eqb ?a ?b] => destruct (Z.eqb_spec a b); try lia
    | |- context [Z.leb ?a ?b] => destruct (Z.leb_spec a b); try lia
    | |- context [Z.ltb ?a ?b] => destruct (Z.ltb_spec a b); try lia
    end;
  cbn [andb]; try reflexivity; try lia.

Section PatchedBytes.
Variables (Thdr : mem) (IrqBuffer : list Z) (L hdr enc Orig : Z).

Let d := hdr + (enc + 12).
Let t := d + UINT32 (5 + L).

Lemma Patched_before (a : Z) :
  a < d -> Patched Thdr IrqBuffer L hdr enc Orig a = Thdr a.
Proof.
  intro Ha. pose proof (UINT32_range (5 + L)).
  unfold Patched. fold d. fold t. subst t.
  destruct (d + UINT32 (5 + L) + 2 <? hdr + Orig); mem_cases.
Qed.

Lemma Patched_end_tag :
  Patched Thdr IrqBuffer L hdr enc Orig t = ACPI_END_TAG_DESCRIPTOR /\
  Patched Thdr IrqBuffer L hdr enc Orig (t + 1) = 0.
Proof.
  unfold Patched. fold d. fold t.
  destruct (t + 2 <? hdr + Orig); split; mem_cases.
Qed.

Lemma Patched_filler (a : Z) :
  t + 2 <= a < hdr + Orig ->
  Patched Thdr IrqBuffer L hdr enc Orig a = AML_NOOP_OP.
Proof.
  intro Ha. unfold Patched. fold d. fold t.
  destruct (Z.ltb_spec (t + 2) (hdr + Orig)); [|lia]. mem_cases.
Qed.

(** No UINT32 wraps for a list of [L] bytes. *)
Hypothesis HL : 0 <= L < 2 ^ 32 - 28.

Lemma end_tag_position : t = d + 5 + L.
Proof.
  subst t. change (2 ^ 32) with 4294967296 in HL.
  rewrite UINT32_small; [lia|]. change (2 ^ 32) with 4294967296. lia.
Qed.

Lemma Patched_descriptor :
  L <= MAX_PRS_INT_BUF_SIZE ->
  Patched Thdr IrqBuffer L hdr enc Orig (d + 1) = 2 + L /\
  Patched Thdr IrqBuffer L hdr enc Orig (d + 4) = L / 4 /\
  (forall i, 0 <= i < L ->
     Patched Thdr IrqBuffer L hdr enc Orig (d + 5 + i) = IrqByte IrqBuffer i).
Proof.
  intro Hmax.
  pose proof end_tag_position as Ht. unfold MAX_PRS_INT_BUF_SIZE in Hmax.
  unfold Patched. fold d. fold t. rewrite Ht.
  assert (H4 : 0 <= L / 4 <= 15).
  { split; [apply Z.div_pos; lia | apply Z.div_le_upper_bound; lia]. }
  rewrite (UINT8_small (2 + L)), (UINT8_small (L / 4)) by lia.
  destruct (d + 5 + L + 2 <? hdr + Orig); repeat split; intros; mem_cases.
  all: f_equal; lia.
Qed.

Lemma Patched_after (a : Z) :
  d + 5 + L + 2 <= hdr + Orig ->
  hdr + Orig <= a -> Patched Thdr IrqBuffer L hdr enc Orig a = Thdr a.
Proof.
  intros Hfit Ha. pose proof end_tag_position as Ht.
  unfold Patched. fold d. fold t. rewrite Ht.
  destruct (d + 5 + L + 2 <? hdr + Orig); mem_cases.
Qed.
End PatchedBytes.

(** ** The patched PkgLength and BufferSize *)

Lemma ShortHeader_bytes (T : mem) (hdr New L : Z) :
  ShortHeader T hdr New L hdr = UINT8 New /\
  ShortHeader T hdr New L (hdr + 2) = UINT8 (L + 19) /\
  (forall a, a <> hdr -> a <> hdr + 2 -> ShortHeader T hdr New L a = T a).
Proof.
  unfold ShortHeader, EncodeShortPkgLength.
  split; [|split]; intros; mem_cases.
Qed.

Lemma EncodeLongPkgLength_bytes (T : mem) (hdr New : Z) :
  byte_mem T ->
  EncodeLongPkgLength T hdr New hdr = 16 * (T hdr / 16) + New mod 16 /\
  EncodeLongPkgLength T hdr New (hdr + 1) = (New / 16) mod 256 /\
  (forall a, a <> hdr -> a <> hdr + 1 -> EncodeLongPkgLength T hdr New a = T a).
Proof.
  intro HT. unfold EncodeLongPkgLength.
  rewrite (encode_lead (T hdr) New (HT hdr)), middle_byte.
  split; [|split]; intros; mem_cases.
  apply UINT8_small. apply Z.mod_pos_bound. lia.
Qed.

Lemma LongHeader_bytes (T : mem) (hdr New L : Z) :
  byte_mem T ->
  let c := ByteDataCount (T hdr) in
  LongHeader T hdr New L hdr = 16 * (T hdr / 16) + New mod 16 /\
  LongHeader T hdr New L (hdr + 1) = (New / 16) mod 256 /\
  LongHeader T hdr New L (hdr + 2 + c) = UINT8 (L + 19) /\
  (forall a, a <> hdr -> a <> hdr + 1 -> a <> hdr + 2 + c ->
             LongHeader T hdr New L a = T a).
Proof.
  intros HT c.
  destruct (EncodeLongPkgLength_bytes T hdr New HT) as (E0 & E1 & Eo).
  pose proof (ByteDataCount_range (T hdr)) as Hc. fold c in Hc.
  assert (Hn : 0 <= New mod 16 < 16) by (apply Z.mod_pos_bound; lia).
  unfold LongHeader. cbv zeta. rewrite E0.
  rewrite (ByteDataCount_encode_lead (T hdr) (New mod 16) (HT hdr) Hn).
  fold c.
  split; [|split; [|split]].
  - unfold poke at 1. destruct (Z.eqb_spec hdr (hdr + 2 + c)); [lia | exact E0].
  - unfold poke at 1.
    destruct (Z.eqb_spec (hdr + 1) (hdr + 2 + c)); [lia | exact E1].
  - unfold poke at 1. now rewrite Z.eqb_refl.
  - intros a H0 H1 H2. unfold poke at 1.
    destruct (Z.eqb_spec a (hdr + 2 + c)); [contradiction | now apply Eo].
Qed.

Lemma Table_Length_ext (T T' : mem) :
  (forall a, a < sizeof_EFI_ACPI_DESCRIPTION_HEADER -> T' a = T a) ->
  Table_Length T' = Table_Length T.
Proof.
  intro H. unfold Table_Length, sizeof_EFI_ACPI_DESCRIPTION_HEADER in *.
  rewrite !H by lia. reflexivity.
Qed.

Lemma Header_before (short : bool) (T : mem) (hdr New L : Z) :
  byte_mem T ->
  forall a, a < hdr -> Header short T hdr New L a = T a.
Proof.
  intros HT a Ha. destruct short; unfold Header.
  - apply ShortHeader_bytes; lia.
  - pose proof (ByteDataCount_range (T hdr)).
    apply (LongHeader_bytes T hdr New L HT); lia.
Qed.

(** ** Every successful call, described *)

Lemma ShortTemplate_dec (T : mem) (p : Z) :
  FindName T TPM_PRS_RESS = Some p ->
  (exists n, ShortTemplate T p n) \/
  (Z.land (T (p + 5)) 0xC0 <> 0 \/ BufferSizeLen (T (p + 6)) = None).
Proof.
  intro H. unfold ShortTemplate.
  destruct (Z.eq_dec (Z.land (T (p + 5)) 0xC0) 0) as [Hl|Hl]; [|tauto].
  destruct (BufferSizeLen (T (p + 6))) as [n|] eqn:Hb; [|tauto].
  left. exists n. tauto.
Qed.

Lemma LongTemplate_dec (T : mem) (q : Z) :
  FindName T TPM_PRS_RESL = Some q ->
  (exists c n, LongTemplate T q c n) \/
  (Z.land (T (q + 5)) 0xC0 = 0 \/
   BufferSizeLen (T (q + 5 + 1 + Z.shiftr (Z.land (T (q + 5)) 0xC0) 6)) = None).
Proof.
  intro H. unfold LongTemplate.
  destruct (Z.eq_dec (Z.land (T (q + 5)) 0xC0) 0) as [Hl|Hl]; [tauto|].
  destruct (BufferSizeLen
              (T (q + 5 + 1 + Z.shiftr (Z.land (T (q + 5)) 0xC0) 6)))
    as [n|] eqn:Hb; [|tauto].
  left. exists (Z.shiftr (Z.land (T (q + 5)) 0xC0) 6), n. tauto.
Qed.

Lemma LongTemplate_count (T : mem) (q c n : Z) :
  byte_mem T -> LongTemplate T q c n ->
  1 <= c <= 3 /\ c = ByteDataCount (T (q + 5)) /\ 2 <= n <= 5.
Proof.
  intros HT (_ & Hl & Hc & Hb).
  pose proof (lead_long (T (q + 5)) (HT _) Hl) as H.
  split; [|split].
  - rewrite Hc. exact H.
  - exact Hc.
  - eapply BufferSizeLen_range; eassumption.
Qed.

Lemma success_inv (T : mem) (IrqBuffer : list Z) (L : Z) (F : bool)
      (T' : mem) (F' : bool) :
  byte_mem T ->
  UpdatePossibleResource T IrqBuffer L F = (EFI_SUCCESS, T', F') ->
  exists short hdr enc New Orig,
    Selects T L short hdr enc New Orig /\
    New <= Orig /\ 2 < enc <= 9 /\
    sizeof_EFI_ACPI_DESCRIPTION_HEADER + 5 <= hdr /\
    F' = short /\
    T' = Patched (Header short T hdr New L) IrqBuffer L hdr enc Orig.
Proof.
  intros HT H.
  destruct (FindName T TPM_PRS_RESS) as [p|] eqn:Hp.
  2:{ rewrite RESS_absent_not_found in H by assumption. discriminate. }
  destruct (ShortTemplate_dec T p Hp) as [(n & HS) | Hbad].
  2:{ rewrite (RESS_unsupported T IrqBuffer L F p Hp Hbad) in H. discriminate. }
  assert (Hn : 2 <= n <= 5) by (eapply BufferSizeLen_range; apply HS).
  destruct (FindName_Some T TPM_PRS_RESS p eq_refl Hp) as (Hpr & _).
  destruct (Z_le_gt_dec (NewLength (1 + n) L) 63) as [Hle|Hgt].
  - rewrite (short_case T IrqBuffer L F p n HS Hle) in H.
    destruct (Z.gtb_spec (NewLength (1 + n) L) (T (p + 5))); [discriminate|].
    rewrite PatchInterrupt_run in H by lia.
    destruct (_ >=? _); [discriminate|]. injection H as <- <-.
    exists true, (p + 5), (1 + n), (NewLength (1 + n) L), (T (p + 5)).
    split; [now constructor|].
    repeat (split; [lia|]). split; reflexivity.
  - assert (HW : WantsLong T L) by (exists p, n; split; [exact HS | lia]).
    destruct (FindName T TPM_PRS_RESL) as [q|] eqn:Hq.
    2:{ rewrite RESL_absent_not_found in H by assumption. discriminate. }
    destruct (LongTemplate_dec T q Hq) as [(c & n' & HLT) | Hbad].
    2:{ rewrite (RESL_unsupported T IrqBuffer L F q HW Hq Hbad) in H.
        discriminate. }
    destruct (LongTemplate_count T q c n' HT HLT) as (Hc & _ & Hn').
    destruct (FindName_Some T TPM_PRS_RESL q eq_refl Hq) as (Hqr & _).
    rewrite (long_case T IrqBuffer L F q c n' HT HW HLT) in H.
    destruct (Z.gtb_spec (NewLength (1 + c + n') L)
                (T (q + 6) * 16 + T (q + 5) mod 16)); [discriminate|].
    rewrite PatchInterrupt_run in H by lia.
    destruct (_ >=? _); [discriminate|]. injection H as <- <-.
    exists false, (q + 5), (1 + c + n'), (NewLength (1 + c + n') L),
      (T (q + 6) * 16 + T (q + 5) mod 16).
    split; [now constructor|].
    repeat (split; [lia|]). split; reflexivity.
Qed.

Lemma Header_ScanLimit (short : bool) (T : mem) (hdr New L : Z) :
  sizeof_EFI_ACPI_DESCRIPTION_HEADER <= hdr ->
  ScanLimit (Header short T hdr New L) = ScanLimit T.
Proof.
  intro Hhdr. unfold ScanLimit. f_equal. apply Table_Length_ext.
  intros a Ha. destruct short; unfold Header.
  - apply ShortHeader_bytes; lia.
  - pose proof (ByteDataCount_range
                  (EncodeLongPkgLength T hdr New hdr)) as Hc.
    unfold LongHeader. cbv zeta. unfold poke at 1.
    destruct (Z.eqb_spec a
                (hdr + 2 + ByteDataCount (EncodeLongPkgLength T hdr New hdr)));
      [lia|].
    unfold EncodeLongPkgLength. mem_cases.
Qed.

Lemma Selects_range (T : mem) (L : Z) (short : bool) (hdr enc New Orig : Z) :
  byte_mem T -> Selects T L short hdr enc New Orig ->
  sizeof_EFI_ACPI_DESCRIPTION_HEADER + 5 <= hdr < ScanLimit T + 5 /\
  2 < enc <= 9.
Proof.
  intros HT [p n HS Hle | q c n HW HLT].
  - destruct HS as (Hf & Hl & Hb).
    destruct (FindName_Some T TPM_PRS_RESS p eq_refl Hf) as (Hp & _).
    apply BufferSizeLen_range in Hb. lia.
  - destruct (LongTemplate_count T q c n HT HLT) as (Hc & _ & Hn).
    destruct HLT as (Hf & _).
    destruct (FindName_Some T TPM_PRS_RESL q eq_refl Hf) as (Hq & _). lia.
Qed.

(** The call on a table whose template is selected, in one formula. *)
Lemma run_selected (T : mem) (IrqBuffer : list Z) (L : Z) (F : bool)
      (short : bool) (hdr enc New Orig : Z) :
  byte_mem T ->
  Selects T L short hdr enc New Orig ->
  UpdatePossibleResource T IrqBuffer L F =
  if New >? Orig then (EFI_INVALID_PARAMETER, T, F)
  else if hdr >=? ScanLimit T
       then (EFI_NOT_FOUND, Header short T hdr New L, short)
       else (EFI_SUCCESS,
             Patched (Header short T hdr New L) IrqBuffer L hdr enc Orig, short).
Proof.
  intros HT HS.
  destruct (Selects_range T L short hdr enc New Orig HT HS) as (Hhdr & Henc).
  rewrite <- (Header_ScanLimit short T hdr New L) by lia.
  destruct HS as [p n HS Hle | q c n HW HLT].
  - rewrite (short_case T IrqBuffer L F p n HS Hle).
    destruct (_ >? _); [reflexivity|].
    rewrite PatchInterrupt_run by lia. reflexivity.
  - rewrite (long_case T IrqBuffer L F q c n HT HW HLT).
    destruct (_ >? _); [reflexivity|].
    rewrite PatchInterrupt_run by lia. reflexivity.
Qed.

Lemma Selects_fits_run (T : mem) (IrqBuffer : list Z) (L : Z) (F : bool)
      (short : bool) (hdr enc New Orig : Z) :
  byte_mem T ->
  Selects T L short hdr enc New Orig ->
  New <= Orig ->
  UpdatePossibleResource T IrqBuffer L F =
  if hdr >=? ScanLimit T
  then (EFI_NOT_FOUND, Header short T hdr New L, short)
  else (EFI_SUCCESS,
        Patched (Header short T hdr New L) IrqBuffer L hdr enc Orig, short).
Proof.
  intros HT HS Hle. rewrite (run_selected T IrqBuffer L F _ _ _ _ _ HT HS).
  destruct (Z.gtb_spec New Orig); [lia | reflexivity].
Qed.

Lemma byte_mem_mk_table (body after : list Z) :
  forallb is_byte body = true -> forallb is_byte after = true ->
  byte_mem (mk_table body after).
Proof.
  intros Hb Ha. unfold mk_table. apply byte_mem_of_bytes.
  assert (Hm : forall z, is_byte (z mod 256) = true).
  { intro z. pose proof (Z.mod_pos_bound z 256 ltac:(lia)).
    unfold is_byte. lia. }
  rewrite !forallb_app, Hb, Ha. cbn [forallb]. rewrite !Hm. reflexivity.
Qed.

(** The memory after a selected template is patched. *)
Lemma Patched_TemplatePatched (T : mem) (IrqBuffer : list Z) (L : Z)
      (short : bool) (hdr enc New Orig : Z) :
  byte_mem T ->
  Selects T L short hdr enc New Orig ->
  New <= Orig ->
  TemplatePatched T (Patched (Header short T hdr New L) IrqBuffer L hdr enc Orig)
    IrqBuffer L hdr enc Orig.
Proof.
  intros HT HS Hle.
  destruct (Selects_range T L short hdr enc New Orig HT HS) as (Hhdr & Henc).
  set (Th := Header short T hdr New L).
  unfold TemplatePatched. cbv zeta.
  replace (hdr + enc + 12) with (hdr + (enc + 12)) by lia.
  destruct (Patched_end_tag Th IrqBuffer L hdr enc Orig) as (E0 & E1).
  split.
  { intros a Ha. rewrite Patched_before by lia.
    apply Header_before; assumption. }
  split; [exact E0|]. split; [exact E1|].
  split; [intros a Ha; apply Patched_filler; exact Ha|].
  intro HL60. unfold MAX_PRS_INT_BUF_SIZE in HL60.
  assert (HL : 0 <= L < 2 ^ 32 - 28)
    by (change (2 ^ 32) with 4294967296; lia).
  assert (Hmax : L <= MAX_PRS_INT_BUF_SIZE)
    by (unfold MAX_PRS_INT_BUF_SIZE; lia).
  destruct (Patched_descriptor Th IrqBuffer L hdr enc Orig HL Hmax)
    as (D1 & D4 & Dl).
  assert (HN : NewLength enc L = enc + 19 + L).
  { unfold NewLength. apply UINT32_small.
    change (2 ^ 32) with 4294967296. lia. }
  assert (HNew : New = NewLength enc L) by (destruct HS; reflexivity).
  split; [exact D1|]. split; [exact D4|]. split; [exact Dl|].
  rewrite (end_tag_position L hdr enc HL).
  split; [lia|].
  intros a Ha. rewrite Patched_after by (assumption || lia).
  subst Th. destruct HS as [p n HS Hs63 | q c n' HW HLT]; unfold Header.
  - apply ShortHeader_bytes; lia.
  - destruct (LongTemplate_count T q c n' HT HLT) as (Hc & Hcc & _).
    apply (LongHeader_bytes T (q + 5) (NewLength (1 + c + n') L) L HT);
      rewrite <- ?Hcc; lia.
Qed.

Lemma OverlongTable_bytes : byte_mem OverlongTable.
Proof. apply byte_mem_mk_table; vm_compute; reflexivity. Qed.

(** ** Facts about the example tables, and small tools *)

Lemma TightTable_bytes : byte_mem TightTable.
Proof. apply byte_mem_mk_table; vm_compute; reflexivity. Qed.

Lemma TpmTable_bytes : byte_mem TpmTable.
Proof. apply byte_mem_mk_table; vm_compute; reflexivity. Qed.

Lemma triple_inv {A B C : Type} (a a' : A) (b b' : B) (c c' : C) :
  (a, b, c) = (a', b', c') -> a = a' /\ b = b' /\ c = c'.
Proof. intros [= -> -> ->]. auto. Qed.

Lemma result_eta (r : EFI_STATUS * mem * bool) (s : EFI_STATUS) :
  StatusOf r = s -> r = (s, MemoryAfter r, FlagAfter r).
Proof. destruct r as [[s' m] f]. cbn. now intros ->. Qed.

Lemma TpmTable_RESS : ShortTemplate TpmTable 37 2.
Proof. repeat split; vm_compute; congruence. Qed.

Lemma TpmTable_RESL : LongTemplate TpmTable 105 1 2.
Proof. repeat split; vm_compute; congruence. Qed.

Lemma bytes_of_mem_list (m : mem) (l : list Z) :
  forall first,
    (forall i, 0 <= i < Z.of_nat (List.length l) ->
               m (first + i) = nth (Z.to_nat i) l 0) ->
    bytes_of_mem m first (List.length l) = l.
Proof.
  induction l as [|x l IH]; intros first H; [reflexivity|].
  simpl List.length. rewrite bytes_of_mem_S. f_equal.
  - specialize (H 0). rewrite Z.add_0_r in H. apply H. simpl List.length. lia.
  - apply IH. intros i Hi.
    replace (first + 1 + i) with (first + (i + 1)) by lia.
    rewrite H by (simpl List.length; lia).
    replace (Z.to_nat (i + 1)) with (S (Z.to_nat i)) by lia. reflexivity.
Qed.

Lemma top_bits (b : Z) : 0 <= b < 256 -> Z.shiftr b 6 = ByteDataCount b.
Proof.
  intro Hb.
  pose proof (range_check (fun b => Z.shiftr b 6 =? ByteDataCount b) 256
                ltac:(vm_compute; reflexivity) b Hb) as Hc.
  cbv beta in Hc. lia.
Qed.

Lemma scan_ext (hit hit' : Z -> bool) (n : nat) :
  forall p,
    (forall i, (i < n)%nat -> hit' (p + Z.of_nat i) = hit (p + Z.of_nat i)) ->
    scan hit' p n = scan hit p n.
Proof.
  induction n as [|n IH]; intros p H; [reflexivity|]. simpl.
  pose proof (H 0%nat ltac:(lia)) as H0. rewrite Z.add_0_r in H0. rewrite H0.
  destruct (hit p); [reflexivity|]. apply IH.
  intros i Hi. specialize (H (S i) ltac:(lia)).
  now replace (p + 1 + Z.of_nat i) with (p + Z.of_nat (S i)) by lia.
Qed.

Lemma compare_bytes_ext (m m' : mem) (l : list Z) :
  forall p,
    (forall i, 0 <= i < Z.of_nat (List.length l) -> m' (p + i) = m (p + i)) ->
    compare_bytes m' p l = compare_bytes m p l.
Proof.
  induction l as [|c l IH]; intros p H; [reflexivity|]. simpl.
  pose proof (H 0) as H0. rewrite Z.add_0_r in H0.
  rewrite H0 by (simpl List.length; lia).
  destruct (m p =? c); [|reflexivity]. apply IH.
  intros i Hi. replace (p + 1 + i) with (p + (i + 1)) by lia.
  apply H. simpl List.length. lia.
Qed.

Lemma bytes_of_mem_ext (m m' : mem) (n : nat) :
  forall p,
    (forall i, 0 <= i < Z.of_nat n -> m' (p + i) = m (p + i)) ->
    bytes_of_mem m' p n = bytes_of_mem m p n.
Proof.
  intros p H. unfold bytes_of_mem. apply map_ext_in.
  intros i Hi. apply in_seq in Hi. apply H. lia.
Qed.

Lemma FindName_same_table (T T' : mem) (Name : list Z) :
  same_table T T' -> FindName T' Name = FindName T Name.
Proof.
  intros (Hlen & Hag). unfold FindName, ScanLimit, for_DataPtr.
  rewrite Hlen. apply scan_ext. intros i Hi.
  unfold CompareMem. f_equal. apply compare_bytes_ext.
  intros j Hj. apply Hag.
  assert (Hl : (List.length (firstn (Z.to_nat TPM_PRS_RES_NAME_SIZE) Name) <= 4)%nat)
    by (rewrite length_firstn; change (Z.to_nat TPM_PRS_RES_NAME_SIZE) with 4%nat; lia).
  unfold sizeof_EFI_ACPI_DESCRIPTION_HEADER, TPM_PRS_RES_NAME_SIZE,
    TPM_POS_RES_TEMPLATE_MIN_SIZE in *.
  lia.
Qed.

Lemma WantsLong_same_table (T T' : mem) (L : Z) :
  same_table T T' -> WantsLong T L -> WantsLong T' L.
Proof.
  intros HST (p & n & (Hf & Hl & Hb) & Hgt).
  destruct (FindName_Some T TPM_PRS_RESS p eq_refl Hf) as (Hp & _).
  unfold ScanLimit, sizeof_EFI_ACPI_DESCRIPTION_HEADER, TPM_PRS_RES_NAME_SIZE,
    TPM_POS_RES_TEMPLATE_MIN_SIZE in Hp.
  exists p, n. split; [|exact Hgt].
  destruct HST as (Hlen & Hag). unfold ShortTemplate.
  rewrite (FindName_same_table T T' TPM_PRS_RESS (conj Hlen Hag)).
  rewrite !Hag by lia. tauto.
Qed.

(** The characters of the literal are in memory wherever [AsciiStrCmp]
    finds the strings equal. *)
Lemma AsciiStrCmp_chars (m : mem) (tag : list Z) :
  Forall (fun c => c <> 0) tag ->
  forall p, AsciiStrCmp m p tag = 0 -> occurs_at m p tag.
Proof.
  unfold occurs_at.
  induction 1 as [|c tag Hc Htag IH]; intros p H; [reflexivity|].
  simpl List.length. rewrite bytes_of_mem_S. simpl in H.
  destruct (Z.eqb_spec (m p) 0) as [H0|H0]; simpl in H; [lia|].
  destruct (Z.eqb_spec (m p) c) as [->|Hne]; [|lia].
  f_equal. apply IH. exact H.
Qed.

Lemma absent_same_table (T T' : mem) (pat : list Z) (first limit : Z) :
  same_table T T' ->
  0 <= first -> limit + Z.of_nat (List.length pat) <= Table_Length T + 1 ->
  absent T pat first limit -> absent T' pat first limit.
Proof.
  intros (Hlen & Hag) Hfirst Hlimit Habs p Hp Hocc. apply (Habs p Hp).
  unfold occurs_at in *. rewrite <- Hocc at 2.
  apply bytes_of_mem_ext. intros i Hi. symmetry. apply Hag. lia.
Qed.

Lemma tag_scan_fails (T : mem) (tag : list Z) (first last : Z) :
  Forall (fun c => c <> 0) tag ->
  absent T tag first (last + 1) ->
  for_DataPtr_le (fun DataPtr => AsciiStrCmp T DataPtr tag =? 0) first last = None.
Proof.
  intros Htag Habs. unfold for_DataPtr_le. apply for_DataPtr_None.
  intros p Hp. destruct (Z.eqb_spec (AsciiStrCmp T p tag) 0) as [H0|]; [|reflexivity].
  exfalso. apply (Habs p Hp). apply AsciiStrCmp_chars; assumption.
Qed.

Lemma tag_chars (tag : list Z) :
  forallb (fun c => negb (c =? 0)) tag = true -> Forall (fun c => c <> 0) tag.
Proof.
  intro H. apply Forall_forall. intros c Hc.
  rewrite forallb_forall in H. specialize (H c Hc). lia.
Qed.

Lemma absent_check (T : mem) (pat : list Z) (first limit : Z) :
  for_DataPtr (fun p => compare_bytes T p pat =? 0) first limit = None ->
  absent T pat first limit.
Proof.
  intros H p Hp Hocc. rewrite for_DataPtr_None in H. specialize (H p Hp).
  apply compare_bytes_0 in Hocc. rewrite Hocc in H. discriminate.
Qed.

Lemma same_table_check (T T' : mem) (n : nat) :
  Table_Length T = Z.of_nat n -> Table_Length T' = Z.of_nat n ->
  forallb (fun a => T' a =? T a) (map Z.of_nat (seq 0 n)) = true ->
  same_table T T'.
Proof.
  intros HT HT' H. split; [congruence|]. intros a Ha.
  pose proof (range_check _ n H a ltac:(lia)) as Hc. cbv beta in Hc. lia.
Qed.

Lemma RESSOnlyTable_same : same_table RESSOnlyTable RESSOnlyTable'.
Proof. apply (same_table_check _ _ 134); vm_compute; reflexivity. Qed.

(** * The claims *)

(** ** C1: the package length decoded from a long form *)

(** The claim fails on [WideTable]: its RESL PkgLength has two ByteData and
    the value 4160, the function decodes 64 from the header byte and the
    first ByteData alone (whatever the second holds), and so refuses a list
    of 15 interrupts, whose package of 85 bytes the package of 4160 bytes
    would hold. *)
Lemma long_decode_drops_further_ByteData :
  FindName WideTable TPM_PRS_RESL = Some 105 /\
  ByteDataCount (WideTable 110) = 2 /\
  PkgLength_by_the_words WideTable 110 = 4160 /\
  DecodeLongPkgLength WideTable 110 = 64 /\
  DecodeLongPkgLength WideTable 110 <> PkgLength_by_the_words WideTable 110 /\
  DecodeLongPkgLength (poke WideTable 112 0x00) 110
  = DecodeLongPkgLength WideTable 110 /\
  UpdatePossibleResource WideTable (irq_list 1 15) 60 false
  = (EFI_INVALID_PARAMETER, WideTable, false).
Proof.
  repeat split; vm_compute; congruence.
Qed.

(** C1, amended. For a PkgLeadByte in long form (bits 7-6 give a count of
    1 to 3 ByteData) the decode step computes the original package length
    as the low nibble of the PkgLeadByte plus the first ByteData shifted
    left by 4 bits; a second and third ByteData are jumped over and do not
    enter the value.  With one ByteData this is the value of the encoding.
    It is this length that part 2 keeps in [OriginalPkgLength] and that
    ends the region it fills. *)
Theorem long_decode_reads_first_ByteData (T : mem) :
  byte_mem T ->
  (forall hdr,
     Z.land (T hdr) 0xC0 <> 0 ->
     1 <= ByteDataCount (T hdr) <= 3 /\
     DecodeLongPkgLength T hdr = Z.land (T hdr) 0x0F + Z.shiftl (T (hdr + 1)) 4 /\
     (ByteDataCount (T hdr) = 1 ->
      DecodeLongPkgLength T hdr = PkgLength_by_the_words T hdr)) /\
  (forall L s s' q,
     Table s = T -> 63 < NewPkgLength s ->
     FindName T TPM_PRS_RESL = Some q ->
     PatchRESL L s = Next s' ->
     OriginalPkgLength s' = DecodeLongPkgLength T (q + 5) /\
     DataEndPtr s' = Some (q + 5 + DecodeLongPkgLength T (q + 5))).
Proof.
  intro HT. split.
  - intros hdr Hl.
    pose proof (lead_long (T hdr) (HT hdr) Hl) as Hc.
    destruct (DecodeLongPkgLength_bytes T hdr HT) as (Hd & _).
    split; [exact Hc|]. split.
    + rewrite Hd, low_nibble, Z.shiftl_mul_pow2 by lia.
      change (2 ^ 4) with 16. lia.
    + intro H1. unfold PkgLength_by_the_words.
      rewrite (top_bits (T hdr) (HT hdr)), H1.
      change (Z.to_nat 1) with 1%nat. cbn [ByteData_value].
      pose proof (HT (hdr + 1)).
      rewrite Hd, low_nibble, Z.shiftl_mul_pow2 by lia.
      change (2 ^ 4) with 16. lia.
  - intros L s s' q <- Hgt Hq H.
    destruct (DecodeLongPkgLength_bytes (Table s) (q + 5) HT) as (Hd & _).
    replace (q + 5 + 1) with (q + 6) in Hd by lia.
    destruct (LongTemplate_dec (Table s) q Hq) as [(c & n & HLT) | [Hl | Hb]].
    + rewrite (PatchRESL_template s L Hgt q c n HT HLT) in H.
      destruct (_ >? _); [discriminate|]. injection H as <-.
      cbn [OriginalPkgLength DataEndPtr]. rewrite Hd. split; reflexivity.
    + rewrite (PatchRESL_not_long s L Hgt q Hq Hl) in H. discriminate.
    + rewrite (PatchRESL_bad_prefix s L Hgt q Hq Hb) in H. discriminate.
Qed.

(** The PkgLength of the RESL template of [TpmTable]: 0x43 0x05, one
    ByteData, which is 83. *)
Lemma long_decode_reads_first_ByteData_witness :
  DecodeLongPkgLength TpmTable 110
  = Z.land (TpmTable 110) 0x0F + Z.shiftl (TpmTable (110 + 1)) 4 /\
  DecodeLongPkgLength TpmTable 110 = PkgLength_by_the_words TpmTable 110.
Proof.
  destruct (proj1 (long_decode_reads_first_ByteData TpmTable TpmTable_bytes)
              110 ltac:(vm_compute; discriminate)) as (_ & H1 & H2).
  split; [exact H1 | apply H2; vm_compute; reflexivity].
Defined.

Example RESL_template_length :
  DecodeLongPkgLength TpmTable 110 = 83 /\
  PkgLength_by_the_words TpmTable 110 = 83.
Proof. vm_compute. split; reflexivity. Qed.

(** ** C2: a new package length above the original one *)

(** C2. Whenever the package length computed for the template the function
    works on exceeds the package length decoded from that template (the
    comparisons of lines 251 and 323), the call returns
    [EFI_INVALID_PARAMETER], the memory is the one it was given and the
    caller's flag is untouched: nothing has been written. *)
Theorem oversize_is_invalid_parameter
  (T : mem) (IrqBuffer : list Z) (L : Z) (F : bool)
  (short : bool) (hdr enc New Orig : Z) :
  byte_mem T ->
  Selects T L short hdr enc New Orig ->
  Orig < New ->
  UpdatePossibleResource T IrqBuffer L F = (EFI_INVALID_PARAMETER, T, F).
Proof.
  intros HT HS Hgt. destruct HS as [p n HS Hle | q c n HW HLT].
  - rewrite (short_case T IrqBuffer L F p n HS Hle).
    destruct (Z.gtb_spec (NewLength (1 + n) L) (T (p + 5))); [reflexivity | lia].
  - rewrite (long_case T IrqBuffer L F q c n HT HW HLT).
    destruct (Z.gtb_spec (NewLength (1 + c + n) L)
                (T (q + 6) * 16 + T (q + 5) mod 16)); [reflexivity | lia].
Qed.

(** The RESS template of [TightTable] declares 26 bytes; two interrupts
    need 30. *)
Lemma oversize_is_invalid_parameter_witness :
  UpdatePossibleResource TightTable (irq_list 20 2) 8 false
  = (EFI_INVALID_PARAMETER, TightTable, false).
Proof.
  apply (oversize_is_invalid_parameter TightTable (irq_list 20 2) 8 false
           true (37 + 5) (1 + 2) (NewLength (1 + 2) 8) (TightTable (37 + 5))).
  - exact TightTable_bytes.
  - apply Selects_RESS.
    + repeat split; vm_compute; congruence.
    + vm_compute. discriminate.
  - vm_compute. reflexivity.
Defined.

(** ** C3: which template is patched, and the flag *)

(** C3 as it is worded does not hold: a new package length of at most 63
    does not make the function patch RESS.  The RESS template of
    [TightTable] declares 26 bytes; for two interrupts the new package
    length is 30, and the call returns [EFI_INVALID_PARAMETER] with the
    table and the flag as they were.  The RESS template of [EndTable] takes
    one interrupt, but its PkgLength lies at the bound of the scan, and the
    call returns [EFI_NOT_FOUND]. *)
Lemma short_length_is_not_enough :
  FindName TightTable TPM_PRS_RESS = Some 37 /\
  BufferSizeLen (TightTable (37 + 6)) = Some 2 /\
  NewLength (1 + 2) 8 = 30 /\
  TightTable (37 + 5) = 26 /\
  UpdatePossibleResource TightTable (irq_list 20 2) 8 false
  = (EFI_INVALID_PARAMETER, TightTable, false) /\
  FindName EndTable TPM_PRS_RESS = Some 37 /\
  NewLength (1 + 2) 4 = EndTable (37 + 5) /\
  ScanLimit EndTable = 37 + 5 /\
  StatusOf (UpdatePossibleResource EndTable (irq_list 20 1) 4 false)
  = EFI_NOT_FOUND.
Proof.
  repeat split; vm_compute; congruence.
Qed.

(** C3, amended. The package length computed for the RESS template decides
    the path.  At most 63, not above the package length of the RESS
    template, and the PkgLength of RESS below the bound of the scan: the
    call returns [EFI_SUCCESS], the PkgLength and BufferSize of RESS are
    rewritten, the template holds the list ([TemplatePatched]) and
    [*IsShortFormPkgLength] is [TRUE].  Above 63, the length computed for
    RESL not above the package length decoded from RESL, and the PkgLength
    of RESL below the bound: [EFI_SUCCESS], the same for RESL, and the flag
    is [FALSE].  Every successful call is one of the two, so after success
    the flag tells which template was patched. *)
Theorem flag_tells_the_patched_template
  (T : mem) (IrqBuffer : list Z) (L : Z) (F : bool) :
  byte_mem T ->
  (forall p n,
     ShortTemplate T p n ->
     NewLength (1 + n) L <= 63 ->
     NewLength (1 + n) L <= T (p + 5) ->
     p + 5 < ScanLimit T ->
     exists T',
       UpdatePossibleResource T IrqBuffer L F = (EFI_SUCCESS, T', true) /\
       T' (p + 5) = NewLength (1 + n) L /\
       T' (p + 7) = UINT8 (L + 19) /\
       TemplatePatched T T' IrqBuffer L (p + 5) (1 + n) (T (p + 5))) /\
  (forall q c n,
     WantsLong T L ->
     LongTemplate T q c n ->
     NewLength (1 + c + n) L <= T (q + 6) * 16 + T (q + 5) mod 16 ->
     q + 5 < ScanLimit T ->
     exists T',
       UpdatePossibleResource T IrqBuffer L F = (EFI_SUCCESS, T', false) /\
       T' (q + 5) = 16 * (T (q + 5) / 16) + NewLength (1 + c + n) L mod 16 /\
       T' (q + 6) = (NewLength (1 + c + n) L / 16) mod 256 /\
       T' (q + 7 + c) = UINT8 (L + 19) /\
       TemplatePatched T T' IrqBuffer L (q + 5) (1 + c + n)
         (T (q + 6) * 16 + T (q + 5) mod 16)) /\
  (forall T' F',
     UpdatePossibleResource T IrqBuffer L F = (EFI_SUCCESS, T', F') ->
     exists p n,
       ShortTemplate T p n /\
       (NewLength (1 + n) L <= 63 ->
        F' = true /\ NewLength (1 + n) L <= T (p + 5) /\ p + 5 < ScanLimit T) /\
       (63 < NewLength (1 + n) L ->
        F' = false /\
        exists q c n',
          LongTemplate T q c n' /\
          NewLength (1 + c + n') L <= T (q + 6) * 16 + T (q + 5) mod 16 /\
          q + 5 < ScanLimit T)).
Proof.
  intro HT. split; [|split].
  - intros p n HS Hs63 Hfit Hend.
    assert (Hn : 2 <= n <= 5) by (eapply BufferSizeLen_range; apply HS).
    pose proof (Selects_RESS T L p n HS Hs63) as HSel.
    eexists. split.
    { rewrite (Selects_fits_run T IrqBuffer L F _ _ _ _ _ HT HSel Hfit).
      destruct (Z.geb_spec (p + 5) (ScanLimit T)); [lia | reflexivity]. }
    destruct (ShortHeader_bytes T (p + 5) (NewLength (1 + n) L) L)
      as (E0 & E2 & _).
    pose proof (UINT32_range (1 + n + 19 + L)) as Hr.
    fold (NewLength (1 + n) L) in Hr.
    rewrite UINT8_small in E0 by lia.
    replace (p + 5 + 2) with (p + 7) in E2 by lia.
    rewrite !Patched_before by lia. unfold Header.
    split; [exact E0|]. split; [exact E2|].
    exact (Patched_TemplatePatched T IrqBuffer L _ _ _ _ _ HT HSel Hfit).
  - intros q c n HW HLT Hfit Hend.
    destruct (LongTemplate_count T q c n HT HLT) as (Hc & Hcc & Hn).
    pose proof (Selects_RESL T L q c n HW HLT) as HSel.
    eexists. split.
    { rewrite (Selects_fits_run T IrqBuffer L F _ _ _ _ _ HT HSel Hfit).
      destruct (Z.geb_spec (q + 5) (ScanLimit T)); [lia | reflexivity]. }
    destruct (LongHeader_bytes T (q + 5) (NewLength (1 + c + n) L) L HT)
      as (E0 & E1 & E2 & _).
    rewrite <- Hcc in E2.
    replace (q + 5 + 1) with (q + 6) in E1 by lia.
    replace (q + 5 + 2 + c) with (q + 7 + c) in E2 by lia.
    rewrite !Patched_before by lia. unfold Header.
    split; [exact E0|]. split; [exact E1|]. split; [exact E2|].
    exact (Patched_TemplatePatched T IrqBuffer L _ _ _ _ _ HT HSel Hfit).
  - intros T' F' H.
    destruct (success_inv T IrqBuffer L F T' F' HT H)
      as (short & hdr & enc & New & Orig & HS & Hle & Henc & Hhdr & -> & _).
    assert (Hend : hdr < ScanLimit T).
    { rewrite (Selects_fits_run T IrqBuffer L F _ _ _ _ _ HT HS Hle) in H.
      destruct (Z.geb_spec hdr (ScanLimit T)); [discriminate | lia]. }
    destruct HS as [p n HS Hs63 | q c n' HW HLT].
    + exists p, n. split; [exact HS|]. split; [auto | intros; lia].
    + destruct HW as (p & n & HS & Hgt).
      exists p, n. split; [exact HS|]. split; [intros; lia|].
      intros _. split; [reflexivity|]. exists q, c, n'. auto.
Qed.

(** Two interrupts go to the RESS template of [TpmTable]. *)
Lemma flag_tells_the_patched_template_witness :
  exists T',
    UpdatePossibleResource TpmTable (irq_list 20 2) 8 false
    = (EFI_SUCCESS, T', true) /\
    T' (37 + 5) = NewLength (1 + 2) 8 /\
    T' (37 + 7) = UINT8 (8 + 19) /\
    TemplatePatched TpmTable T' (irq_list 20 2) 8 (37 + 5) (1 + 2)
      (TpmTable (37 + 5)).
Proof.
  apply (proj1 (flag_tells_the_patched_template
                  TpmTable (irq_list 20 2) 8 false TpmTable_bytes)
           37 2 TpmTable_RESS).
  - vm_compute. discriminate.
  - vm_compute. discriminate.
  - vm_compute. reflexivity.
Defined.

(** Twelve interrupts go to its RESL template, and the flag says so. *)
Example twelve_interrupts_use_RESL :
  let r := UpdatePossibleResource TpmTable (irq_list 20 12) 48 true in
  StatusOf r = EFI_SUCCESS /\ FlagAfter r = false /\
  bytes_of_mem (MemoryAfter r) 105 9
  = TPM_PRS_RESL ++ [0x11; 0x47; 0x04; AML_BYTE_PREFIX; 67] /\
  bytes_of_mem (MemoryAfter r) 37 8 = bytes_of_mem TpmTable 37 8.
Proof. vm_compute. repeat split; reflexivity. Qed.

(** ** C4: the Interrupt descriptor and the End Tag *)

(** C4. For a list of [k] interrupts ([L = 4 * k] bytes, [k] from 0 to 15)
    and a successful call, the Interrupt descriptor of the template worked
    on (it starts [enc + 12] bytes behind the PkgLeadByte: behind the size
    encodings and the Memory32Fixed descriptor) has its length byte equal
    to [2 + L] and its interrupt count equal to [k], the bytes of the
    caller's list follow its 5-byte header, and the End Tag (0x79, 0x00)
    follows the list and ends the package that the patched PkgLength
    declares.  For [k = 0] the End Tag follows the header at once. *)
Theorem interrupt_descriptor_is_rewritten
  (T : mem) (IrqBuffer : list Z) (k : Z) (F : bool) (T' : mem) (F' : bool) :
  byte_mem T ->
  0 <= k <= 15 ->
  Z.of_nat (List.length IrqBuffer) = 4 * k ->
  UpdatePossibleResource T IrqBuffer (4 * k) F = (EFI_SUCCESS, T', F') ->
  exists short hdr enc New Orig,
    Selects T (4 * k) short hdr enc New Orig /\
    T' (hdr + enc + 12 + 1) = 2 + 4 * k /\
    T' (hdr + enc + 12 + 4) = k /\
    bytes_of_mem T' (hdr + enc + 12 + 5) (List.length IrqBuffer) = IrqBuffer /\
    T' (hdr + enc + 12 + 5 + 4 * k) = ACPI_END_TAG_DESCRIPTOR /\
    T' (hdr + enc + 12 + 5 + 4 * k + 1) = 0 /\
    hdr + enc + 12 + 5 + 4 * k + 2 = hdr + New.
Proof.
  intros HT Hk Hlen H.
  destruct (success_inv T IrqBuffer (4 * k) F T' F' HT H)
    as (short & hdr & enc & New & Orig & HS & Hle & Henc & Hhdr & -> & ->).
  exists short, hdr, enc, New, Orig. split; [exact HS|].
  assert (HL : 0 <= 4 * k < 2 ^ 32 - 28)
    by (change (2 ^ 32) with 4294967296; lia).
  assert (Hmax : 4 * k <= MAX_PRS_INT_BUF_SIZE)
    by (unfold MAX_PRS_INT_BUF_SIZE; lia).
  set (Th := Header short T hdr New (4 * k)).
  destruct (Patched_descriptor Th IrqBuffer (4 * k) hdr enc Orig HL Hmax)
    as (D1 & D4 & Dl).
  destruct (Patched_end_tag Th IrqBuffer (4 * k) hdr enc Orig) as (E0 & E1).
  rewrite (end_tag_position (4 * k) hdr enc HL) in E0, E1.
  replace (hdr + enc + 12) with (hdr + (enc + 12)) by lia.
  split; [exact D1|].
  split; [rewrite D4; symmetry; apply Z.div_unique_exact; lia|].
  split.
  { apply bytes_of_mem_list. intros i Hi. apply Dl. lia. }
  split; [exact E0|]. split; [exact E1|].
  assert (HN : New = enc + 19 + 4 * k).
  { destruct HS; unfold NewLength; apply UINT32_small;
      change (2 ^ 32) with 4294967296; lia. }
  lia.
Qed.

(** An empty list: the descriptor of the RESS template of [TpmTable]
    becomes an empty Interrupt descriptor with the End Tag behind it. *)
Lemma interrupt_descriptor_is_rewritten_witness :
  exists short hdr enc New Orig,
    Selects TpmTable (4 * 0) short hdr enc New Orig /\
    MemoryAfter (UpdatePossibleResource TpmTable [] (4 * 0) false)
      (hdr + enc + 12 + 1) = 2 + 4 * 0 /\
    MemoryAfter (UpdatePossibleResource TpmTable [] (4 * 0) false)
      (hdr + enc + 12 + 4) = 0 /\
    bytes_of_mem (MemoryAfter (UpdatePossibleResource TpmTable [] (4 * 0) false))
      (hdr + enc + 12 + 5) (List.length (@nil Z)) = [] /\
    MemoryAfter (UpdatePossibleResource TpmTable [] (4 * 0) false)
      (hdr + enc + 12 + 5 + 4 * 0) = ACPI_END_TAG_DESCRIPTOR /\
    MemoryAfter (UpdatePossibleResource TpmTable [] (4 * 0) false)
      (hdr + enc + 12 + 5 + 4 * 0 + 1) = 0 /\
    hdr + enc + 12 + 5 + 4 * 0 + 2 = hdr + New.
Proof.
  apply (interrupt_descriptor_is_rewritten TpmTable [] 0 false
           (MemoryAfter (UpdatePossibleResource TpmTable [] (4 * 0) false))
           (FlagAfter (UpdatePossibleResource TpmTable [] (4 * 0) false))).
  - exact TpmTable_bytes.
  - lia.
  - reflexivity.
  - apply result_eta. vm_compute. reflexivity.
Defined.

(** The patched RESS template for the interrupts 20 and 21, and for none. *)
Example two_interrupts_patched :
  bytes_of_mem
    (MemoryAfter (UpdatePossibleResource TpmTable (irq_list 20 2) 8 false)) 37 36
  = TPM_PRS_RESS ++ [0x11; 30; AML_BYTE_PREFIX; 27] ++ Memory32Fixed
    ++ [0x89; 10; 0x00; 0x15; 2] ++ [20; 0; 0; 0; 21; 0; 0; 0]
    ++ [ACPI_END_TAG_DESCRIPTOR; 0] ++ [AML_NOOP_OP].
Proof. vm_compute. reflexivity. Qed.

Example no_interrupt_patched :
  bytes_of_mem
    (MemoryAfter (UpdatePossibleResource TpmTable [] 0 false)) 37 28
  = TPM_PRS_RESS ++ [0x11; 22; AML_BYTE_PREFIX; 19] ++ Memory32Fixed
    ++ [0x89; 2; 0x00; 0x15; 0]
    ++ [ACPI_END_TAG_DESCRIPTOR; 0] ++ [AML_NOOP_OP].
Proof. vm_compute. reflexivity. Qed.

(** ** C5: what a successful call leaves alone, and the filling *)

(** C5 as it is worded does not hold: the bytes a successful call rewrites
    need not be interior bytes of the table.  The end of the region to fill
    is taken from the PkgLength that the template declares (line 218) and is
    not compared with [Table->Length].  [OverlongTable] has 70 bytes and a
    RESS template that declares 63; the call for one interrupt succeeds and
    the 35 bytes behind the table, zero before, are NoOp after it. *)
Lemma filler_reaches_behind_the_table :
  Table_Length OverlongTable = 70 /\
  FindName OverlongTable TPM_PRS_RESS = Some 37 /\
  DecodeShortPkgLength OverlongTable (37 + 5) = 63 /\
  StatusOf (UpdatePossibleResource OverlongTable (irq_list 20 1) 4 false)
  = EFI_SUCCESS /\
  Table_Length
    (MemoryAfter (UpdatePossibleResource OverlongTable (irq_list 20 1) 4 false))
  = 70 /\
  bytes_of_mem OverlongTable 70 35 = repeat 0x00 35 /\
  bytes_of_mem
    (MemoryAfter (UpdatePossibleResource OverlongTable (irq_list 20 1) 4 false))
    70 35
  = repeat AML_NOOP_OP 35.
Proof.
  repeat split; vm_compute; reflexivity.
Qed.

(** C5, amended. After a successful call the declared length of the table
    is what it was, as is every byte in front of the PkgLength of the
    template worked on; behind the End Tag every byte up to the end of the
    original package ([hdr + Orig], [Orig] decoded before the patch) is
    [AML_NOOP_OP]; and for every list size whose package length does not
    wrap around 32 bits (the caller passes at most 60) the End Tag ends the
    new package and every byte from the end of the original package on is
    what it was: only bytes of the original package are rewritten.  These
    are interior bytes of the table when the original package ends inside
    the table. *)
Theorem length_kept_and_rest_filled
  (T : mem) (IrqBuffer : list Z) (L : Z) (F : bool) (T' : mem) (F' : bool) :
  byte_mem T ->
  UpdatePossibleResource T IrqBuffer L F = (EFI_SUCCESS, T', F') ->
  Table_Length T' = Table_Length T /\
  exists short hdr enc New Orig t,
    Selects T L short hdr enc New Orig /\
    t = hdr + enc + 12 + UINT32 (5 + L) /\
    (forall a, a < hdr -> T' a = T a) /\
    T' t = ACPI_END_TAG_DESCRIPTOR /\ T' (t + 1) = 0 /\
    (forall a, t + 2 <= a < hdr + Orig -> T' a = AML_NOOP_OP) /\
    (0 <= L < 2 ^ 32 - 28 ->
     t + 2 = hdr + New /\
     (forall a, hdr + Orig <= a -> T' a = T a) /\
     (hdr + Orig <= Table_Length T ->
      forall a, T' a <> T a ->
                sizeof_EFI_ACPI_DESCRIPTION_HEADER < a < Table_Length T)).
Proof.
  intros HT H.
  destruct (success_inv T IrqBuffer L F T' F' HT H)
    as (short & hdr & enc & New & Orig & HS & Hle & Henc & Hhdr & -> & ->).
  set (Th := Header short T hdr New L).
  assert (Hbefore : forall a, a < hdr ->
            Patched Th IrqBuffer L hdr enc Orig a = T a).
  { intros a Ha. rewrite Patched_before by lia.
    apply Header_before; assumption. }
  split.
  { apply Table_Length_ext. intros a Ha. apply Hbefore. lia. }
  exists short, hdr, enc, New, Orig, (hdr + enc + 12 + UINT32 (5 + L)).
  split; [exact HS|]. split; [reflexivity|]. split; [exact Hbefore|].
  replace (hdr + enc + 12) with (hdr + (enc + 12)) by lia.
  destruct (Patched_end_tag Th IrqBuffer L hdr enc Orig) as (E0 & E1).
  split; [exact E0|]. split; [exact E1|].
  split; [intros a Ha; apply Patched_filler; exact Ha|].
  intro HL. rewrite (end_tag_position L hdr enc HL).
  assert (HN : New = enc + 19 + L).
  { change (2 ^ 32) with 4294967296 in HL.
    destruct HS; unfold NewLength; apply UINT32_small;
      change (2 ^ 32) with 4294967296; lia. }
  assert (Hafter : forall a, hdr + Orig <= a ->
            Patched Th IrqBuffer L hdr enc Orig a = T a).
  { intros a Ha. rewrite Patched_after by (assumption || lia).
    subst Th. destruct HS as [p n HS Hs63 | q c n' HW HLT]; unfold Header.
    - apply ShortHeader_bytes; lia.
    - destruct (LongTemplate_count T q c n' HT HLT) as (Hc & Hcc & _).
      apply (LongHeader_bytes T (q + 5) (NewLength (1 + c + n') L) L HT);
        rewrite <- ?Hcc; lia. }
  split; [lia|]. split; [exact Hafter|].
  intros Hin a Hdiff.
  destruct (Z_lt_ge_dec a hdr) as [Hlt|Hge];
    [exfalso; apply Hdiff, Hbefore, Hlt|].
  destruct (Z_lt_ge_dec a (hdr + Orig)) as [Hlt|Hge'];
    [|exfalso; apply Hdiff, Hafter; lia].
  unfold sizeof_EFI_ACPI_DESCRIPTION_HEADER in *. lia.
Qed.

(** Eleven interrupts in the RESL template of [TpmTable], which has room
    for fifteen: sixteen bytes of filling. *)
Lemma length_kept_and_rest_filled_witness :
  Table_Length (MemoryAfter (UpdatePossibleResource TpmTable (irq_list 20 11) 44 false))
  = Table_Length TpmTable /\
  exists short hdr enc New Orig t,
    Selects TpmTable 44 short hdr enc New Orig /\
    t = hdr + enc + 12 + UINT32 (5 + 44) /\
    (forall a, a < hdr ->
       MemoryAfter (UpdatePossibleResource TpmTable (irq_list 20 11) 44 false) a
       = TpmTable a) /\
    MemoryAfter (UpdatePossibleResource TpmTable (irq_list 20 11) 44 false) t
    = ACPI_END_TAG_DESCRIPTOR /\
    MemoryAfter (UpdatePossibleResource TpmTable (irq_list 20 11) 44 false) (t + 1)
    = 0 /\
    (forall a, t + 2 <= a < hdr + Orig ->
       MemoryAfter (UpdatePossibleResource TpmTable (irq_list 20 11) 44 false) a
       = AML_NOOP_OP) /\
    (0 <= 44 < 2 ^ 32 - 28 ->
     t + 2 = hdr + New /\
     (forall a, hdr + Orig <= a ->
        MemoryAfter (UpdatePossibleResource TpmTable (irq_list 20 11) 44 false) a
        = TpmTable a) /\
     (hdr + Orig <= Table_Length TpmTable ->
      forall a,
        MemoryAfter (UpdatePossibleResource TpmTable (irq_list 20 11) 44 false) a
        <> TpmTable a ->
        sizeof_EFI_ACPI_DESCRIPTION_HEADER < a < Table_Length TpmTable)).
Proof.
  apply (length_kept_and_rest_filled TpmTable (irq_list 20 11) 44 false
           (MemoryAfter (UpdatePossibleResource TpmTable (irq_list 20 11) 44 false))
           (FlagAfter (UpdatePossibleResource TpmTable (irq_list 20 11) 44 false))).
  - exact TpmTable_bytes.
  - apply result_eta. vm_compute. reflexivity.
Defined.

Example eleven_interrupts_filled :
  bytes_of_mem
    (MemoryAfter (UpdatePossibleResource TpmTable (irq_list 20 11) 44 false))
    (110 + 67) 18
  = repeat AML_NOOP_OP 16 ++ [0; 0].
Proof. vm_compute. reflexivity. Qed.

(** ** C6: encodings the function does not support *)

(** C6. If the byte behind the located name and BufferOp has bits 7-6 that
    do not fit the name (set for RESS, clear for RESL), or the byte behind
    the PkgLength is none of BytePrefix, WordPrefix and DWordPrefix, the
    call returns [EFI_UNSUPPORTED] (and has written nothing). *)
Theorem unsupported_encoding_is_rejected
  (T : mem) (IrqBuffer : list Z) (L : Z) (F : bool) :
  UnsupportedEncoding T L ->
  UpdatePossibleResource T IrqBuffer L F = (EFI_UNSUPPORTED, T, F).
Proof.
  intros [p Hp Hl | p Hp H1 H2 H3 | q HW Hq Hl | q c HW Hq Hc H1 H2 H3].
  - apply (RESS_unsupported T IrqBuffer L F p Hp). left. exact Hl.
  - apply (RESS_unsupported T IrqBuffer L F p Hp). right.
    apply BufferSizeLen_None. tauto.
  - apply (RESL_unsupported T IrqBuffer L F q HW Hq). left. exact Hl.
  - apply (RESL_unsupported T IrqBuffer L F q HW Hq). right.
    rewrite <- Hc. apply BufferSizeLen_None. tauto.
Qed.

Lemma unsupported_encoding_is_rejected_witness :
  UpdatePossibleResource ShortRESLTable (irq_list 20 12) 48 false
  = (EFI_UNSUPPORTED, ShortRESLTable, false).
Proof.
  apply unsupported_encoding_is_rejected.
  apply (RESL_not_long_form ShortRESLTable 48 105).
  - exists 37, 2. split.
    + repeat split; vm_compute; congruence.
    + vm_compute. reflexivity.
  - vm_compute. reflexivity.
  - vm_compute. reflexivity.
Defined.

(** ** C7: a marker that is not there *)

(** C7, amended. When the marker occurs nowhere in the region a patcher
    scans, [UpdatePPVersion] and [UpdatePossibleResource] return
    [EFI_NOT_FOUND], and so does [UpdateHID] once both capability queries
    have succeeded; the memory is left as it was.  The markers are the
    characters "$PV" and "NNNN0000" and the names "RESS" and, when the
    RESS template asks for the long form, "RESL".  The outcome is the same
    for every memory that holds the same table in front of the declared
    boundary: it depends on no byte at the boundary or beyond. *)
Theorem absent_marker_is_not_found (T T' : mem) :
  same_table T T' ->
  (absent T PHYSICAL_PRESENCE_VERSION_TAG sizeof_EFI_ACPI_DESCRIPTION_HEADER
     (Table_Length T - PHYSICAL_PRESENCE_VERSION_SIZE + 1) ->
   forall PPVer, UpdatePPVersion T' PPVer = (EFI_NOT_FOUND, T')) /\
  (absent T TPM_HID_TAG sizeof_EFI_ACPI_DESCRIPTION_HEADER
     (Table_Length T - TPM_HID_PNP_SIZE + 1) ->
   forall MfrResult FwResult,
     EFI_ERROR (fst MfrResult) = false ->
     EFI_ERROR (fst (fst FwResult)) = false ->
     UpdateHID T' MfrResult FwResult = (EFI_NOT_FOUND, T')) /\
  (forall IrqBuffer L F,
     absent T TPM_PRS_RESS sizeof_EFI_ACPI_DESCRIPTION_HEADER (ScanLimit T) \/
     (WantsLong T L /\
      absent T TPM_PRS_RESL sizeof_EFI_ACPI_DESCRIPTION_HEADER (ScanLimit T)) ->
     UpdatePossibleResource T' IrqBuffer L F = (EFI_NOT_FOUND, T', F)).
Proof.
  intro HST. pose proof HST as (Hlen & Hag).
  split; [|split].
  - intros Habs PPVer.
    apply (absent_same_table T T' _ _ _ HST) in Habs;
      [|unfold sizeof_EFI_ACPI_DESCRIPTION_HEADER; lia
       |change (Z.of_nat (List.length PHYSICAL_PRESENCE_VERSION_TAG)) with 3;
        unfold PHYSICAL_PRESENCE_VERSION_SIZE; lia].
    unfold UpdatePPVersion. rewrite Hlen.
    rewrite tag_scan_fails;
      [reflexivity | apply tag_chars; reflexivity | exact Habs].
  - intros Habs [Status ManufacturerID] [[Status' Fw1] Fw2] HM HF.
    cbn [fst] in HM, HF.
    apply (absent_same_table T T' _ _ _ HST) in Habs;
      [|unfold sizeof_EFI_ACPI_DESCRIPTION_HEADER; lia
       |change (Z.of_nat (List.length TPM_HID_TAG)) with 8;
        unfold TPM_HID_PNP_SIZE; lia].
    unfold UpdateHID. rewrite HM, HF, Hlen. cbn [negb].
    rewrite tag_scan_fails;
      [|apply tag_chars; reflexivity | exact Habs].
    destruct (_ || _); reflexivity.
  - intros IrqBuffer L F [Habs | (HW & Habs)].
    + apply RESS_absent_not_found.
      rewrite (FindName_same_table T T' _ HST).
      apply (FindName_None T TPM_PRS_RESS eq_refl). exact Habs.
    + apply RESL_absent_not_found.
      * apply (WantsLong_same_table T T' L HST HW).
      * rewrite (FindName_same_table T T' _ HST).
        apply (FindName_None T TPM_PRS_RESL eq_refl). exact Habs.
Qed.

(** The claim fails for [UpdateHID] when a capability query fails: the
    marker is not in the table, and the call returns the status of the
    query. *)
Lemma UpdateHID_returns_query_failure :
  absent RESSOnlyTable TPM_HID_TAG sizeof_EFI_ACPI_DESCRIPTION_HEADER
    (Table_Length RESSOnlyTable - TPM_HID_PNP_SIZE + 1) /\
  UpdateHID RESSOnlyTable (EFI_DEVICE_ERROR, 0) (EFI_SUCCESS, 0x00070055, 0)
  = (EFI_DEVICE_ERROR, RESSOnlyTable) /\
  UpdateHID RESSOnlyTable (EFI_SUCCESS, 0x004C544E) (EFI_DEVICE_ERROR, 0, 0)
  = (EFI_DEVICE_ERROR, RESSOnlyTable) /\
  EFI_DEVICE_ERROR <> EFI_NOT_FOUND.
Proof.
  split; [apply absent_check; vm_compute; reflexivity|].
  split; [reflexivity|]. split; [reflexivity | discriminate].
Qed.

(** None of "$PV", "NNNN0000" and "RESL" is in [RESSOnlyTable], and twelve
    interrupts do not go into its RESS template; that the markers lie
    behind the boundary in [RESSOnlyTable'] changes nothing. *)
Lemma absent_marker_is_not_found_witness :
  UpdatePPVersion RESSOnlyTable' (bytes_of "1.3")
  = (EFI_NOT_FOUND, RESSOnlyTable') /\
  UpdateHID RESSOnlyTable' (EFI_SUCCESS, 0x004C544E) (EFI_SUCCESS, 0x00070055, 0)
  = (EFI_NOT_FOUND, RESSOnlyTable') /\
  UpdatePossibleResource RESSOnlyTable' (irq_list 20 12) 48 false
  = (EFI_NOT_FOUND, RESSOnlyTable', false).
Proof.
  destruct (absent_marker_is_not_found RESSOnlyTable RESSOnlyTable'
              RESSOnlyTable_same) as (HPP & HHID & HPRS).
  split; [|split].
  - apply HPP. apply absent_check. vm_compute. reflexivity.
  - apply HHID; [|reflexivity|reflexivity].
    apply absent_check. vm_compute. reflexivity.
  - apply HPRS. right. split.
    + exists 37, 2. split; [repeat split; vm_compute; congruence|].
      vm_compute. reflexivity.
    + apply absent_check. vm_compute. reflexivity.
Defined.


(** The hypothesis matters: with the characters of the tag in the last
    eight bytes of the table, the outcome of [UpdateHID] turns on the byte
    at the boundary, which [AsciiStrCmp] reads for the NUL of the tag. *)
Example HID_tag_at_the_boundary :
  let body := repeat 0x08 20 ++ TPM_HID_TAG in
  same_table (mk_table body [0x41]) (mk_table body [0x00]) /\
  fst (UpdateHID (mk_table body [0x41])
               (EFI_SUCCESS, 0x004C544E) (EFI_SUCCESS, 0x00070055, 0))
  = EFI_NOT_FOUND /\
  fst (UpdateHID (mk_table body [0x00])
               (EFI_SUCCESS, 0x004C544E) (EFI_SUCCESS, 0x00070055, 0))
  = EFI_SUCCESS.
Proof.
  split; [apply (same_table_check _ _ 64); vm_compute; reflexivity|].
  split; vm_compute; reflexivity.
Qed.

(** ** C8: decoding and encoding again *)

(** C8. A PkgLength in either form, re-encoded in its form with the value
    decoded from it, is written back byte for byte: the memory after the
    encoding step is the memory before it.  So on every successful call
    whose new package length equals the original one, the bytes of the
    PkgLength (the PkgLeadByte and its ByteData) are what they were. *)
Theorem PkgLength_round_trip (T : mem) :
  byte_mem T ->
  (forall hdr a,
     Z.land (T hdr) 0xC0 = 0 ->
     EncodeShortPkgLength T hdr (DecodeShortPkgLength T hdr) a = T a) /\
  (forall hdr a,
     Z.land (T hdr) 0xC0 <> 0 ->
     EncodeLongPkgLength T hdr (DecodeLongPkgLength T hdr) a = T a) /\
  (forall IrqBuffer L F T' F',
     UpdatePossibleResource T IrqBuffer L F = (EFI_SUCCESS, T', F') ->
     exists short hdr enc New Orig,
       Selects T L short hdr enc New Orig /\
       (New = Orig ->
        forall i, 0 <= i <= ByteDataCount (T hdr) -> T' (hdr + i) = T (hdr + i))).
Proof.
  intro HT. split; [|split].
  - intros hdr a _. unfold EncodeShortPkgLength, DecodeShortPkgLength, poke.
    destruct (Z.eqb_spec a hdr) as [->|]; [|reflexivity].
    apply UINT8_small. apply HT.
  - intros hdr a _.
    destruct (EncodeLongPkgLength_bytes T hdr (DecodeLongPkgLength T hdr) HT)
      as (E0 & E1 & Eo).
    destruct (DecodeLongPkgLength_bytes T hdr HT) as (Hd & _).
    pose proof (HT hdr) as Hb0. pose proof (HT (hdr + 1)) as Hb1.
    destruct (Z.eq_dec a hdr) as [->|Ha0]; [rewrite E0, Hd; Z.div_mod_to_equations; lia|].
    destruct (Z.eq_dec a (hdr + 1)) as [->|Ha1]; [rewrite E1, Hd; Z.div_mod_to_equations; lia|].
    apply Eo; assumption.
  - intros IrqBuffer L F T' F' H.
    destruct (success_inv T IrqBuffer L F T' F' HT H)
      as (short & hdr & enc & New & Orig & HS & Hle & Henc & Hhdr & -> & ->).
    exists short, hdr, enc, New, Orig. split; [exact HS|].
    intros HNO i Hi.
    pose proof (ByteDataCount_range (T hdr)) as Hc.
    rewrite Patched_before by lia.
    destruct HS as [p n (Hf & Hl & Hb) Hs63 | q c n' HW HLT]; unfold Header.
    + assert (Hi0 : i = 0).
      { unfold ByteDataCount in Hi. change (Z.lor BIT7 BIT6) with 0xC0 in Hi.
        rewrite Hl in Hi. change (Z.shiftr 0 6) with 0 in Hi. lia. }
      subst i. rewrite Z.add_0_r.
      destruct (ShortHeader_bytes T (p + 5) (NewLength (1 + n) L) L) as (E0 & _).
      rewrite E0, HNO. apply UINT8_small. apply HT.
    + destruct (LongHeader_bytes T (q + 5) (NewLength (1 + c + n') L) L HT)
        as (E0 & E1 & _ & Eo).
      pose proof (HT (q + 5)) as Hb0. pose proof (HT (q + 6)) as Hb1.
      destruct (Z.eq_dec i 0) as [->|Hi0].
      { rewrite Z.add_0_r, E0, HNO. Z.div_mod_to_equations. lia. }
      destruct (Z.eq_dec i 1) as [->|Hi1].
      { rewrite E1, HNO. replace (q + 5 + 1) with (q + 6) by lia.
        Z.div_mod_to_equations. lia. }
      apply Eo; lia.
Qed.

(** The PkgLength of the RESL template of [TpmTable] (0x43 0x05). *)
Lemma PkgLength_round_trip_witness :
  EncodeLongPkgLength TpmTable 110 (DecodeLongPkgLength TpmTable 110) 110
  = TpmTable 110 /\
  EncodeLongPkgLength TpmTable 110 (DecodeLongPkgLength TpmTable 110) 111
  = TpmTable 111.
Proof.
  split;
    apply (proj1 (proj2 (PkgLength_round_trip TpmTable TpmTable_bytes)) 110);
    vm_compute; discriminate.
Defined.

(** Fifteen interrupts fill the RESL template of [TpmTable] exactly: its
    PkgLength and BufferSize are rewritten with the bytes they held. *)
Example fifteen_interrupts_keep_the_PkgLength :
  let r := UpdatePossibleResource TpmTable (irq_list 1 15) 60 false in
  StatusOf r = EFI_SUCCESS /\
  bytes_of_mem (MemoryAfter r) 36 165 = bytes_of_mem TpmTable 36 165.
Proof. vm_compute. split; reflexivity. Qed.

(** ** C9: a new length beyond the ByteData the encoding has *)

(** C9. On the RESL path, a new package length that does not fit the lead
    nibble and the [c] ByteData of the original encoding (it is at least
    [2 ^ (4 + 8 * c)]) makes the call return [EFI_INVALID_PARAMETER] with
    the memory as it was: no byte of the encoding or next to it is
    written. *)
Theorem unrepresentable_length_is_rejected
  (T : mem) (IrqBuffer : list Z) (L : Z) (F : bool) (q c n : Z) :
  byte_mem T ->
  WantsLong T L ->
  LongTemplate T q c n ->
  2 ^ (4 + 8 * c) <= NewLength (1 + c + n) L ->
  UpdatePossibleResource T IrqBuffer L F = (EFI_INVALID_PARAMETER, T, F).
Proof.
  intros HT HW HLT Hbig.
  destruct (LongTemplate_count T q c n HT HLT) as (Hc & _ & _).
  assert (H12 : 2 ^ 12 <= 2 ^ (4 + 8 * c)) by (apply Z.pow_le_mono_r; lia).
  change (2 ^ 12) with 4096 in H12.
  pose proof (HT (q + 6)) as H6.
  assert (H5 : 0 <= T (q + 5) mod 16 < 16) by (apply Z.mod_pos_bound; lia).
  rewrite (long_case T IrqBuffer L F q c n HT HW HLT).
  destruct (Z.gtb_spec (NewLength (1 + c + n) L)
              (T (q + 6) * 16 + T (q + 5) mod 16)); [reflexivity | lia].
Qed.

(** An interrupt buffer of 5000 bytes: the new length 5023 needs more
    than the one ByteData of the RESL template of [TpmTable]. *)
Lemma unrepresentable_length_is_rejected_witness :
  UpdatePossibleResource TpmTable (irq_list 1 1250) 5000 false
  = (EFI_INVALID_PARAMETER, TpmTable, false).
Proof.
  apply (unrepresentable_length_is_rejected
           TpmTable (irq_list 1 1250) 5000 false 105 1 2).
  - exact TpmTable_bytes.
  - exists 37, 2. split.
    + repeat split; vm_compute; congruence.
    + vm_compute. reflexivity.
  - repeat split; vm_compute; congruence.
  - vm_compute. discriminate.
Defined.

(** ** C10: without RESS the RESL template is never tried *)

(** C10. When "RESS" occurs nowhere in the scanned region, part 1 ends
    with [NewPkgLength = 0], part 2 is skipped whatever the table holds
    and whatever the size of the interrupt list, and the call returns
    [EFI_NOT_FOUND] with memory and flag as they were. *)
Theorem no_RESS_is_not_found
  (T : mem) (IrqBuffer : list Z) (L : Z) (F : bool) :
  absent T TPM_PRS_RESS sizeof_EFI_ACPI_DESCRIPTION_HEADER (ScanLimit T) ->
  (exists s1, PatchRESS L T F = Next s1 /\ NewPkgLength s1 = 0 /\
              PatchRESL L s1 = Next s1) /\
  UpdatePossibleResource T IrqBuffer L F = (EFI_NOT_FOUND, T, F).
Proof.
  intro Habs. apply (FindName_None T TPM_PRS_RESS eq_refl) in Habs.
  split.
  - rewrite (PatchRESS_absent T L F Habs). eexists.
    split; [reflexivity|]. split; reflexivity.
  - apply RESS_absent_not_found. exact Habs.
Qed.

(** [NoRESSTable] holds a RESL template that 12 interrupts would fit. *)
Lemma no_RESS_is_not_found_witness :
  FindName NoRESSTable TPM_PRS_RESL = Some 37 /\
  UpdatePossibleResource NoRESSTable (irq_list 20 12) 48 false
  = (EFI_NOT_FOUND, NoRESSTable, false).
Proof.
  split; [vm_compute; reflexivity|].
  apply (no_RESS_is_not_found NoRESSTable (irq_list 20 12) 48 false).
  apply (FindName_None NoRESSTable TPM_PRS_RESS eq_refl).
  vm_compute. reflexivity.
Defined.

(** ** The string patchers at work *)

Example version_is_patched :
  let T := mk_table ([0x0D] ++ PHYSICAL_PRESENCE_VERSION_TAG ++ [0; 0x08; 0x08]) [] in
  fst (UpdatePPVersion T (bytes_of "1.3")) = EFI_SUCCESS /\
  bytes_of_mem (snd (UpdatePPVersion T (bytes_of "1.3"))) 36 6
  = [0x0D] ++ bytes_of "1.3" ++ [0; 0x08] /\
  fst (UpdatePPVersion T (bytes_of "1.30")) = EFI_BUFFER_TOO_SMALL.
Proof. vm_compute. repeat split; reflexivity. Qed.

Example HID_is_patched :
  let T := mk_table ([0x0D] ++ TPM_HID_TAG ++ [0; 0x08; 0x08]) [] in
  bytes_of_mem
    (snd (UpdateHID T (EFI_SUCCESS, 0x004C544E) (EFI_SUCCESS, 0x00070055, 0))) 36 11
  = [0x0D] ++ bytes_of "NTL0785" ++ [0; AML_NOOP_OP; 0x08] /\
  bytes_of_mem
    (snd (UpdateHID T (EFI_SUCCESS, 0x4D4C544E) (EFI_SUCCESS, 0x00070055, 0))) 36 11
  = [0x0D] ++ bytes_of "NTLM0785" ++ [0; 0x08].
Proof. vm_compute. split; reflexivity. Qed.

(** * Further properties of the code *)

(** ** The scanning loops, both ways *)

Lemma for_DataPtr_first (hit : Z -> bool) (first limit p : Z) :
  first <= p < limit -> hit p = true ->
  (forall r, first <= r < p -> hit r = false) ->
  for_DataPtr hit first limit = Some p.
Proof.
  intros Hp Hh Hf.
  destruct (for_DataPtr hit first limit) as [q|] eqn:E.
  - apply for_DataPtr_Some in E as (Hq & Hhq & Hfq).
    destruct (Z.lt_trichotomy q p) as [Hlt | [-> | Hgt]]; [|reflexivity|].
    + rewrite Hf in Hhq by lia. discriminate.
    + rewrite Hfq in Hh by lia. discriminate.
  - rewrite for_DataPtr_None in E. rewrite E in Hh by lia. discriminate.
Qed.

Lemma CompareMem_name (T : mem) (Name : list Z) (p : Z) :
  List.length Name = 4%nat ->
  (CompareMem T p Name TPM_PRS_RES_NAME_SIZE =? 0) = true <-> occurs_at T p Name.
Proof.
  intro Hlen. unfold CompareMem.
  replace (firstn (Z.to_nat TPM_PRS_RES_NAME_SIZE) Name) with Name
    by (symmetry; apply firstn_all2; rewrite Hlen; vm_compute; lia).
  rewrite <- compare_bytes_0. lia.
Qed.

(** X1. The scan of [UpdatePossibleResource] yields a position exactly when
    it is the first one of the scanned region, from the end of the header
    to [Table->Length - 27], where the four bytes of the name occur. *)
Theorem FindName_is_first_occurrence (T : mem) (Name : list Z) (p : Z) :
  List.length Name = 4%nat ->
  FindName T Name = Some p <->
  first_occurrence T Name sizeof_EFI_ACPI_DESCRIPTION_HEADER (ScanLimit T) p.
Proof.
  intro Hlen. split.
  - intro H. exact (FindName_Some T Name p Hlen H).
  - intros (Hp & Hocc & Habs). unfold FindName.
    apply for_DataPtr_first; [exact Hp | now apply CompareMem_name|].
    intros r Hr.
    destruct (CompareMem T r Name TPM_PRS_RES_NAME_SIZE =? 0) eqn:E;
      [|reflexivity].
    apply CompareMem_name in E; [|exact Hlen]. exfalso. exact (Habs r Hr E).
Qed.

Lemma FindName_is_first_occurrence_witness :
  first_occurrence TpmTable TPM_PRS_RESL
    sizeof_EFI_ACPI_DESCRIPTION_HEADER (ScanLimit TpmTable) 105.
Proof.
  apply (proj1 (FindName_is_first_occurrence TpmTable TPM_PRS_RESL 105 eq_refl)).
  vm_compute. reflexivity.
Defined.

(** ** Every outcome of UpdatePossibleResource *)

Lemma UnsupportedEncoding_run (T : mem) (IrqBuffer : list Z) (L : Z) (F : bool) :
  UnsupportedEncoding T L ->
  UpdatePossibleResource T IrqBuffer L F = (EFI_UNSUPPORTED, T, F).
Proof.
  intros [p Hp Hl | p Hp H1 H2 H3 | q HW Hq Hl | q c HW Hq Hc H1 H2 H3].
  - apply (RESS_unsupported T IrqBuffer L F p Hp). left. exact Hl.
  - apply (RESS_unsupported T IrqBuffer L F p Hp). right.
    apply BufferSizeLen_None. tauto.
  - apply (RESL_unsupported T IrqBuffer L F q HW Hq). left. exact Hl.
  - apply (RESL_unsupported T IrqBuffer L F q HW Hq). right.
    rewrite <- Hc. apply BufferSizeLen_None. tauto.
Qed.

(** The four situations a table and a list size can be in. *)
Lemma situations (T : mem) (L : Z) :
  FindName T TPM_PRS_RESS = None \/
  (WantsLong T L /\ FindName T TPM_PRS_RESL = None) \/
  UnsupportedEncoding T L \/
  (exists short hdr enc New Orig, Selects T L short hdr enc New Orig).
Proof.
  destruct (FindName T TPM_PRS_RESS) as [p|] eqn:Hp; [|tauto].
  destruct (ShortTemplate_dec T p Hp) as [(n & HS) | [Hl | Hb]].
  2:{ right. right. left. exact (RESS_not_short_form T L p Hp Hl). }
  2:{ right. right. left. apply BufferSizeLen_None in Hb.
      apply (RESS_unknown_prefix T L p Hp); tauto. }
  destruct (Z_le_gt_dec (NewLength (1 + n) L) 63) as [Hle|Hgt].
  { right. right. right. do 5 eexists. exact (Selects_RESS T L p n HS Hle). }
  assert (HW : WantsLong T L) by (exists p, n; split; [exact HS | lia]).
  destruct (FindName T TPM_PRS_RESL) as [q|] eqn:Hq; [|tauto].
  destruct (LongTemplate_dec T q Hq) as [(c & n' & HLT) | [Hl | Hb]].
  - right. right. right. do 5 eexists. exact (Selects_RESL T L q c n' HW HLT).
  - right. right. left. exact (RESL_not_long_form T L q HW Hq Hl).
  - right. right. left. apply BufferSizeLen_None in Hb.
    apply (RESL_unknown_prefix T L q _ HW Hq eq_refl); tauto.
Qed.

(** X2. [UpdatePossibleResource] returns [EFI_SUCCESS] exactly when a
    template is selected (RESS in short form with a package of at most 63
    bytes, else RESL in long form), the new package length does not exceed
    the original one, and the pointer behind name and BufferOp is still
    below the bound of the scan. *)
Theorem success_exactly (T : mem) (IrqBuffer : list Z) (L : Z) (F : bool) :
  byte_mem T ->
  StatusOf (UpdatePossibleResource T IrqBuffer L F) = EFI_SUCCESS <->
  exists short hdr enc New Orig,
    Selects T L short hdr enc New Orig /\ New <= Orig /\ hdr < ScanLimit T.
Proof.
  intro HT. split.
  - intro H.
    destruct (situations T L)
      as [HA | [(HW & HD) | [HU | (short & hdr & enc & New & Orig & HS)]]].
    + rewrite RESS_absent_not_found in H by assumption. discriminate.
    + rewrite RESL_absent_not_found in H by assumption. discriminate.
    + rewrite UnsupportedEncoding_run in H by assumption. discriminate.
    + rewrite (run_selected T IrqBuffer L F _ _ _ _ _ HT HS) in H.
      exists short, hdr, enc, New, Orig. split; [exact HS|].
      destruct (Z.gtb_spec New Orig); [discriminate|].
      destruct (Z.geb_spec hdr (ScanLimit T)); [discriminate|]. lia.
  - intros (short & hdr & enc & New & Orig & HS & Hle & Hlt).
    rewrite (Selects_fits_run T IrqBuffer L F _ _ _ _ _ HT HS Hle).
    destruct (Z.geb_spec hdr (ScanLimit T)); [lia | reflexivity].
Qed.

(** Twelve interrupts on [TpmTable]: RESL is selected and has the room. *)
Lemma success_exactly_witness :
  StatusOf (UpdatePossibleResource TpmTable (irq_list 20 12) 48 false)
  = EFI_SUCCESS.
Proof.
  apply (proj2 (success_exactly TpmTable (irq_list 20 12) 48 false
                  TpmTable_bytes)).
  exists false, (105 + 5), (1 + 1 + 2), (NewLength (1 + 1 + 2) 48),
    (TpmTable (105 + 6) * 16 + TpmTable (105 + 5) mod 16).
  split; [|split; vm_compute; congruence].
  apply Selects_RESL; [|exact TpmTable_RESL].
  exists 37, 2. split; [exact TpmTable_RESS | vm_compute; reflexivity].
Defined.

(** X3. [EFI_INVALID_PARAMETER] is returned exactly when a template is
    selected and the new package length exceeds the length decoded from
    it: the function has no other use of this status. *)
Theorem invalid_parameter_exactly
  (T : mem) (IrqBuffer : list Z) (L : Z) (F : bool) :
  byte_mem T ->
  StatusOf (UpdatePossibleResource T IrqBuffer L F) = EFI_INVALID_PARAMETER <->
  exists short hdr enc New Orig,
    Selects T L short hdr enc New Orig /\ Orig < New.
Proof.
  intro HT. split.
  - intro H.
    destruct (situations T L)
      as [HA | [(HW & HD) | [HU | (short & hdr & enc & New & Orig & HS)]]].
    + rewrite RESS_absent_not_found in H by assumption. discriminate.
    + rewrite RESL_absent_not_found in H by assumption. discriminate.
    + rewrite UnsupportedEncoding_run in H by assumption. discriminate.
    + rewrite (run_selected T IrqBuffer L F _ _ _ _ _ HT HS) in H.
      exists short, hdr, enc, New, Orig. split; [exact HS|].
      destruct (Z.gtb_spec New Orig); [lia|].
      destruct (hdr >=? ScanLimit T); discriminate.
  - intros (short & hdr & enc & New & Orig & HS & Hgt).
    rewrite (run_selected T IrqBuffer L F _ _ _ _ _ HT HS).
    destruct (Z.gtb_spec New Orig); [reflexivity | lia].
Qed.

Lemma TightTable_RESS : ShortTemplate TightTable 37 2.
Proof. repeat split; vm_compute; congruence. Qed.

Lemma invalid_parameter_exactly_witness :
  StatusOf (UpdatePossibleResource TightTable (irq_list 20 2) 8 false)
  = EFI_INVALID_PARAMETER.
Proof.
  apply (proj2 (invalid_parameter_exactly TightTable (irq_list 20 2) 8 false
                  TightTable_bytes)).
  exists true, (37 + 5), (1 + 2), (NewLength (1 + 2) 8), (TightTable (37 + 5)).
  split; [|vm_compute; reflexivity].
  apply Selects_RESS; [exact TightTable_RESS | vm_compute; discriminate].
Defined.

(** X4. [EFI_UNSUPPORTED] is returned exactly for an encoding the function
    does not support: a PkgLeadByte of the wrong form behind the located
    name, or a BufferSize that starts with none of the three integer
    prefixes. *)
Theorem unsupported_exactly
  (T : mem) (IrqBuffer : list Z) (L : Z) (F : bool) :
  byte_mem T ->
  StatusOf (UpdatePossibleResource T IrqBuffer L F) = EFI_UNSUPPORTED <->
  UnsupportedEncoding T L.
Proof.
  intro HT. split.
  - intro H.
    destruct (situations T L)
      as [HA | [(HW & HD) | [HU | (short & hdr & enc & New & Orig & HS)]]].
    + rewrite RESS_absent_not_found in H by assumption. discriminate.
    + rewrite RESL_absent_not_found in H by assumption. discriminate.
    + exact HU.
    + rewrite (run_selected T IrqBuffer L F _ _ _ _ _ HT HS) in H.
      destruct (New >? Orig); [discriminate|].
      destruct (hdr >=? ScanLimit T); discriminate.
  - intro HU. rewrite UnsupportedEncoding_run by assumption. reflexivity.
Qed.

Lemma byte_mem_poke (m : mem) (p v : Z) :
  byte_mem m -> 0 <= v < 256 -> byte_mem (poke m p v).
Proof. intros Hm Hv a. unfold poke. destruct (a =? p); [exact Hv | apply Hm]. Qed.

Lemma ShortRESLTable_bytes : byte_mem ShortRESLTable.
Proof. apply byte_mem_poke; [exact TpmTable_bytes | lia]. Qed.

Lemma unsupported_exactly_witness :
  UnsupportedEncoding ShortRESLTable 48.
Proof.
  apply (proj1 (unsupported_exactly ShortRESLTable (irq_list 20 12) 48 false
                  ShortRESLTable_bytes)).
  vm_compute. reflexivity.
Defined.

(** ** The patched PkgLength and BufferSize, read again *)

Lemma small_lead (b : Z) : 0 <= b <= 63 -> ByteDataCount b = 0.
Proof.
  intro Hb.
  pose proof (range_check (fun b => ByteDataCount b =? 0) 64
                ltac:(vm_compute; reflexivity) b ltac:(lia)) as Hc.
  cbv beta in Hc. lia.
Qed.

Lemma short_form_count (b : Z) : Z.land b 0xC0 = 0 -> ByteDataCount b = 0.
Proof.
  intro H. unfold ByteDataCount. change (Z.lor BIT7 BIT6) with 0xC0.
  rewrite H. reflexivity.
Qed.

(** What the patch of PkgLength and BufferSize leaves in memory. *)
Lemma Header_facts (T : mem) (L : Z) (short : bool) (hdr enc New Orig : Z) :
  byte_mem T ->
  Selects T L short hdr enc New Orig ->
  New <= Orig ->
  ByteDataCount (Header short T hdr New L hdr) = ByteDataCount (T hdr) /\
  PkgLengthAt (Header short T hdr New L) hdr = New /\
  Header short T hdr New L (hdr + 2 + ByteDataCount (T hdr)) = UINT8 (L + 19) /\
  Header short T hdr New L (hdr + 1 + ByteDataCount (T hdr))
  = T (hdr + 1 + ByteDataCount (T hdr)) /\
  (forall a, a < hdr \/ hdr + 2 + ByteDataCount (T hdr) < a ->
             Header short T hdr New L a = T a) /\
  0 <= ByteDataCount (T hdr) <= 3 /\
  1 + ByteDataCount (T hdr) + 2 <= enc.
Proof.
  intros HT HS Hle. destruct HS as [p n (Hf & Hl & Hb) Hs63 | q c n HW HLT].
  - pose proof (short_form_count _ Hl) as Hc. rewrite Hc.
    pose proof (UINT32_range (1 + n + 19 + L)) as Hr.
    fold (NewLength (1 + n) L) in Hr.
    apply BufferSizeLen_range in Hb.
    destruct (ShortHeader_bytes T (p + 5) (NewLength (1 + n) L) L)
      as (E0 & E2 & Eo).
    rewrite UINT8_small in E0 by lia.
    unfold Header, PkgLengthAt, DecodeShortPkgLength.
    rewrite E0, (small_lead (NewLength (1 + n) L)) by lia.
    rewrite !Z.add_0_r. cbn [Z.eqb].
    split; [reflexivity|]. split; [reflexivity|]. split; [exact E2|].
    split; [apply Eo; lia|]. split; [intros a Ha; apply Eo; lia | lia].
  - destruct (LongTemplate_count T q c n HT HLT) as (Hc & Hcc & Hn).
    rewrite <- Hcc.
    destruct (LongHeader_bytes T (q + 5) (NewLength (1 + c + n) L) L HT)
      as (E0 & E1 & E2 & Eo).
    rewrite <- Hcc in E2, Eo.
    pose proof (HT (q + 5)) as Hb0. pose proof (HT (q + 6)) as Hb1.
    pose proof (UINT32_range (1 + c + n + 19 + L)) as Hr.
    fold (NewLength (1 + c + n) L) in Hr.
    set (New := NewLength (1 + c + n) L) in *.
    assert (Hm : 0 <= New mod 16 < 16) by (apply Z.mod_pos_bound; lia).
    assert (HN : 0 <= New < 4096) by (Z.div_mod_to_equations; lia).
    assert (Hcount : ByteDataCount (Header false T (q + 5) New L (q + 5)) = c).
    { unfold Header. rewrite E0, Hcc.
      apply ByteDataCount_encode_lead; assumption. }
    split; [exact Hcount|]. split.
    { unfold PkgLengthAt. rewrite Hcount.
      destruct (Z.eqb_spec c 0); [lia|].
      unfold Header, DecodeLongPkgLength. rewrite E0, E1.
      rewrite low_nibble, Z.shiftl_mul_pow2 by lia. change (2 ^ 4) with 16.
      replace ((New / 16) mod 256 * 16
               + (16 * (T (q + 5) / 16) + New mod 16) mod 16) with New
        by (Z.div_mod_to_equations; lia).
      apply UINT32_small. change (2 ^ 32) with 4294967296. lia. }
    split; [exact E2|].
    split; [apply Eo; lia|]. split; [intros a Ha; apply Eo; lia | lia].
Qed.

(** The patch of PkgLength and BufferSize writes the PkgLeadByte, the first
    ByteData of a long form and one byte of BufferSize, and nothing else. *)
Lemma Header_frame (T : mem) (L : Z) (short : bool) (hdr enc New Orig : Z) :
  byte_mem T ->
  Selects T L short hdr enc New Orig ->
  forall a,
    a <> hdr -> (short = false -> a <> hdr + 1) ->
    a <> hdr + 2 + ByteDataCount (T hdr) ->
    Header short T hdr New L a = T a.
Proof.
  intros HT HS a H0 H1 H2.
  destruct HS as [p n (Hf & Hl & Hb) Hs63 | q c n HW HLT]; unfold Header.
  - rewrite (short_form_count _ Hl), Z.add_0_r in H2.
    apply ShortHeader_bytes; assumption.
  - apply (LongHeader_bytes T (q + 5) (NewLength (1 + c + n) L) L HT); auto.
Qed.

Lemma ByteData_value_ext (T T' : mem) (count : nat) :
  forall first,
    (forall i, 0 <= i < Z.of_nat count -> T' (first + i) = T (first + i)) ->
    ByteData_value T' first count = ByteData_value T first count.
Proof.
  induction count as [|count IH]; intros first H; [reflexivity|].
  cbn [ByteData_value]. f_equal.
  - specialize (H 0). rewrite Z.add_0_r in H. apply H. lia.
  - f_equal. apply IH. intros i Hi.
    replace (first + 1 + i) with (first + (1 + i)) by lia. apply H. lia.
Qed.

(** The value of a long PkgLength after the patch: the new length in the
    low nibble and the first ByteData, under the further ByteData of the
    original. *)
Lemma LongHeader_value (T : mem) (L : Z) (q c n : Z) :
  byte_mem T ->
  WantsLong T L ->
  LongTemplate T q c n ->
  NewLength (1 + c + n) L <= T (q + 6) * 16 + T (q + 5) mod 16 ->
  PkgLength_by_the_words (LongHeader T (q + 5) (NewLength (1 + c + n) L) L) (q + 5)
  = NewLength (1 + c + n) L
    + 4096 * ByteData_value T (q + 5 + 2) (Z.to_nat (c - 1)).
Proof.
  intros HT HW HLT Hle.
  destruct (LongTemplate_count T q c n HT HLT) as (Hc & Hcc & Hn).
  destruct (LongHeader_bytes T (q + 5) (NewLength (1 + c + n) L) L HT)
    as (E0 & E1 & E2 & Eo).
  rewrite <- Hcc in E2, Eo.
  pose proof (HT (q + 5)) as Hb0. pose proof (HT (q + 6)) as Hb1.
  pose proof (UINT32_range (1 + c + n + 19 + L)) as Hr.
  fold (NewLength (1 + c + n) L) in Hr.
  set (New := NewLength (1 + c + n) L) in *.
  set (T' := LongHeader T (q + 5) New L) in *.
  assert (Hm : 0 <= New mod 16 < 16) by (apply Z.mod_pos_bound; lia).
  assert (HN : 0 <= New < 4096) by (Z.div_mod_to_equations; lia).
  assert (Hlead : 0 <= T' (q + 5) < 256)
    by (rewrite E0; Z.div_mod_to_equations; lia).
  assert (Hcount : ByteDataCount (T' (q + 5)) = c).
  { rewrite E0, Hcc. apply ByteDataCount_encode_lead; assumption. }
  unfold PkgLength_by_the_words.
  rewrite (top_bits (T' (q + 5)) Hlead), Hcount.
  replace (Z.to_nat c) with (S (Z.to_nat (c - 1))) by lia.
  cbn [ByteData_value].
  replace (q + 5 + 1 + 1) with (q + 5 + 2) by lia.
  rewrite (ByteData_value_ext T T' (Z.to_nat (c - 1)) (q + 5 + 2)).
  2:{ intros i Hi. apply Eo; lia. }
  rewrite E0, E1, low_nibble, Z.shiftl_mul_pow2 by lia.
  change (2 ^ 4) with 16.
  Z.div_mod_to_equations. lia.
Qed.

(** X5. [EFI_NOT_FOUND] is returned exactly when "RESS" is absent from the
    scanned region, or RESS asks for the long form and "RESL" is absent, or
    a template is selected and takes the list but its name lies in the last
    five scanned positions, so that the test of line 349 takes it for
    missing. *)
Theorem not_found_exactly
  (T : mem) (IrqBuffer : list Z) (L : Z) (F : bool) :
  byte_mem T ->
  StatusOf (UpdatePossibleResource T IrqBuffer L F) = EFI_NOT_FOUND <->
  absent T TPM_PRS_RESS sizeof_EFI_ACPI_DESCRIPTION_HEADER (ScanLimit T) \/
  (WantsLong T L /\
   absent T TPM_PRS_RESL sizeof_EFI_ACPI_DESCRIPTION_HEADER (ScanLimit T)) \/
  (exists short hdr enc New Orig,
     Selects T L short hdr enc New Orig /\ New <= Orig /\ AtTheEnd T hdr).
Proof.
  intro HT.
  rewrite <- (FindName_None T TPM_PRS_RESS eq_refl).
  rewrite <- (FindName_None T TPM_PRS_RESL eq_refl). unfold AtTheEnd. split.
  - intro H.
    destruct (situations T L)
      as [HA | [(HW & HD) | [HU | (short & hdr & enc & New & Orig & HS)]]].
    + tauto.
    + tauto.
    + rewrite UnsupportedEncoding_run in H by assumption. discriminate.
    + rewrite (run_selected T IrqBuffer L F _ _ _ _ _ HT HS) in H.
      right. right. exists short, hdr, enc, New, Orig. split; [exact HS|].
      destruct (Z.gtb_spec New Orig); [discriminate|].
      destruct (Z.geb_spec hdr (ScanLimit T)); [lia | discriminate].
  - intros [HA | [(HW & HD) | (short & hdr & enc & New & Orig & HS & Hle & He)]].
    + rewrite RESS_absent_not_found by assumption. reflexivity.
    + rewrite RESL_absent_not_found by assumption. reflexivity.
    + rewrite (Selects_fits_run T IrqBuffer L F _ _ _ _ _ HT HS Hle).
      destruct (Z.geb_spec hdr (ScanLimit T)); [reflexivity | lia].
Qed.

Lemma EndTable_bytes : byte_mem EndTable.
Proof. apply byte_mem_mk_table; vm_compute; reflexivity. Qed.

Lemma EndTable_selects :
  Selects EndTable 4 true (37 + 5) (1 + 2) (NewLength (1 + 2) 4)
    (EndTable (37 + 5)).
Proof.
  apply Selects_RESS; [|vm_compute; discriminate].
  repeat split; vm_compute; congruence.
Qed.

Lemma not_found_exactly_witness :
  StatusOf (UpdatePossibleResource EndTable (irq_list 20 1) 4 false)
  = EFI_NOT_FOUND.
Proof.
  apply (proj2 (not_found_exactly EndTable (irq_list 20 1) 4 false
                  EndTable_bytes)).
  right. right.
  exists true, (37 + 5), (1 + 2), (NewLength (1 + 2) 4), (EndTable (37 + 5)).
  split; [exact EndTable_selects|]. split; vm_compute; congruence.
Defined.

(** X6. When the name of the selected template lies in the last five
    scanned positions and the list fits, the call returns [EFI_NOT_FOUND]
    after it has rewritten PkgLength and BufferSize and set the flag: the
    PkgLength reads as the new length, the byte of BufferSize is [L + 19],
    and no byte other than the PkgLeadByte, the first ByteData of a long
    form and that byte of BufferSize differs; so the Interrupt descriptor,
    the End Tag and the filling are not written. *)
Theorem name_at_the_end_is_half_patched
  (T : mem) (IrqBuffer : list Z) (L : Z) (F : bool)
  (short : bool) (hdr enc New Orig : Z) :
  byte_mem T ->
  Selects T L short hdr enc New Orig ->
  New <= Orig ->
  AtTheEnd T hdr ->
  exists T',
    UpdatePossibleResource T IrqBuffer L F = (EFI_NOT_FOUND, T', short) /\
    PkgLengthAt T' hdr = New /\
    T' (hdr + 2 + ByteDataCount (T hdr)) = UINT8 (L + 19) /\
    forall a,
      a <> hdr -> (short = false -> a <> hdr + 1) ->
      a <> hdr + 2 + ByteDataCount (T hdr) ->
      T' a = T a.
Proof.
  intros HT HS Hle He. unfold AtTheEnd in He.
  exists (Header short T hdr New L).
  rewrite (Selects_fits_run T IrqBuffer L F _ _ _ _ _ HT HS Hle).
  destruct (Z.geb_spec hdr (ScanLimit T)); [|lia].
  destruct (Header_facts T L short hdr enc New Orig HT HS Hle)
    as (_ & HP & HB & _).
  split; [reflexivity|]. split; [exact HP|]. split; [exact HB|].
  exact (Header_frame T L short hdr enc New Orig HT HS).
Qed.

(** One interrupt in place of the one of [EndTable]: same bytes, and yet
    "not found"; the flag is set. *)
Lemma name_at_the_end_is_half_patched_witness :
  exists T',
    UpdatePossibleResource EndTable (irq_list 20 1) 4 false
    = (EFI_NOT_FOUND, T', true) /\
    PkgLengthAt T' (37 + 5) = NewLength (1 + 2) 4 /\
    T' (37 + 5 + 2 + ByteDataCount (EndTable (37 + 5))) = UINT8 (4 + 19) /\
    forall a,
      a <> 37 + 5 -> (true = false -> a <> 37 + 5 + 1) ->
      a <> 37 + 5 + 2 + ByteDataCount (EndTable (37 + 5)) ->
      T' a = EndTable a.
Proof.
  apply (name_at_the_end_is_half_patched EndTable (irq_list 20 1) 4 false
           true (37 + 5) (1 + 2) (NewLength (1 + 2) 4) (EndTable (37 + 5))
           EndTable_bytes EndTable_selects).
  - vm_compute. discriminate.
  - vm_compute. discriminate.
Defined.

(** X7. After a successful call the patched template is consistent with
    what the function reads: the PkgLeadByte announces as many ByteData as
    before; the PkgLength read the way the function reads it (the byte of a
    short form, the low nibble and the first ByteData of a long form) is
    the new package length; the prefix of BufferSize is the one that was
    there and the lowest byte of BufferSize is [L + 19]; for a list of at
    most 60 bytes the package length is the bytes of the two encodings plus
    that BufferSize.  The value of the encoding itself is the new length
    for a short form; for a long form it is the new length plus 4096 times
    the value of the second and third ByteData, which are left as they
    were: the new length when there is one ByteData, or when the further
    ones are zero. *)
Theorem patched_lengths_read_back
  (T : mem) (IrqBuffer : list Z) (L : Z) (F : bool) (T' : mem) (F' : bool) :
  byte_mem T ->
  UpdatePossibleResource T IrqBuffer L F = (EFI_SUCCESS, T', F') ->
  exists short hdr enc New Orig,
    Selects T L short hdr enc New Orig /\
    ByteDataCount (T' hdr) = ByteDataCount (T hdr) /\
    PkgLengthAt T' hdr = New /\
    (short = true -> T' hdr = New /\ New <= 63) /\
    (short = false ->
     PkgLength_by_the_words T' hdr
     = New + 4096 * ByteData_value T (hdr + 2)
                      (Z.to_nat (ByteDataCount (T hdr) - 1))) /\
    T' (hdr + 1 + ByteDataCount (T hdr)) = T (hdr + 1 + ByteDataCount (T hdr)) /\
    T' (hdr + 2 + ByteDataCount (T hdr)) = UINT8 (L + 19) /\
    (0 <= L <= MAX_PRS_INT_BUF_SIZE ->
     New = enc + T' (hdr + 2 + ByteDataCount (T hdr))).
Proof.
  intros HT H.
  destruct (success_inv T IrqBuffer L F T' F' HT H)
    as (short & hdr & enc & New & Orig & HS & Hle & Henc & Hhdr & -> & ->).
  exists short, hdr, enc, New, Orig. split; [exact HS|].
  destruct (Header_facts T L short hdr enc New Orig HT HS Hle)
    as (HC & HP & HB & HX & Hfr & Hc & He).
  assert (Hsame : forall a, a <= hdr + 2 + ByteDataCount (T hdr) ->
            Patched (Header short T hdr New L) IrqBuffer L hdr enc Orig a
            = Header short T hdr New L a).
  { intros a Ha. apply Patched_before. lia. }
  assert (Hwords :
            PkgLength_by_the_words
              (Patched (Header short T hdr New L) IrqBuffer L hdr enc Orig) hdr
            = PkgLength_by_the_words (Header short T hdr New L) hdr).
  { unfold PkgLength_by_the_words. rewrite (Hsame hdr) by lia.
    f_equal. f_equal. apply ByteData_value_ext. intros i Hi.
    apply Hsame.
    assert (Hlead : 0 <= Header short T hdr New L hdr < 256).
    { destruct HS as [p n HS Hs63 | q c n' HW HLT]; unfold Header.
      - destruct (ShortHeader_bytes T (p + 5) (NewLength (1 + n) L) L)
          as (E0 & _).
        rewrite E0. apply Z.mod_pos_bound. lia.
      - destruct (LongHeader_bytes T (q + 5) (NewLength (1 + c + n') L) L HT)
          as (E0 & _).
        rewrite E0. pose proof (HT (q + 5)). Z.div_mod_to_equations. lia. }
    rewrite (top_bits _ Hlead), HC in Hi. lia. }
  assert (Hshort : short = true ->
            Header short T hdr New L hdr = New /\ New <= 63).
  { destruct HS as [p n HS Hs63 | q c n' HW HLT]; intro Hs; [|discriminate].
    destruct (ShortHeader_bytes T (p + 5) (NewLength (1 + n) L) L)
      as (E0 & _).
    pose proof (UINT32_range (1 + n + 19 + L)) as Hr.
    fold (NewLength (1 + n) L) in Hr.
    rewrite UINT8_small in E0 by lia. unfold Header. auto. }
  assert (Hlong : short = false ->
            PkgLength_by_the_words (Header short T hdr New L) hdr
            = New + 4096 * ByteData_value T (hdr + 2)
                             (Z.to_nat (ByteDataCount (T hdr) - 1))).
  { destruct HS as [p n HS Hs63 | q c n' HW HLT]; intro Hs; [discriminate|].
    destruct (LongTemplate_count T q c n' HT HLT) as (_ & Hcc & _).
    rewrite <- Hcc. unfold Header.
    exact (LongHeader_value T L q c n' HT HW HLT Hle). }
  unfold PkgLengthAt, DecodeShortPkgLength, DecodeLongPkgLength in *.
  rewrite Hwords, !Hsame by lia.
  split; [exact HC|]. split; [exact HP|].
  split; [exact Hshort|]. split; [exact Hlong|].
  split; [exact HX|]. split; [exact HB|].
  intro HL. unfold MAX_PRS_INT_BUF_SIZE in HL. rewrite HB.
  rewrite UINT8_small by lia.
  destruct HS; unfold NewLength; rewrite UINT32_small;
    change (2 ^ 32) with 4294967296; lia.
Qed.

Lemma patched_lengths_read_back_witness :
  exists short hdr enc New Orig,
    Selects TpmTable 48 short hdr enc New Orig /\
    ByteDataCount
      (MemoryAfter (UpdatePossibleResource TpmTable (irq_list 20 12) 48 false) hdr)
    = ByteDataCount (TpmTable hdr) /\
    PkgLengthAt
      (MemoryAfter (UpdatePossibleResource TpmTable (irq_list 20 12) 48 false)) hdr
    = New /\
    (short = true ->
     MemoryAfter (UpdatePossibleResource TpmTable (irq_list 20 12) 48 false) hdr
     = New /\ New <= 63) /\
    (short = false ->
     PkgLength_by_the_words
       (MemoryAfter (UpdatePossibleResource TpmTable (irq_list 20 12) 48 false)) hdr
     = New + 4096 * ByteData_value TpmTable (hdr + 2)
                      (Z.to_nat (ByteDataCount (TpmTable hdr) - 1))) /\
    MemoryAfter (UpdatePossibleResource TpmTable (irq_list 20 12) 48 false)
      (hdr + 1 + ByteDataCount (TpmTable hdr))
    = TpmTable (hdr + 1 + ByteDataCount (TpmTable hdr)) /\
    MemoryAfter (UpdatePossibleResource TpmTable (irq_list 20 12) 48 false)
      (hdr + 2 + ByteDataCount (TpmTable hdr))
    = UINT8 (48 + 19) /\
    (0 <= 48 <= MAX_PRS_INT_BUF_SIZE ->
     New = enc + MemoryAfter
                   (UpdatePossibleResource TpmTable (irq_list 20 12) 48 false)
                   (hdr + 2 + ByteDataCount (TpmTable hdr))).
Proof.
  apply (patched_lengths_read_back TpmTable (irq_list 20 12) 48 false
           (MemoryAfter (UpdatePossibleResource TpmTable (irq_list 20 12) 48 false))
           (FlagAfter (UpdatePossibleResource TpmTable (irq_list 20 12) 48 false))
           TpmTable_bytes).
  apply result_eta. vm_compute. reflexivity.
Defined.

(** Eleven interrupts in a RESL template with two ByteData: the function
    reads 69 from the patched PkgLength (0x85 0x04 0x01), whose value is
    69 + 4096. *)
Example two_ByteData_after_the_patch :
  let r := UpdatePossibleResource RoomyWideTable (irq_list 20 11) 44 false in
  StatusOf r = EFI_SUCCESS /\
  bytes_of_mem (MemoryAfter r) 110 3 = [0x85; 0x04; 0x01] /\
  PkgLengthAt (MemoryAfter r) 110 = 69 /\
  PkgLength_by_the_words (MemoryAfter r) 110 = 69 + 4096.
Proof. vm_compute. repeat split; reflexivity. Qed.

(** ** What a successful call does not write *)

Lemma Patched_kept (Thdr : mem) (IrqBuffer : list Z) (L hdr enc Orig a : Z) :
  0 <= L < 2 ^ 32 - 28 ->
  a <= hdr + (enc + 12) \/ a = hdr + (enc + 12) + 2 \/ a = hdr + (enc + 12) + 3 ->
  Patched Thdr IrqBuffer L hdr enc Orig a = Thdr a.
Proof.
  intros HL Ha. pose proof (end_tag_position L hdr enc HL) as Ht.
  cbv zeta in Ht. unfold Patched. rewrite Ht.
  destruct (hdr + (enc + 12) + 5 + L + 2 <? hdr + Orig); mem_cases.
Qed.

(** X8. A successful call (for a list size that does not wrap around 32
    bits) writes only one byte of BufferSize and, of the Interrupt
    descriptor header, only the low length byte and the count: the
    further bytes of BufferSize, the twelve bytes of the Memory32Fixed
    descriptor and the tag, the high length byte and the flags byte of the
    Interrupt descriptor are what they were. *)
Theorem descriptors_are_kept
  (T : mem) (IrqBuffer : list Z) (L : Z) (F : bool) (T' : mem) (F' : bool) :
  byte_mem T ->
  0 <= L < 2 ^ 32 - 28 ->
  UpdatePossibleResource T IrqBuffer L F = (EFI_SUCCESS, T', F') ->
  exists short hdr enc New Orig,
    Selects T L short hdr enc New Orig /\
    (forall a, hdr + 2 + ByteDataCount (T hdr) < a <= hdr + enc + 12 ->
               T' a = T a) /\
    T' (hdr + enc + 12 + 2) = T (hdr + enc + 12 + 2) /\
    T' (hdr + enc + 12 + 3) = T (hdr + enc + 12 + 3).
Proof.
  intros HT HL H.
  destruct (success_inv T IrqBuffer L F T' F' HT H)
    as (short & hdr & enc & New & Orig & HS & Hle & Henc & Hhdr & -> & ->).
  exists short, hdr, enc, New, Orig. split; [exact HS|].
  destruct (Header_facts T L short hdr enc New Orig HT HS Hle)
    as (_ & _ & _ & _ & Hfr & Hc & He).
  split; [|split].
  - intros a Ha. rewrite Patched_kept by (assumption || lia). apply Hfr. lia.
  - rewrite Patched_kept by (assumption || lia). apply Hfr. lia.
  - rewrite Patched_kept by (assumption || lia). apply Hfr. lia.
Qed.

Lemma descriptors_are_kept_witness :
  exists short hdr enc New Orig,
    Selects TpmTable 8 short hdr enc New Orig /\
    (forall a, hdr + 2 + ByteDataCount (TpmTable hdr) < a <= hdr + enc + 12 ->
       MemoryAfter (UpdatePossibleResource TpmTable (irq_list 20 2) 8 false) a
       = TpmTable a) /\
    MemoryAfter (UpdatePossibleResource TpmTable (irq_list 20 2) 8 false)
      (hdr + enc + 12 + 2) = TpmTable (hdr + enc + 12 + 2) /\
    MemoryAfter (UpdatePossibleResource TpmTable (irq_list 20 2) 8 false)
      (hdr + enc + 12 + 3) = TpmTable (hdr + enc + 12 + 3).
Proof.
  apply (descriptors_are_kept TpmTable (irq_list 20 2) 8 false
           (MemoryAfter (UpdatePossibleResource TpmTable (irq_list 20 2) 8 false))
           (FlagAfter (UpdatePossibleResource TpmTable (irq_list 20 2) 8 false))
           TpmTable_bytes).
  - vm_compute. split; [discriminate | reflexivity].
  - apply result_eta. vm_compute. reflexivity.
Defined.

(** ** A second call *)

Lemma small_lead_is_short (b : Z) : 0 <= b <= 63 -> Z.land b 0xC0 = 0.
Proof.
  intro Hb.
  pose proof (range_check (fun b => Z.land b 0xC0 =? 0) 64
                ltac:(vm_compute; reflexivity) b ltac:(lia)) as Hc.
  cbv beta in Hc. lia.
Qed.

(** A memory that holds the bytes of [T] in front of [hdr] has the first
    occurrence of a name where [T] has it, if that is at least five bytes
    in front of [hdr]. *)
Lemma FindName_kept (T T' : mem) (Name : list Z) (p : Z) :
  List.length Name = 4%nat ->
  (forall a, a < p + 5 -> T' a = T a) ->
  FindName T Name = Some p -> FindName T' Name = Some p.
Proof.
  intros Hlen Hag H.
  apply (FindName_is_first_occurrence T Name p Hlen) in H
    as (Hp & Hocc & Habs).
  assert (Hlim : ScanLimit T' = ScanLimit T).
  { unfold ScanLimit. f_equal. apply Table_Length_ext.
    intros a Ha. apply Hag.
    unfold sizeof_EFI_ACPI_DESCRIPTION_HEADER in *. lia. }
  apply (FindName_is_first_occurrence T' Name p Hlen).
  split; [rewrite Hlim; exact Hp|]. unfold occurs_at, absent in *. split.
  - transitivity (bytes_of_mem T p (List.length Name)); [|exact Hocc].
    apply bytes_of_mem_ext.
    intros i Hi. apply Hag. rewrite Hlen in Hi. lia.
  - intros r Hr Hocc'. apply (Habs r Hr).
    transitivity (bytes_of_mem T' r (List.length Name)); [|exact Hocc'].
    apply bytes_of_mem_ext. intros i Hi. symmetry. apply Hag.
    rewrite Hlen in Hi. lia.
Qed.

(** X9. A RESS template that has been patched has no room left beyond what
    the patch used: after a successful call that set the flag, the first
    "RESS" is where it was, still in short form with the same BufferSize
    prefix, its PkgLength is the new length, and every further call with a
    list that needs more (and still asks for the short form) returns
    [EFI_INVALID_PARAMETER] and writes nothing, although the NoOp bytes
    behind the End Tag are room the template once had. *)
Theorem patched_RESS_has_no_room_left
  (T : mem) (IrqBuffer : list Z) (L : Z) (F : bool) (T' : mem) :
  byte_mem T ->
  UpdatePossibleResource T IrqBuffer L F = (EFI_SUCCESS, T', true) ->
  exists p n,
    ShortTemplate T p n /\ ShortTemplate T' p n /\
    T' (p + 5) = NewLength (1 + n) L /\
    forall IrqBuffer2 L2 F2,
      NewLength (1 + n) L < NewLength (1 + n) L2 <= 63 ->
      UpdatePossibleResource T' IrqBuffer2 L2 F2
      = (EFI_INVALID_PARAMETER, T', F2).
Proof.
  intros HT H.
  destruct (success_inv T IrqBuffer L F T' true HT H)
    as (short & hdr & enc & New & Orig & HS & Hle & Henc & Hhdr & <- & ->).
  inversion HS as [p n HST Hs63 Hs Hh He HN HO |]; subst.
  exists p, n. split; [exact HST|].
  pose proof HST as (Hf & Hl & Hb).
  assert (Hn : 2 <= n <= 5) by (eapply BufferSizeLen_range; exact Hb).
  pose proof (UINT32_range (1 + n + 19 + L)) as Hr.
  fold (NewLength (1 + n) L) in Hr.
  destruct (ShortHeader_bytes T (p + 5) (NewLength (1 + n) L) L)
    as (E0 & E2 & Eo).
  rewrite UINT8_small in E0 by lia.
  set (T' := Patched (Header true T (p + 5) (NewLength (1 + n) L) L)
               IrqBuffer L (p + 5) (1 + n) (T (p + 5))) in *.
  assert (H5 : T' (p + 5) = NewLength (1 + n) L).
  { subst T'. rewrite Patched_before by lia. exact E0. }
  assert (H6 : T' (p + 6) = T (p + 6)).
  { subst T'. rewrite Patched_before by lia. apply Eo; lia. }
  assert (Hbefore : forall a, a < p + 5 -> T' a = T a).
  { intros a Ha. subst T'. rewrite Patched_before by lia. apply Eo; lia. }
  assert (HST' : ShortTemplate T' p n).
  { split; [exact (FindName_kept T T' TPM_PRS_RESS p eq_refl Hbefore Hf)|].
    rewrite H5, H6. split; [apply small_lead_is_short; lia | exact Hb]. }
  split; [exact HST'|]. split; [exact H5|].
  intros IrqBuffer2 L2 F2 HL2.
  rewrite (short_case T' IrqBuffer2 L2 F2 p n HST') by lia.
  rewrite H5. destruct (Z.gtb_spec (NewLength (1 + n) L2) (NewLength (1 + n) L));
    [reflexivity | lia].
Qed.

(** [TpmTable] patched for two interrupts does not take three any more,
    which it took before. *)
Lemma patched_RESS_has_no_room_left_witness :
  exists p n,
    ShortTemplate TpmTable p n /\
    ShortTemplate
      (MemoryAfter (UpdatePossibleResource TpmTable (irq_list 20 2) 8 false)) p n /\
    MemoryAfter (UpdatePossibleResource TpmTable (irq_list 20 2) 8 false) (p + 5)
    = NewLength (1 + n) 8 /\
    forall IrqBuffer2 L2 F2,
      NewLength (1 + n) 8 < NewLength (1 + n) L2 <= 63 ->
      UpdatePossibleResource
        (MemoryAfter (UpdatePossibleResource TpmTable (irq_list 20 2) 8 false))
        IrqBuffer2 L2 F2
      = (EFI_INVALID_PARAMETER,
         MemoryAfter (UpdatePossibleResource TpmTable (irq_list 20 2) 8 false),
         F2).
Proof.
  apply (patched_RESS_has_no_room_left TpmTable (irq_list 20 2) 8 false
           (MemoryAfter (UpdatePossibleResource TpmTable (irq_list 20 2) 8 false))
           TpmTable_bytes).
  transitivity
    (EFI_SUCCESS,
     MemoryAfter (UpdatePossibleResource TpmTable (irq_list 20 2) 8 false),
     FlagAfter (UpdatePossibleResource TpmTable (irq_list 20 2) 8 false)).
  - apply result_eta. vm_compute. reflexivity.
  - f_equal.
Defined.

Example three_interrupts_after_two :
  StatusOf (UpdatePossibleResource TpmTable (irq_list 20 3) 12 false)
  = EFI_SUCCESS /\
  StatusOf
    (UpdatePossibleResource
       (MemoryAfter (UpdatePossibleResource TpmTable (irq_list 20 2) 8 false))
       (irq_list 20 3) 12 false)
  = EFI_INVALID_PARAMETER.
Proof. vm_compute. split; reflexivity. Qed.

(** ** The string patchers *)

Lemma tag_scan_finds (T : mem) (tag : list Z) (first last p : Z) :
  Forall (fun c => c <> 0) tag ->
  first_occurrence T (tag ++ [0]) first (last + 1) p ->
  for_DataPtr_le (fun DataPtr => AsciiStrCmp T DataPtr tag =? 0) first last
  = Some p.
Proof.
  intros Htag (Hp & Hocc & Habs). unfold for_DataPtr_le.
  apply for_DataPtr_first; [exact Hp| |].
  - apply (AsciiStrCmp_0 T tag Htag) in Hocc. rewrite Hocc. reflexivity.
  - intros r Hr.
    destruct (Z.eqb_spec (AsciiStrCmp T r tag) 0) as [H0|]; [|reflexivity].
    apply (AsciiStrCmp_0 T tag Htag) in H0. exfalso. exact (Habs r Hr H0).
Qed.

Lemma tag_scan_found (T : mem) (tag : list Z) (first last p : Z) :
  for_DataPtr_le (fun DataPtr => AsciiStrCmp T DataPtr tag =? 0) first last
  = Some p ->
  first <= p <= last.
Proof.
  unfold for_DataPtr_le. intro H.
  apply for_DataPtr_Some in H as (Hp & _). lia.
Qed.

(** X10. When the first "$PV" string of the scanned region is at [p] and
    the version string has at most three characters, [UpdatePPVersion]
    succeeds, the characters and a NUL are at [p] afterwards, and no other
    byte differs: behind the NUL of a shorter version string the bytes of
    the tag stay as they were. *)
Theorem version_is_written (T : mem) (PPVer : list Z) (p : Z) :
  first_occurrence T (PHYSICAL_PRESENCE_VERSION_TAG ++ [0])
    sizeof_EFI_ACPI_DESCRIPTION_HEADER
    (Table_Length T - PHYSICAL_PRESENCE_VERSION_SIZE + 1) p ->
  Z.of_nat (List.length PPVer) < PHYSICAL_PRESENCE_VERSION_SIZE ->
  exists T',
    UpdatePPVersion T PPVer = (EFI_SUCCESS, T') /\
    bytes_of_mem T' p (List.length (PPVer ++ [0])) = PPVer ++ [0] /\
    forall a, a < p \/ p + Z.of_nat (List.length PPVer) < a -> T' a = T a.
Proof.
  intros Hfirst Hlen. unfold UpdatePPVersion.
  rewrite (tag_scan_finds T _ _ _ p (tag_chars PHYSICAL_PRESENCE_VERSION_TAG eq_refl) Hfirst).
  unfold AsciiStrCpyS, PHYSICAL_PRESENCE_VERSION_SIZE in *.
  destruct (Z.leb_spec 4 (Z.of_nat (List.length PPVer))); [lia|].
  cbn [Z.eqb]. eexists. split; [reflexivity|]. split.
  - apply bytes_of_mem_list. intros i Hi.
    rewrite length_app in Hi. cbn [List.length] in Hi.
    destruct (Z.eq_dec i (Z.of_nat (List.length PPVer))) as [->|Hne].
    + rewrite Nat2Z.id, app_nth2, Nat.sub_diag by lia. mem_cases.
    + rewrite app_nth1 by lia. unfold ListByte. mem_cases.
      f_equal. f_equal. lia.
  - intros a Ha. mem_cases.
Qed.

Lemma version_is_written_witness :
  exists T',
    UpdatePPVersion VersionTable
      (bytes_of "1.3") = (EFI_SUCCESS, T') /\
    bytes_of_mem T' 37 (List.length (bytes_of "1.3" ++ [0]))
    = bytes_of "1.3" ++ [0] /\
    forall a, a < 37 \/ 37 + Z.of_nat (List.length (bytes_of "1.3")) < a ->
              T' a = VersionTable a.
Proof.
  apply (version_is_written
           VersionTable
           (bytes_of "1.3") 37).
  - split; [vm_compute; split; congruence|].
    split; [vm_compute; reflexivity|].
    apply absent_check. vm_compute. reflexivity.
  - vm_compute. reflexivity.
Defined.

(** X11. A version string of four characters or more is refused where the
    tag is found: [EFI_BUFFER_TOO_SMALL], and the table is as it was. *)
Theorem long_version_is_refused (T : mem) (PPVer : list Z) (p : Z) :
  first_occurrence T (PHYSICAL_PRESENCE_VERSION_TAG ++ [0])
    sizeof_EFI_ACPI_DESCRIPTION_HEADER
    (Table_Length T - PHYSICAL_PRESENCE_VERSION_SIZE + 1) p ->
  PHYSICAL_PRESENCE_VERSION_SIZE <= Z.of_nat (List.length PPVer) ->
  UpdatePPVersion T PPVer = (EFI_BUFFER_TOO_SMALL, T).
Proof.
  intros Hfirst Hlen. unfold UpdatePPVersion.
  rewrite (tag_scan_finds T _ _ _ p (tag_chars PHYSICAL_PRESENCE_VERSION_TAG eq_refl) Hfirst).
  unfold AsciiStrCpyS, PHYSICAL_PRESENCE_VERSION_SIZE in *.
  destruct (Z.leb_spec 4 (Z.of_nat (List.length PPVer))); [|lia].
  reflexivity.
Qed.

Lemma long_version_is_refused_witness :
  UpdatePPVersion VersionTable
    (bytes_of "1.30")
  = (EFI_BUFFER_TOO_SMALL, VersionTable).
Proof.
  apply (long_version_is_refused
           VersionTable
           (bytes_of "1.30") 37).
  - split; [vm_compute; split; congruence|].
    split; [vm_compute; reflexivity|].
    apply absent_check. vm_compute. reflexivity.
  - vm_compute. discriminate.
Defined.

(** X12. The two string patchers write nothing when they return an error:
    the table after a failed [UpdatePPVersion] or [UpdateHID] is the table
    before it. *)
Theorem string_patchers_fail_clean
  (T : mem) (PPVer : list Z)
  (MfrResult : EFI_STATUS * Z) (FwResult : EFI_STATUS * Z * Z) :
  (EFI_ERROR (fst (UpdatePPVersion T PPVer)) = true ->
   snd (UpdatePPVersion T PPVer) = T) /\
  (EFI_ERROR (fst (UpdateHID T MfrResult FwResult)) = true ->
   snd (UpdateHID T MfrResult FwResult) = T).
Proof.
  split.
  - unfold UpdatePPVersion, AsciiStrCpyS.
    destruct (for_DataPtr_le _ _ _); [|reflexivity].
    destruct (_ =? 0); [reflexivity|].
    destruct (_ <=? _); [reflexivity | discriminate].
  - destruct MfrResult as [Status M], FwResult as [[Status' V1] V2].
    unfold UpdateHID.
    destruct (EFI_ERROR Status) eqn:E; [reflexivity|]. cbn [negb].
    destruct (_ || _);
      (destruct (EFI_ERROR Status') eqn:E'; [reflexivity|]; cbn [negb];
       destruct (for_DataPtr_le _ _ _); [|reflexivity];
       cbn [fst]; congruence).
Qed.

Lemma string_patchers_fail_clean_witness :
  snd (UpdatePPVersion TpmTable (bytes_of "1.3")) = TpmTable /\
  snd (UpdateHID TpmTable (EFI_SUCCESS, 0x004C544E) (EFI_DEVICE_ERROR, 0, 0))
  = TpmTable.
Proof.
  destruct (string_patchers_fail_clean TpmTable (bytes_of "1.3")
              (EFI_SUCCESS, 0x004C544E) (EFI_DEVICE_ERROR, 0, 0)) as (H1 & H2).
  split; [apply H1 | apply H2]; vm_compute; reflexivity.
Defined.

Lemma dec_digits_rev_digits (fuel : nat) :
  forall v, forallb is_digit (dec_digits_rev fuel v) = true.
Proof.
  induction fuel as [|fuel IH]; intro v; [reflexivity|].
  cbn [dec_digits_rev forallb]. apply andb_true_iff. split.
  - unfold is_digit. pose proof (Z.mod_pos_bound v 10 ltac:(lia)). lia.
  - destruct (v / 10 =? 0); [reflexivity | apply IH].
Qed.

Lemma fmt_02d_digits (v : Z) : forallb is_digit (fmt_02d v) = true.
Proof.
  unfold fmt_02d. rewrite forallb_app. apply andb_true_iff. split.
  - apply forallb_forall. intros c Hc. apply repeat_spec in Hc. subst c.
    reflexivity.
  - apply forallb_forall. intros c Hc. apply in_rev in Hc.
    pose proof (dec_digits_rev_digits 10 v) as H.
    rewrite forallb_forall in H. exact (H c Hc).
Qed.

Lemma fmt_02d_length (v : Z) : (2 <= List.length (fmt_02d v))%nat.
Proof.
  unfold fmt_02d. rewrite length_app, repeat_length. lia.
Qed.

Lemma firstn_digits (n : nat) (l : list Z) :
  forallb is_digit l = true -> forallb is_digit (firstn n l) = true.
Proof.
  revert l. induction n as [|n IH]; intros [|c l] H; try reflexivity.
  cbn [firstn forallb] in *. apply andb_true_iff in H as (Hc & Hl).
  rewrite Hc, (IH l Hl). reflexivity.
Qed.

(** What [AsciiSPrint] leaves in [Hid]: four digits at [off], a NUL behind
    them, and the bytes before [off] as they were. *)
Lemma AsciiSPrint_02d02d_bytes (Hid : mem) (off a b : Z) :
  let digits := firstn 4 (fmt_02d a ++ fmt_02d b) in
  List.length digits = 4%nat /\
  forallb is_digit digits = true /\
  (forall j, 0 <= j < 4 ->
             AsciiSPrint_02d02d Hid off 5 a b (off + j) = nth (Z.to_nat j) digits 0) /\
  AsciiSPrint_02d02d Hid off 5 a b (off + 4) = 0 /\
  (forall i, i < off -> AsciiSPrint_02d02d Hid off 5 a b i = Hid i).
Proof.
  intro digits.
  assert (Hlen : List.length digits = 4%nat).
  { unfold digits. rewrite length_firstn, length_app.
    pose proof (fmt_02d_length a). pose proof (fmt_02d_length b). lia. }
  split; [exact Hlen|]. split.
  { apply firstn_digits. rewrite forallb_app, !fmt_02d_digits. reflexivity. }
  unfold AsciiSPrint_02d02d. change (Z.to_nat (5 - 1)) with 4%nat.
  fold digits. rewrite length_app, Hlen. cbn [List.length Nat.add Z.of_nat].
  change (Z.of_nat 5) with 5. unfold ListByte.
  split; [|split].
  - intros j Hj. mem_cases. replace (off + j - off) with j by lia.
    apply app_nth1. lia.
  - mem_cases. replace (off + 4 - off) with 4 by lia.
    rewrite app_nth2 by lia. rewrite Hlen. reflexivity.
  - intros i Hi. mem_cases.
Qed.

(** X13. With both TPM queries answered and the first "NNNN0000" string of
    the scanned region at [p], [UpdateHID] succeeds and writes, from [p]
    on: the three low bytes of the manufacturer ID when its top byte is
    0x00 or 0x20, else all four; behind them four decimal digits, the
    first four characters of the two version halves printed with "%02d";
    a NUL; and, in the three-byte case, a NoOp in the ninth byte.  No byte
    outside these nine differs. *)
Theorem HID_is_written (T : mem) (ManufacturerID FirmwareVersion1 FirmwareVersion2 p : Z) :
  first_occurrence T (TPM_HID_TAG ++ [0])
    sizeof_EFI_ACPI_DESCRIPTION_HEADER
    (Table_Length T - TPM_HID_PNP_SIZE + 1) p ->
  let k := if (Z.shiftr ManufacturerID 24 =? 0x00) || (Z.shiftr ManufacturerID 24 =? 0x20)
           then 3 else 4 in
  let digits :=
    firstn 4 (fmt_02d (Z.shiftr (Z.land FirmwareVersion1 0xFFFF0000) 16) ++
              fmt_02d (Z.land FirmwareVersion1 0x0000FFFF)) in
  exists T',
    UpdateHID T (EFI_SUCCESS, ManufacturerID)
      (EFI_SUCCESS, FirmwareVersion1, FirmwareVersion2) = (EFI_SUCCESS, T') /\
    (forall i, 0 <= i < k -> T' (p + i) = UINT32_bytes ManufacturerID i) /\
    bytes_of_mem T' (p + k) 4 = digits /\
    forallb is_digit digits = true /\
    T' (p + k + 4) = 0 /\
    (k = 3 -> T' (p + 8) = AML_NOOP_OP) /\
    (forall a, a < p \/ p + 9 <= a -> T' a = T a).
Proof.
  intros Hfirst k digits. unfold UpdateHID. cbn [EFI_ERROR negb].
  pose proof (tag_scan_finds T TPM_HID_TAG _ _ p (tag_chars TPM_HID_TAG eq_refl) Hfirst)
    as Hscan.
  change (TPM_HID_PNP_SIZE - 3) with 5. change (TPM_HID_ACPI_SIZE - 4) with 5.
  unfold k.
  destruct ((Z.shiftr ManufacturerID 24 =? 0) || (Z.shiftr ManufacturerID 24 =? 32));
    rewrite Hscan; (eexists; split; [reflexivity|]).
  - destruct (AsciiSPrint_02d02d_bytes
                (CopyMem (fun _ => 0) 0 (UINT32_bytes ManufacturerID) 3) 3
                (Z.shiftr (Z.land FirmwareVersion1 0xFFFF0000) 16)
                (Z.land FirmwareVersion1 0x0000FFFF))
      as (Hlen & Hdig & Hd & Hnul & Hlow).
    fold digits in Hlen, Hdig, Hd. unfold TPM_HID_PNP_SIZE.
    split; [|split; [|split; [exact Hdig|split; [|split]]]].
    + intros i Hi. mem_cases. replace (p + i - p) with i by lia.
      rewrite Hlow by lia. mem_cases. f_equal. lia.
    + rewrite <- Hlen at 1. apply bytes_of_mem_list. rewrite Hlen.
      intros j Hj. mem_cases. replace (p + 3 + j - p) with (3 + j) by lia.
      apply Hd. lia.
    + mem_cases. replace (p + 3 + 4 - p) with (3 + 4) by lia. exact Hnul.
    + intros _. mem_cases.
    + intros a Ha. mem_cases.
  - destruct (AsciiSPrint_02d02d_bytes
                (CopyMem (fun _ => 0) 0 (UINT32_bytes ManufacturerID) 4) 4
                (Z.shiftr (Z.land FirmwareVersion1 0xFFFF0000) 16)
                (Z.land FirmwareVersion1 0x0000FFFF))
      as (Hlen & Hdig & Hd & Hnul & Hlow).
    fold digits in Hlen, Hdig, Hd. unfold TPM_HID_ACPI_SIZE.
    split; [|split; [|split; [exact Hdig|split; [|split]]]].
    + intros i Hi. mem_cases. replace (p + i - p) with i by lia.
      rewrite Hlow by lia. mem_cases. f_equal. lia.
    + rewrite <- Hlen at 1. apply bytes_of_mem_list. rewrite Hlen.
      intros j Hj. mem_cases. replace (p + 4 + j - p) with (4 + j) by lia.
      apply Hd. lia.
    + mem_cases. replace (p + 4 + 4 - p) with (4 + 4) by lia. exact Hnul.
    + intros H. discriminate H.
    + intros a Ha. mem_cases.
Qed.

Lemma HID_is_written_witness :
  exists T',
    UpdateHID HidTable (EFI_SUCCESS, 0x004C544E) (EFI_SUCCESS, 0x00070055, 0)
    = (EFI_SUCCESS, T') /\
    (forall i, 0 <= i < 3 -> T' (37 + i) = UINT32_bytes 0x004C544E i) /\
    bytes_of_mem T' (37 + 3) 4 = bytes_of "0785" /\
    forallb is_digit (bytes_of "0785") = true /\
    T' (37 + 3 + 4) = 0 /\
    (3 = 3 -> T' (37 + 8) = AML_NOOP_OP) /\
    (forall a, a < 37 \/ 37 + 9 <= a -> T' a = HidTable a).
Proof.
  apply (HID_is_written HidTable 0x004C544E 0x00070055 0 37).
  split; [vm_compute; split; congruence|].
  split; [vm_compute; reflexivity|].
  apply absent_check. vm_compute. reflexivity.
Defined.

(** X14. When the eight characters of the first "NNNN0000" string are the
    last eight bytes of the table, the NUL that ends the string is the byte
    behind the table, at offset [Table->Length]; with a manufacturer ID
    whose top byte is 0x00 or 0x20 [UpdateHID] turns that byte into a
    NoOp. *)
Theorem HID_at_the_end_writes_behind_the_table
  (T : mem) (ManufacturerID FirmwareVersion1 FirmwareVersion2 : Z) :
  first_occurrence T (TPM_HID_TAG ++ [0])
    sizeof_EFI_ACPI_DESCRIPTION_HEADER
    (Table_Length T - TPM_HID_PNP_SIZE + 1) (Table_Length T - TPM_HID_PNP_SIZE) ->
  (Z.shiftr ManufacturerID 24 =? 0x00) || (Z.shiftr ManufacturerID 24 =? 0x20) = true ->
  T (Table_Length T) = 0 /\
  snd (UpdateHID T (EFI_SUCCESS, ManufacturerID)
         (EFI_SUCCESS, FirmwareVersion1, FirmwareVersion2)) (Table_Length T)
  = AML_NOOP_OP.
Proof.
  intros Hfirst Hpnp. split.
  - destruct Hfirst as (_ & Hocc & _). unfold occurs_at in Hocc.
    apply (f_equal (fun l => nth 8 l 0)) in Hocc.
    cbn in Hocc. rewrite <- Hocc. f_equal. unfold TPM_HID_PNP_SIZE. lia.
  - unfold UpdateHID. cbn [EFI_ERROR negb]. rewrite Hpnp.
    rewrite (tag_scan_finds T TPM_HID_TAG _ _ _ (tag_chars TPM_HID_TAG eq_refl)
               Hfirst).
    cbn [snd]. unfold poke.
    replace (Table_Length T - TPM_HID_PNP_SIZE + TPM_HID_PNP_SIZE)
      with (Table_Length T) by lia.
    rewrite Z.eqb_refl. reflexivity.
Qed.

Lemma HID_at_the_end_writes_behind_the_table_witness :
  HidEndTable (Table_Length HidEndTable) = 0 /\
  snd (UpdateHID HidEndTable (EFI_SUCCESS, 0x004C544E) (EFI_SUCCESS, 0x00070055, 0))
    (Table_Length HidEndTable) = AML_NOOP_OP.
Proof.
  apply (HID_at_the_end_writes_behind_the_table HidEndTable 0x004C544E 0x00070055 0).
  - split; [vm_compute; split; congruence|].
    split; [vm_compute; reflexivity|].
    apply absent_check. vm_compute. reflexivity.
  - vm_compute. reflexivity.
Defined.

(** X15. A tag is not found exactly when no NUL-terminated copy of it
    starts in the scanned region: [UpdatePPVersion] returns [EFI_NOT_FOUND]
    if and only if no "$PV" followed by a NUL starts at an offset from 36 to
    [Table->Length - 4], and [UpdateHID], both queries answered, if and only
    if no "NNNN0000" followed by a NUL starts at an offset from 36 to
    [Table->Length - 8]. *)
Theorem tag_not_found_exactly
  (T : mem) (PPVer : list Z) (ManufacturerID FirmwareVersion1 FirmwareVersion2 : Z) :
  (fst (UpdatePPVersion T PPVer) = EFI_NOT_FOUND <->
   absent T (PHYSICAL_PRESENCE_VERSION_TAG ++ [0])
     sizeof_EFI_ACPI_DESCRIPTION_HEADER
     (Table_Length T - PHYSICAL_PRESENCE_VERSION_SIZE + 1)) /\
  (fst (UpdateHID T (EFI_SUCCESS, ManufacturerID)
          (EFI_SUCCESS, FirmwareVersion1, FirmwareVersion2)) = EFI_NOT_FOUND <->
   absent T (TPM_HID_TAG ++ [0])
     sizeof_EFI_ACPI_DESCRIPTION_HEADER
     (Table_Length T - TPM_HID_PNP_SIZE + 1)).
Proof.
  split.
  - unfold UpdatePPVersion, for_DataPtr_le.
    destruct (for_DataPtr _ _ _) as [p|] eqn:E.
    + apply for_DataPtr_Some in E as (Hp & Hhit & _).
      apply Z.eqb_eq in Hhit.
      apply (AsciiStrCmp_0 T _ (tag_chars PHYSICAL_PRESENCE_VERSION_TAG eq_refl))
        in Hhit.
      split.
      * unfold AsciiStrCpyS. cbn [Z.eqb PHYSICAL_PRESENCE_VERSION_SIZE].
        destruct (_ <=? _); discriminate.
      * intro Habs. exfalso. exact (Habs p Hp Hhit).
    + split; [|reflexivity]. intros _ p Hp Hocc.
      rewrite for_DataPtr_None in E. specialize (E p Hp).
      apply (AsciiStrCmp_0 T _ (tag_chars PHYSICAL_PRESENCE_VERSION_TAG eq_refl))
        in Hocc.
      rewrite Hocc in E. discriminate.
  - unfold UpdateHID, for_DataPtr_le. cbn [EFI_ERROR negb].
    destruct (_ || _);
      (destruct (for_DataPtr _ _ _) as [p|] eqn:E;
       [ apply for_DataPtr_Some in E as (Hp & Hhit & _);
         apply Z.eqb_eq in Hhit;
         apply (AsciiStrCmp_0 T _ (tag_chars TPM_HID_TAG eq_refl)) in Hhit;
         split; [discriminate | intro Habs; exfalso; exact (Habs p Hp Hhit)]
       | split; [|reflexivity]; intros _ p Hp Hocc;
         rewrite for_DataPtr_None in E; specialize (E p Hp);
         apply (AsciiStrCmp_0 T _ (tag_chars TPM_HID_TAG eq_refl)) in Hocc;
         rewrite Hocc in E; discriminate ]).
Qed.

(** ** The header of the table *)

Lemma FindName_from_header (T : mem) (Name : list Z) (p : Z) :
  FindName T Name = Some p -> sizeof_EFI_ACPI_DESCRIPTION_HEADER <= p.
Proof.
  unfold FindName. intro H. apply for_DataPtr_Some in H as (Hp & _). lia.
Qed.

Lemma PatchRESS_header (L : Z) (T : mem) (F : bool) :
  match PatchRESS L T F with
  | Return _ T' _ => T' = T
  | Next s =>
      sizeof_EFI_ACPI_DESCRIPTION_HEADER <= DataPtr s /\
      forall a, a < sizeof_EFI_ACPI_DESCRIPTION_HEADER -> Table s a = T a
  end.
Proof.
  unfold PatchRESS.
  destruct (FindName T TPM_PRS_RESS) as [p|] eqn:E.
  - apply FindName_from_header in E.
    unfold sizeof_EFI_ACPI_DESCRIPTION_HEADER, TPM_PRS_RES_NAME_SIZE in *.
    destruct (_ =? 0); [|reflexivity].
    destruct (BufferSizeLen _); [|reflexivity].
    destruct (_ >? 63); [cbn [DataPtr Table]; split; [lia | reflexivity]|].
    destruct (_ >? _); [reflexivity|].
    cbn [DataPtr Table]. split; [lia|].
    intros a Ha. unfold EncodeShortPkgLength. mem_cases.
  - cbn [DataPtr Table]. split; [lia | reflexivity].
Qed.

Lemma PatchRESL_header (L : Z) (s : Locals) :
  sizeof_EFI_ACPI_DESCRIPTION_HEADER <= DataPtr s ->
  match PatchRESL L s with
  | Return _ T' _ => T' = Table s
  | Next s' =>
      sizeof_EFI_ACPI_DESCRIPTION_HEADER <= DataPtr s' /\
      forall a, a < sizeof_EFI_ACPI_DESCRIPTION_HEADER -> Table s' a = Table s a
  end.
Proof.
  intro Hs. unfold PatchRESL.
  destruct (_ >? 63); [|split; [exact Hs | reflexivity]].
  destruct (FindName (Table s) TPM_PRS_RESL) as [p|] eqn:E.
  - apply FindName_from_header in E.
    unfold sizeof_EFI_ACPI_DESCRIPTION_HEADER, TPM_PRS_RES_NAME_SIZE in *.
    destruct (negb _); [|reflexivity].
    destruct (BufferSizeLen _) as [z|]; [|reflexivity].
    destruct (_ >? _); [reflexivity|].
    cbn [DataPtr Table]. split; [lia|].
    intros a Ha.
    pose proof (ByteDataCount_range
                  (EncodeLongPkgLength (Table s) (p + (4 + 1))
                     (UINT32 (UINT32 (UINT32 (0 + (1 + ByteDataCount (Table s (p + (4 + 1)))))
                                      + z) + (19 + L)))
                     (p + (4 + 1)))) as Hc.
    revert Hc. generalize (ByteDataCount
                  (EncodeLongPkgLength (Table s) (p + (4 + 1))
                     (UINT32 (UINT32 (UINT32 (0 + (1 + ByteDataCount (Table s (p + (4 + 1)))))
                                      + z) + (19 + L)))
                     (p + (4 + 1)))).
    intros c Hc. unfold EncodeLongPkgLength. mem_cases.
  - cbn [DataPtr Table]. split; [lia | reflexivity].
Qed.

Lemma PatchInterrupt_header (IrqBuffer : list Z) (L : Z) (s : Locals) :
  sizeof_EFI_ACPI_DESCRIPTION_HEADER <= DataPtr s ->
  forall a, a < sizeof_EFI_ACPI_DESCRIPTION_HEADER ->
            MemoryAfter (PatchInterrupt IrqBuffer L s) a = Table s a.
Proof.
  intros Hs a Ha. unfold PatchInterrupt.
  unfold sizeof_EFI_ACPI_DESCRIPTION_HEADER in *.
  destruct (_ >=? _); [reflexivity|].
  unfold MemoryAfter. cbn [fst snd].
  pose proof (UINT32_range (NewPkgLength s - UINT32 (5 + L + 2))).
  pose proof (UINT32_range (5 + L)).
  destruct (DataEndPtr s) as [e|]; [destruct (_ <? e)|]; mem_cases.
Qed.

Lemma UpdatePossibleResource_header
  (T : mem) (IrqBuffer : list Z) (L : Z) (F : bool) (a : Z) :
  a < sizeof_EFI_ACPI_DESCRIPTION_HEADER ->
  MemoryAfter (UpdatePossibleResource T IrqBuffer L F) a = T a.
Proof.
  intro Ha. unfold UpdatePossibleResource.
  pose proof (PatchRESS_header L T F) as H1.
  destruct (PatchRESS L T F) as [St T1 F1 | s1];
    [subst T1; reflexivity|].
  destruct H1 as (Hs1 & Hf1).
  pose proof (PatchRESL_header L s1 Hs1) as H2.
  destruct (PatchRESL L s1) as [St T2 F2 | s2].
  - subst T2. unfold MemoryAfter. cbn [fst snd]. apply Hf1, Ha.
  - destruct H2 as (Hs2 & Hf2).
    rewrite (PatchInterrupt_header IrqBuffer L s2 Hs2 a Ha), Hf2 by exact Ha.
    apply Hf1, Ha.
Qed.

Lemma UpdatePPVersion_header (T : mem) (PPVer : list Z) (a : Z) :
  a < sizeof_EFI_ACPI_DESCRIPTION_HEADER -> snd (UpdatePPVersion T PPVer) a = T a.
Proof.
  intro Ha. unfold UpdatePPVersion.
  destruct (for_DataPtr_le _ _ _) as [p|] eqn:E; [|reflexivity].
  apply tag_scan_found in E. unfold AsciiStrCpyS.
  unfold sizeof_EFI_ACPI_DESCRIPTION_HEADER in *.
  destruct (_ =? 0); [reflexivity|].
  destruct (_ <=? Z.of_nat _); [reflexivity|].
  cbn [snd]. mem_cases.
Qed.

Lemma UpdateHID_header
  (T : mem) (MfrResult : EFI_STATUS * Z) (FwResult : EFI_STATUS * Z * Z) (a : Z) :
  a < sizeof_EFI_ACPI_DESCRIPTION_HEADER ->
  snd (UpdateHID T MfrResult FwResult) a = T a.
Proof.
  intro Ha. destruct MfrResult as [Status M], FwResult as [[Status' V1] V2].
  unfold UpdateHID.
  destruct (negb (EFI_ERROR Status)); [|reflexivity].
  destruct (_ || _);
    (destruct (negb (EFI_ERROR Status')); [|reflexivity];
     destruct (for_DataPtr_le _ _ _) as [p|] eqn:E; [|reflexivity];
     apply tag_scan_found in E;
     unfold sizeof_EFI_ACPI_DESCRIPTION_HEADER, TPM_HID_PNP_SIZE,
       TPM_HID_ACPI_SIZE in *;
     cbn [snd]; mem_cases).
Qed.

Lemma Table_Length_header (T T' : mem) :
  (forall a, a < sizeof_EFI_ACPI_DESCRIPTION_HEADER -> T' a = T a) ->
  Table_Length T' = Table_Length T.
Proof.
  intro H. unfold Table_Length.
  rewrite !H by (unfold sizeof_EFI_ACPI_DESCRIPTION_HEADER; lia). reflexivity.
Qed.

(** X16. None of the three patchers writes into the 36 bytes of the ACPI
    header, whatever the table holds and whatever they return: the bytes
    below offset 36, and with them [Table->Length], are the same after
    [UpdatePPVersion], [UpdateHID] and [UpdatePossibleResource]. *)
Theorem patchers_keep_the_header
  (T : mem) (PPVer : list Z)
  (MfrResult : EFI_STATUS * Z) (FwResult : EFI_STATUS * Z * Z)
  (IrqBuffer : list Z) (IrqBuffserSize : Z) (Flag0 : bool) :
  let T1 := snd (UpdatePPVersion T PPVer) in
  let T2 := snd (UpdateHID T MfrResult FwResult) in
  let T3 := MemoryAfter (UpdatePossibleResource T IrqBuffer IrqBuffserSize Flag0) in
  (forall a, a < sizeof_EFI_ACPI_DESCRIPTION_HEADER ->
             T1 a = T a /\ T2 a = T a /\ T3 a = T a) /\
  Table_Length T1 = Table_Length T /\
  Table_Length T2 = Table_Length T /\
  Table_Length T3 = Table_Length T.
Proof.
  intros T1 T2 T3.
  assert (H : forall a, a < sizeof_EFI_ACPI_DESCRIPTION_HEADER ->
                        T1 a = T a /\ T2 a = T a /\ T3 a = T a).
  { intros a Ha. split; [|split].
    - apply UpdatePPVersion_header, Ha.
    - apply UpdateHID_header, Ha.
    - apply UpdatePossibleResource_header, Ha. }
  split; [exact H|].
  split; [|split]; apply Table_Length_header; intros a Ha; apply (H a Ha).
Qed.

(** ** PublishAcpiTable *)

(** X17. [PublishAcpiTable] hands the ACPI table protocol a table whose
    header is the header of the section it read: whatever the platform
    answers, the bytes below offset 36 and [Table->Length] are the
    section's, and a table that is installed is installed with the size of
    the section. *)
Theorem published_table_keeps_the_header (P : Platform) :
  (forall a, a < sizeof_EFI_ACPI_DESCRIPTION_HEADER ->
             TableAfter (PublishAcpiTable P) a = SectionTable P a) /\
  Table_Length (TableAfter (PublishAcpiTable P)) = Table_Length (SectionTable P) /\
  (Installed (PublishAcpiTable P) = None \/
   Installed (PublishAcpiTable P)
   = Some (TableAfter (PublishAcpiTable P), SectionSize P)).
Proof.
  assert (H : forall a, a < sizeof_EFI_ACPI_DESCRIPTION_HEADER ->
                        TableAfter (PublishAcpiTable P) a = SectionTable P a).
  { intros a Ha. unfold PublishAcpiTable.
    pose proof (UpdatePPVersion_header (SectionTable P)
                  (PcdTcgPhysicalPresenceInterfaceVer P) a Ha) as H1.
    destruct (UpdatePPVersion _ _) as [St1 T1]. cbn [snd] in H1.
    pose proof (UpdateHID_header T1 (ManufactureID P) (FirmwareVersion P) a Ha)
      as H2.
    destruct (UpdateHID _ _ _) as [St2 T2]. cbn [snd] in H2.
    destruct (EFI_ERROR St2); cbn [TableAfter]; [congruence|].
    destruct (negb _); [|congruence].
    destruct (_ && _); [|congruence].
    rewrite UpdatePossibleResource_header by exact Ha. congruence. }
  split; [exact H|].
  split; [apply Table_Length_header, H|].
  unfold PublishAcpiTable.
  destruct (UpdatePPVersion _ _) as [St1 T1].
  destruct (UpdateHID _ _ _) as [St2 T2].
  destruct (EFI_ERROR St2); [left | right]; reflexivity.
Qed.

Lemma tag_not_found_exactly_witness :
  fst (UpdatePPVersion TpmTable (bytes_of "1.3")) = EFI_NOT_FOUND /\
  fst (UpdateHID TpmTable (EFI_SUCCESS, 0x004C544E) (EFI_SUCCESS, 0x00070055, 0))
  = EFI_NOT_FOUND.
Proof.
  destruct (tag_not_found_exactly TpmTable (bytes_of "1.3")
              0x004C544E 0x00070055 0) as (H1 & H2).
  split; [apply (proj2 H1) | apply (proj2 H2)];
    apply absent_check; vm_compute; reflexivity.
Defined.

Lemma patchers_keep_the_header_witness :
  snd (UpdatePPVersion SsdtTable (bytes_of "1.3")) 4 = SsdtTable 4 /\
  snd (UpdateHID SsdtTable (EFI_SUCCESS, 0x004C544E) (EFI_SUCCESS, 0x00070055, 0)) 4
  = SsdtTable 4 /\
  MemoryAfter (UpdatePossibleResource SsdtTable (irq_list 12 2) 8 false) 4
  = SsdtTable 4.
Proof.
  apply (proj1 (patchers_keep_the_header SsdtTable (bytes_of "1.3")
                  (EFI_SUCCESS, 0x004C544E) (EFI_SUCCESS, 0x00070055, 0)
                  (irq_list 12 2) 8 false) 4).
  vm_compute. reflexivity.
Defined.

Lemma published_table_keeps_the_header_witness :
  TableAfter (PublishAcpiTable ExamplePlatform) 4 = SectionTable ExamplePlatform 4.
Proof.
  apply (proj1 (published_table_keeps_the_header ExamplePlatform) 4).
  vm_compute. reflexivity.
Defined.

(** The example platform publishes its table with the version, the HID and
    the two interrupts patched in; the measurement is of the section as it
    was read. *)
Example a_table_is_published :
  PublishStatus (PublishAcpiTable ExamplePlatform) = EFI_SUCCESS /\
  bytes_of_mem (TableAfter (PublishAcpiTable ExamplePlatform)) 0 8
  = bytes_of_mem SsdtTable 0 8 /\
  bytes_of_mem (TableAfter (PublishAcpiTable ExamplePlatform)) 36 180
  = [0x0D] ++ bytes_of "1.3" ++ [0; 0x0D]
    ++ bytes_of "NTL0785" ++ [0; AML_NOOP_OP; 0x08]
    ++ TPM_PRS_RESS ++ [0x11; 30; AML_BYTE_PREFIX; 27]
    ++ Memory32Fixed ++ [0x89; 10; 0x00; 0x15; 2] ++ irq_list 12 2
    ++ [ACPI_END_TAG_DESCRIPTOR; 0] ++ repeat AML_NOOP_OP 32
    ++ [0x08] ++ RESL_template 15 ++ repeat 0x00 8 /\
  option_map snd (Installed (PublishAcpiTable ExamplePlatform)) = Some 216 /\
  option_map snd (Measured (PublishAcpiTable ExamplePlatform)) = Some 216.
Proof. vm_compute. repeat split; reflexivity. Qed.
